(** * NekoFlare: the UCB model, the candidate generator and the Stage-2 selection

    A shallow embedding of [src/app.py].

    - Python floats are modelled as exact rationals ([Q]); the only place
      that leaves the rationals is [get_score], whose square root and
      logarithm are taken in the reals ([R]).
    - Python [dict]s keyed by subnet strings are [gmap string _].
    - The [random] module is a stream of raw draws threaded through a small
      state-and-exception monad.
    - The [while] loop of the cold start is run with fuel. *)

From Stdlib Require Import QArith Qreals Reals Psatz ZArith List Ascii String Sorted.
From stdpp Require Import gmap strings list fin_maps pretty sorting.

Local Open Scope Q_scope.

(** ** Python built-ins on floats *)

(** [max(a, b)]: the first argument unless the second is strictly larger. *)
Definition py_max (a b : Q) : Q := if Qlt_le_dec a b then b else a.

(** [min(a, b)]: the first argument unless the second is strictly smaller. *)
Definition py_min (a b : Q) : Q := if Qlt_le_dec b a then b else a.

(** [a < b] and [a > b] as booleans. *)
Definition Qltb (a b : Q) : bool := if Qlt_le_dec a b then true else false.
Definition Qgtb (a b : Q) : bool := Qltb b a.
Definition Qgeb (a b : Q) : bool := negb (Qltb a b).

(** ** Dotted-quad addresses ([ipaddress], as far as [app.py] uses it) *)

Module Ip.

(** [s.split(sep)] for a one-character separator. *)
Fixpoint split (sep : ascii) (s : string) : list string :=
  match s with
  | EmptyString => [EmptyString]
  | String c rest =>
      if Ascii.eqb c sep then EmptyString :: split sep rest
      else match split sep rest with
           | [] => [String c EmptyString]
           | h :: t => String c h :: t
           end
  end.

(** [c in s] for a character [c]. *)
Fixpoint contains (c : ascii) (s : string) : bool :=
  match s with
  | EmptyString => false
  | String d rest => Ascii.eqb c d || contains c rest
  end.

Definition is_digit (c : ascii) : bool :=
  let n := N_of_ascii c in (48 <=? n)%N && (n <=? 57)%N.

Fixpoint all_digits (s : string) : bool :=
  match s with
  | EmptyString => true
  | String c rest => is_digit c && all_digits rest
  end.

(** [int(s, 10)] on a string of digits. *)
Fixpoint int_of_digits (acc : N) (s : string) : N :=
  match s with
  | EmptyString => acc
  | String c rest => int_of_digits (10 * acc + (N_of_ascii c - 48))%N rest
  end.

(** [IPv4Address._parse_octet]: one to three decimal digits, no leading
    zero, at most 255. *)
Definition parse_octet (s : string) : option N :=
  match s with
  | EmptyString => None
  | String c rest =>
      if negb (all_digits s) then None
      else if (3 <? String.length s)%nat then None
      else if Ascii.eqb c "0" && negb (String.eqb s "0") then None
      else let v := int_of_digits 0 s in
           if (255 <? v)%N then None else Some v
  end.

(** [IPv4Address(s)] as a 32-bit number: exactly four octets. *)
Definition parse_v4 (s : string) : option N :=
  match split "." s with
  | [a; b; c; d] =>
      match parse_octet a, parse_octet b, parse_octet c, parse_octet d with
      | Some a, Some b, Some c, Some d =>
          Some (((a * 256 + b) * 256 + c) * 256 + d)%N
      | _, _, _, _ => None
      end
  | _ => None
  end.

(** [str(IPv4Address(n))]. *)
Definition str_v4 (n : N) : string :=
  pretty (n / 16777216 mod 256)%N +:+ "." +:+
  pretty (n / 65536 mod 256)%N +:+ "." +:+
  pretty (n / 256 mod 256)%N +:+ "." +:+
  pretty (n mod 256)%N.

(** [str(ipaddress.IPv4Network(ip + "/24", strict=False).network_address)],
    [None] when the constructor raises.  A second ['/'] in [ip] is
    refused ("Only one '/' permitted"). *)
Definition network24 (ip : string) : option string :=
  if contains "/" ip then None
  else match parse_v4 ip with
       | Some n => Some (str_v4 (n / 256 * 256)%N)
       | None => None
       end.

End Ip.

(** ** 2. The UCB model ([class UCBManager]) *)

Module UCBManager.

(** One entry of [data["subnets"]]. *)
Record record := { count : Q; total_reward : Q }.

(** [self.decay_rate] and [self.data]. *)
Record t := {
  decay_rate : Q;
  version : Z;
  total_runs : Q;
  launch_count : Z;
  subnets : gmap string record
}.

(** The state [__init__] builds before [load]. *)
Definition init (decay : Q) : t :=
  {| decay_rate := decay; version := 5; total_runs := 0;
     launch_count := 0; subnets := ∅ |}.

(** The last line of [__init__]: one more launch. *)
Definition count_launch (u : t) : t :=
  {| decay_rate := decay_rate u; version := version u;
     total_runs := total_runs u;
     launch_count := (launch_count u + 1)%Z; subnets := subnets u |}.

(** [record["total_reward"] / record["count"] if record["count"] > 0 else 0] *)
Definition avg_or_zero (r : record) : Q :=
  if Qlt_le_dec 0 (count r) then total_reward r / count r else 0.

Definition decay (rate : Q) (r : record) : record :=
  {| count := count r * rate; total_reward := total_reward r * rate |}.

(** The test that puts a decayed record on [to_remove]. *)
Definition stale (r : record) : bool :=
  Qltb (count r) 0.5 && Qltb (avg_or_zero r) 0.2.

(** [save], up to the write of the model file (which is best effort and
    leaves [self.data] as it is). *)
Definition save (u : t) : t :=
  {| decay_rate := decay_rate u; version := version u;
     total_runs := total_runs u * decay_rate u;
     launch_count := launch_count u;
     subnets :=
       filter (λ kv : string * record, stale kv.2 = false)
              (decay (decay_rate u) <$> subnets u) |}.

(** [is_cold_start] *)
Definition is_cold_start (u : t) : bool :=
  (launch_count u <=? 3)%Z || (size (subnets u) <? 100)%nat.

(** [current_reward] of [update] (lines 106-114). *)
Definition current_reward (latency speed : Q) (is_loss tcp_only : bool) : Q :=
  if is_loss then 0
  else
    let r_latency := 0.3 * (1 - py_min (py_max (latency - 50) 0 / 150) 1) in
    if tcp_only then r_latency
    else
      let r_speed := 0.7 * py_min (speed / 10) 1 in
      r_latency + r_speed.

(** [impact_weight] of [update] (lines 120-124). *)
Definition impact_weight (r : record) (reward : Q) : Q :=
  if Qgtb (count r) 2 then
    let avg_score := total_reward r / count r in
    if Qgtb avg_score 0.6 && Qltb reward 0.1 then 0.2 else 1
  else 1.

(** The subnet an address belongs to (lines 101-104): [None] stands for
    the two [return]s, an address with a colon or one that
    [IPv4Network] refuses. *)
Definition subnet_of (ip : string) : option string :=
  if Ip.contains ":" ip then None else Ip.network24 ip.

(** [update] *)
Definition update (ip : string) (latency speed : Q) (is_loss tcp_only : bool)
    (u : t) : t :=
  match subnet_of ip with
  | None => u
  | Some net =>
      let reward := current_reward latency speed is_loss tcp_only in
      let r := default {| count := 0; total_reward := 0 |} (subnets u !! net) in
      let w := impact_weight r reward in
      {| decay_rate := decay_rate u; version := version u;
         total_runs := total_runs u + w;
         launch_count := launch_count u;
         subnets :=
           <[net := {| count := count r + w;
                       total_reward := total_reward r + reward * w |}]>
             (subnets u) |}
  end.

(** [get_score].  The average is a quotient of floats; the exploration
    term is a real number. *)
Definition get_score (u : t) (subnet_ip : string) : R :=
  match subnets u !! subnet_ip with
  | None => 9999%R
  | Some r =>
      if Qltb (count r) 0.1 then 9999%R
      else
        let n := py_max (total_runs u) 1 in
        let nj := count r in
        let avg_reward := total_reward r / nj in
        (Q2R avg_reward + sqrt (2 * ln (Q2R n) / Q2R nj))%R
  end.

End UCBManager.

(** ** The [random] module *)

Module Random.

(** The generator: an unbounded supply of raw draws and a read position. *)
Record state := { draws : nat -> N; cursor : nat }.

Inductive exn := ValueError | IndexError.

(** What running a piece of code gives: a value and the generator after
    it, an uncaught exception, or [OutOfFuel] when the [while] loop had not
    ended within the fuel given. *)
Inductive outcome (A : Type) :=
| Return (a : A) (s : state)
| Raise (e : exn)
| OutOfFuel.
Arguments Return {A} a s.
Arguments Raise {A} e.
Arguments OutOfFuel {A}.

Definition M (A : Type) : Type := state -> outcome A.

Definition ret {A} (a : A) : M A := fun s => Return a s.
Definition raise {A} (e : exn) : M A := fun _ => Raise e.
Definition out_of_fuel {A} : M A := fun _ => OutOfFuel.
Definition bind {A B} (c : M A) (k : A -> M B) : M B :=
  fun s => match c s with
           | Return a s' => k a s'
           | Raise e => Raise e
           | OutOfFuel => OutOfFuel
           end.

Definition next_raw : M N :=
  fun s => Return (draws s (cursor s))
                  {| draws := draws s; cursor := S (cursor s) |}.

End Random.

Import Random.

Declare Scope rand_scope.
Delimit Scope rand_scope with rand.
Notation "'let*' x ':=' c 'in' k" := (Random.bind c (fun x => k))
  (at level 10, x pattern, c at level 100, k at level 200) : rand_scope.
Local Open Scope rand_scope.

Module PyRandom.

(** [random._randbelow(n)] for [n > 0]: uniform in [0 .. n-1]. *)
Definition randbelow (n : N) : M N :=
  let* raw := next_raw in ret (raw mod n)%N.

(** [random.randint(a, b)]: [ValueError] on an empty range. *)
Definition randint (a b : Z) : M Z :=
  if (b <? a)%Z then raise ValueError
  else let* k := randbelow (Z.to_N (b - a + 1)) in ret (a + Z.of_N k)%Z.

(** [random.random()]: a multiple of 2^-53 in [0, 1). *)
Definition random : M Q :=
  let* raw := next_raw in
  ret (inject_Z (Z.of_N (raw mod 9007199254740992)) / 9007199254740992).

(** [x[i], x[j] = x[j], x[i]] *)
Definition swap {A} (x : list A) (i j : nat) : list A :=
  match x !! i, x !! j with
  | Some a, Some b => <[j := a]> (<[i := b]> x)
  | _, _ => x
  end.

(** The loop of [random.shuffle]: [i] runs from [len(x) - 1] down to 1. *)
Fixpoint shuffle_from {A} (i : nat) (x : list A) : M (list A) :=
  match i with
  | O => ret x
  | S i' =>
      let* j := randbelow (N.of_nat (i + 1)) in
      shuffle_from i' (swap x i (N.to_nat j))
  end.

Definition shuffle {A} (x : list A) : M (list A) :=
  shuffle_from (length x - 1) x.

(** [random.choice(seq)] *)
Definition choice {A} (l : list A) : M A :=
  match l with
  | [] => raise IndexError
  | _ =>
      let* j := randbelow (N.of_nat (length l)) in
      match l !! N.to_nat j with
      | Some a => ret a
      | None => raise IndexError
      end
  end.

End PyRandom.

(** ** Networks ([ipaddress.IPv4Network], [ipaddress.IPv6Network]) *)

Module Net.

(** A network after [ip_network(_, strict=False)]: the base address with
    the host bits cleared, and the prefix length. *)
Record IPv4Network := { network_address : N; prefixlen : N }.

Definition num_addresses (sn : IPv4Network) : Z :=
  (2 ^ (32 - Z.of_N (prefixlen sn)))%Z.

(** [list(net.subnets(new_prefix=24))] for a prefix shorter than 24. *)
Definition subnets24 (net : IPv4Network) : list IPv4Network :=
  map (fun i => {| network_address := network_address net + N.of_nat i * 256;
                   prefixlen := 24 |})
      (seq 0 (N.to_nat (2 ^ (24 - prefixlen net)))).

(** [sn[n]]: the n-th address of the network, counted from the end for a
    negative index, [IndexError] outside it. *)
Definition getitem (sn : IPv4Network) (n : Z) : M N :=
  if (0 <=? n)%Z then
    if (n <? num_addresses sn)%Z then ret (network_address sn + Z.to_N n)%N
    else raise IndexError
  else
    if (0 <=? num_addresses sn + n)%Z
    then ret (network_address sn + Z.to_N (num_addresses sn + n))%N
    else raise IndexError.

(** The address lies in the network. *)
Definition contains (sn : IPv4Network) (a : N) : bool :=
  (network_address sn <=? a)%N
  && (Z.of_N a <? Z.of_N (network_address sn) + num_addresses sn)%Z.

Record IPv6Network := { network_address6 : N; prefixlen6 : N }.

Definition hex_digit (d : N) : ascii :=
  ascii_of_N (if (d <? 10)%N then 48 + d else 87 + d).

Fixpoint strip_zeros (ds : list N) : list N :=
  match ds with
  | [] => []
  | d :: rest => if (d =? 0)%N then strip_zeros rest else ds
  end.

(** ['%x' % n] for a hextet (at most four digits). *)
Definition hex (n : N) : string :=
  let ds := [n / 4096 mod 16; n / 256 mod 16; n / 16 mod 16; n mod 16]%N in
  match strip_zeros ds with
  | [] => "0"%string
  | ds' => string_of_list_ascii (map hex_digit ds')
  end.

Definition hextets (n : N) : list string :=
  map (fun i => hex (n / 2 ^ (16 * N.of_nat (7 - i)) mod 65536)%N) (seq 0 8).

(** The scan of [_compress_hextets]: the first longest run of ["0"]
    hextets, as (best start, best length). *)
Fixpoint best_run (l : list string) (index : nat)
    (cur_start : option nat) (cur_len : nat) (best : nat * nat) : nat * nat :=
  match l with
  | [] => best
  | h :: rest =>
      if String.eqb h "0" then
        let cur_len' := S cur_len in
        let cur_start' := match cur_start with
                          | None => index | Some st => st end in
        let best' := if (snd best <? cur_len')%nat
                     then (cur_start', cur_len') else best in
        best_run rest (S index) (Some cur_start') cur_len' best'
      else best_run rest (S index) None 0%nat best
  end.

Definition compress_hextets (hs : list string) : list string :=
  let '(st, len) := best_run hs 0%nat None 0%nat (0%nat, 0%nat) in
  if (1 <? len)%nat then
    let hs1 := if (st + len =? length hs)%nat then hs ++ [EmptyString] else hs in
    let hs2 := take st hs1 ++ [EmptyString] ++ drop (st + len) hs1 in
    if (st =? 0)%nat then EmptyString :: hs2 else hs2
  else hs.

(** [':'.join(l)] *)
Fixpoint join_colon (l : list string) : string :=
  match l with
  | [] => EmptyString
  | [h] => h
  | h :: rest => h +:+ ":" +:+ join_colon rest
  end.

(** [str(ipaddress.IPv6Address(n))], [ValueError] when [n] does not fit
    128 bits. *)
Definition str_v6 (n : N) : M string :=
  if (n <? 2 ^ 128)%N then ret (join_colon (compress_hextets (hextets n)))
  else raise ValueError.

End Net.

(** ** 4. The candidate generator ([class SmartGenerator]) *)

Module SmartGenerator.
Import Net PyRandom.

(** Step 1 of [generate]: every IPv4 range as /24 groups. *)
Fixpoint expand (cidrs_v4 : list IPv4Network) : list IPv4Network :=
  match cidrs_v4 with
  | [] => []
  | net :: rest =>
      if (prefixlen net <? 24)%N then subnets24 net ++ expand rest
      else net :: expand rest
  end.

(** [len(l)] *)
Definition len {A} (l : list A) : Z := Z.of_nat (length l).

(** [str(sn[random.randint(1, sn.num_addresses - 2)])] *)
Definition random_host (sn : IPv4Network) : M string :=
  let* k := randint 1 (num_addresses sn - 2) in
  let* a := getitem sn k in
  ret (Ip.str_v4 a).

(** One pass of [for sn in all_subnets] in the cold start (lines 241-245). *)
Fixpoint cold_sweep (max_total_count : Z) (all_subnets : list IPv4Network)
    (targets : list string) : M (list string) :=
  match all_subnets with
  | [] => ret targets
  | sn :: rest =>
      if (max_total_count <=? len targets)%Z then ret targets
      else if (2 <? num_addresses sn)%Z then
        let* rip := random_host sn in
        cold_sweep max_total_count rest (targets ++ [rip])
      else cold_sweep max_total_count rest targets
  end.

(** [while len(targets) < max_total_count] (lines 240-252); each unit of
    fuel pays for one turn of the loop. *)
Fixpoint cold_loop (fuel : nat) (max_total_count : Z)
    (all_subnets : list IPv4Network) (targets : list string)
    : M (list string) :=
  if (max_total_count <=? len targets)%Z then ret targets
  else match fuel with
  | O => out_of_fuel
  | S fuel' =>
      let* targets := cold_sweep max_total_count all_subnets targets in
      if (max_total_count <=? len targets)%Z then ret targets
      else if (len all_subnets * 254 <? max_total_count)%Z
              && (len all_subnets * 250 <=? len targets)%Z
      then ret targets
      else cold_loop fuel' max_total_count all_subnets targets
  end.

(** [scored_subnets.sort(key=lambda x: x[0], reverse=True)]: a stable sort,
    larger scores first.  An element goes in front of the first one whose
    score is not larger than its own. *)
Fixpoint insert_by_score (x : R * IPv4Network) (l : list (R * IPv4Network))
    : list (R * IPv4Network) :=
  match l with
  | [] => [x]
  | y :: rest =>
      if Rle_dec (fst y) (fst x) then x :: l else y :: insert_by_score x rest
  end.

Definition sort_by_score (l : list (R * IPv4Network)) : list (R * IPv4Network) :=
  foldr insert_by_score [] l.

(** The quota of a rank (lines 272-286); the [stats] counters only feed
    the log line. *)
Definition quota (rank total_subnets : nat) : M Z :=
  let rank := inject_Z (Z.of_nat rank) in
  let total := inject_Z (Z.of_nat total_subnets) in
  if Qltb rank (total * 0.05) then ret 5%Z
  else if Qltb rank (total * 0.20) then ret 3%Z
  else if Qltb rank (total * 0.50) then ret 1%Z
  else
    let* x := random in
    if Qltb x 0.01 then ret 1%Z else ret 0%Z.

(** The running state of the warm loop: [picked], [targets],
    [generated_count]. *)
Definition acc : Type := gset string * list string * Z.

(** [for _ in range(5)]: up to five draws for one slot. *)
Fixpoint draw_slot (tries : nat) (sn : IPv4Network) (a : acc) : M acc :=
  match tries with
  | O => ret a
  | S tries' =>
      let '(picked, targets, generated_count) := a in
      let* rip := random_host sn in
      if decide (rip ∈ picked) then draw_slot tries' sn a
      else ret ({[rip]} ∪ picked, targets ++ [rip], (generated_count + 1)%Z)
  end.

(** [for _ in range(real_count)] *)
Fixpoint draw_slots (real_count : nat) (sn : IPv4Network) (a : acc) : M acc :=
  match real_count with
  | O => ret a
  | S n =>
      let* a := draw_slot 5 sn a in
      draw_slots n sn a
  end.

(** [for rank, (score, sn) in enumerate(scored_subnets)] (lines 269-298). *)
Fixpoint warm_loop (max_total_count : Z) (total_subnets : nat) (rank : nat)
    (scored_subnets : list (R * IPv4Network))
    (targets : list string) (generated_count : Z) : M (list string) :=
  match scored_subnets with
  | [] => ret targets
  | (score, sn) :: rest =>
      if (max_total_count <=? generated_count)%Z then ret targets
      else
        let* count := quota rank total_subnets in
        if (0 <? count)%Z then
          let real_count :=
            if (2 <? num_addresses sn)%Z
            then Z.min count (num_addresses sn - 2) else 1%Z in
          let* (_, targets, generated_count) :=
            draw_slots (Z.to_nat real_count) sn (∅, targets, generated_count) in
          warm_loop max_total_count total_subnets (S rank) rest
                    targets generated_count
        else
          warm_loop max_total_count total_subnets (S rank) rest
                    targets generated_count
  end.

(** The [else] branch of [generate] (lines 258-298). *)
Definition warm (max_total_count : Z) (all_subnets : list IPv4Network)
    (ucb : UCBManager.t) : M (list string) :=
  let scored_subnets :=
    sort_by_score
      (map (fun sn =>
              (UCBManager.get_score ucb (Ip.str_v4 (network_address sn)), sn))
           all_subnets) in
  warm_loop max_total_count (length scored_subnets) 0 scored_subnets [] 0.

(** The cold branch (lines 237-252). *)
Definition cold (fuel : nat) (max_total_count : Z)
    (all_subnets : list IPv4Network) : M (list string) :=
  let* all_subnets := shuffle all_subnets in
  cold_loop fuel max_total_count all_subnets [].

(** [for _ in range(limit)] of the IPv6 step (lines 305-308). *)
Fixpoint ipv6_loop (limit : nat) (cidrs_v6 : list IPv6Network)
    (targets : list string) : M (list string) :=
  match limit with
  | O => ret targets
  | S n =>
      let* cidr := choice cidrs_v6 in
      let base := network_address6 cidr in
      let* k := randint 1 (2 ^ 16) in
      let* a := str_v6 (base + Z.to_N k) in
      ipv6_loop n cidrs_v6 (targets ++ [a])
  end.

(** [generate]; [int(max_total_count * 0.1)] truncates toward zero. *)
Definition generate (fuel : nat) (cidrs_v4 : list IPv4Network)
    (cidrs_v6 : list IPv6Network) (max_total_count : Z)
    (ucb : UCBManager.t) : M (list string) :=
  let all_subnets := expand cidrs_v4 in
  let* targets :=
    if UCBManager.is_cold_start ucb
    then cold fuel max_total_count all_subnets
    else warm max_total_count all_subnets ucb in
  let* targets :=
    match cidrs_v6 with
    | [] => ret targets
    | _ =>
        let limit := Z.quot max_total_count 10 in
        ipv6_loop (Z.to_nat limit) cidrs_v6 targets
    end in
  shuffle targets.

End SmartGenerator.

(** ** 5. The Stage-2 selection ([Scanner.smart_speed_test]) *)

Module Scanner.

(** The fields of an [IpResult]. *)
Record IpResult := { ip : string; latency : Q; speed : Q; loss : bool }.

(** An [IpResult] object: [IpResult] defines no [__eq__], so [in] compares
    objects by identity.  The objects of [self.results] are distinct (each
    comes from its own call of [_tcp]); an object is named by its position
    in that list. *)
Definition obj : Type := nat * IpResult.

Definition with_speed (s : Q) (r : IpResult) : IpResult :=
  {| ip := ip r; latency := latency r; speed := s; loss := loss r |}.

(** The keys of [self.config] that [smart_speed_test] reads. *)
Record config := { speed_test_range : Z; min_speed_target : Q }.

(** What one download did: it raised, or it read [tot] bytes in [dur]
    seconds. *)
Inductive http_obs := HttpError | HttpRead (tot : N) (dur : Q).

(** The value [_http] returns. *)
Definition _http (o : http_obs) : Q :=
  match o with
  | HttpError => 0
  | HttpRead tot dur =>
      if Qgtb dur 0 then (inject_Z (Z.of_N tot) / 1048576) / dur else 0
  end.

(** [l[:k]] *)
Definition slice_to {A} (l : list A) (k : Z) : list A :=
  if (0 <=? k)%Z then take (Z.to_nat k) l
  else take (Z.to_nat (Z.of_nat (length l) + k)) l.

(** [for r in cands] (lines 396-402); [observe i] is what the download
    against the i-th object did. *)
Fixpoint probe (observe : nat -> http_obs) (cands : list obj)
    (ucb : UCBManager.t) (final : list obj) : list obj * UCBManager.t :=
  match cands with
  | [] => (final, ucb)
  | (i, r) :: rest =>
      let s := _http (observe i) in
      let r := with_speed s r in
      let ucb := UCBManager.update (ip r) (latency r) s false false ucb in
      probe observe rest ucb (if Qgtb s 0.1 then final ++ [(i, r)] else final)
  end.

(** [final.sort(key=lambda x: x.speed, reverse=True)]: stable, faster
    first. *)
Fixpoint insert_by_speed (x : obj) (l : list obj) : list obj :=
  match l with
  | [] => [x]
  | y :: rest =>
      if Qlt_le_dec (speed (snd x)) (speed (snd y))
      then y :: insert_by_speed x rest
      else x :: l
  end.

Definition sort_by_speed (l : list obj) : list obj :=
  foldr insert_by_speed [] l.

(** [x in l], by identity. *)
Definition is_in (x : obj) (l : list obj) : bool :=
  existsb (fun y => Nat.eqb (fst x) (fst y)) l.

(** Lines 406-410. *)
Definition select (target : Q) (final : list obj) : list obj :=
  let final := sort_by_speed final in
  let high_quality := filter (fun x => Qgeb (speed (snd x)) target = true) final in
  if (length high_quality <? 5)%nat then
    let remain := filter (fun x => is_in x high_quality = false) final in
    high_quality ++ take (5 - length high_quality) remain
  else high_quality.

(** [cands = self.results[:self.config['speed_test_range']]] *)
Definition candidates (cfg : config) (results : list IpResult) : list obj :=
  slice_to (imap (fun i r => (i, r)) results) (speed_test_range cfg).

(** [smart_speed_test]: [None] when there is no candidate (nothing is
    printed or written and the model is not saved), else the list that is
    printed, logged and written, and the saved model. *)
Definition smart_speed_test (cfg : config) (observe : nat -> http_obs)
    (results : list IpResult) (ucb : UCBManager.t)
    : option (list obj * UCBManager.t) :=
  let cands := candidates cfg results in
  match cands with
  | [] => None
  | _ =>
      let '(final, ucb) := probe observe cands ucb [] in
      let ucb := UCBManager.save ucb in
      Some (select (min_speed_target cfg) final, ucb)
  end.

End Scanner.


(** * The vocabulary of the specification, and sample inputs *)

Import Random UCBManager Net PyRandom SmartGenerator Scanner.

(** ** The model *)

(** The clamp of the specification. *)
Definition clamp (x lo hi : Q) : Q :=
  if Qlt_le_dec x lo then lo else if Qlt_le_dec hi x then hi else x.

(** The reward as the specification words it. *)
Definition spec_reward (latencyMs throughputMBps : Q) (lost tcpOnly : bool) : Q :=
  if lost then 0
  else
    let latencyScore := 0.3 * (1 - clamp ((latencyMs - 50) / 150) 0 1) in
    if tcpOnly then latencyScore
    else latencyScore + 0.7 * clamp (throughputMBps / 10) 0 1.

(** The record [update] works on: the stored one, or a fresh one. *)
Definition record_of (u : UCBManager.t) (net : string) : record :=
  default {| count := 0; total_reward := 0 |} (subnets u !! net).


(** A group [score] treats as unexplored: absent, or with count < 0.1. *)
Definition unexplored (u : UCBManager.t) (g : string) : Prop :=
  match subnets u !! g with
  | None => True
  | Some r => count r < 0.1
  end.

(** The upper-confidence bound of the specification. *)
Definition spec_ucb (u : UCBManager.t) (r : record) : R :=
  (Q2R (total_reward r / count r)
   + sqrt (2 * ln (Rmax (Q2R (total_runs u)) 1) / Q2R (count r)))%R.


(** The state of the first launch: an empty model, counted once. *)
Definition first_launch : UCBManager.t := count_launch (init 0.85).




(** ** The Stage-2 selection *)

(** The objects after their download, in the order of [cands]. *)
Definition probed (observe : nat -> http_obs) (cands : list obj) : list obj :=
  (fun x : obj => (fst x, with_speed (_http (observe (fst x))) (snd x))) <$> cands.

(** The probed objects that pass [s > 0.1]. *)
Definition eligible (observe : nat -> http_obs) (cands : list obj) : list obj :=
  filter (fun x : obj => Qgtb (speed (snd x)) 0.1 = true) (probed observe cands).

(** The objects that meet the target. *)
Abbreviation qualifies target :=
  (fun x : nat * IpResult => Qgeb (speed (snd x)) target = true).

(** Faster objects come first. *)
Definition faster_first (x y : obj) : Prop := speed (snd y) <= speed (snd x).

(** The selection as the specification words it, over a pool of probed
    objects: the qualifiers, and while they are fewer than five, the best
    of the others. *)
Definition spec_select (target : Q) (pool : list obj) : list obj :=
  let primary := filter (qualifies target) pool in
  if (length primary <? 5)%nat then
    primary ++
    take (5 - length primary)
         (sort_by_speed (filter (fun x => ~ qualifies target x) pool))
  else primary.

(** A run of Stage 2 over three survivors: the first downloads at 10 MB/s,
    the second fails, the third downloads at 2 MB/s. *)
Definition sample_cfg : config :=
  {| speed_test_range := 20; min_speed_target := 5 |}.

Definition sample_results : list IpResult :=
  [ {| ip := "10.0.0.1"; latency := 20; speed := 0; loss := false |};
    {| ip := "10.0.1.1"; latency := 25; speed := 0; loss := false |};
    {| ip := "10.0.2.1"; latency := 30; speed := 0; loss := false |} ].

Definition sample_observe (i : nat) : http_obs :=
  match i with
  | 0%nat => HttpRead 10485760 1
  | 1%nat => HttpError
  | _ => HttpRead 2097152 1
  end.

(** ** The generator *)

(** A generator whose i-th raw draw is [f i]. *)
Definition seed_of (f : nat -> N) : Random.state := {| draws := f; cursor := 0 |}.

(** The raw draws 0, 1, 2, ... *)
Definition counting (i : nat) : N := N.of_nat i.

(** 1.1.1.1/32, what [ip_network] makes of the line ["1.1.1.1"]. *)
Definition one_address : IPv4Network :=
  {| network_address := 16843009; prefixlen := 32 |}.

(** 10.0.0.0/22: four /24 groups, 1016 host addresses. *)
Definition slash22 : IPv4Network :=
  {| network_address := 167772160; prefixlen := 22 |}.

(** 10.0.0.0/24 *)
Definition slash24 : IPv4Network :=
  {| network_address := 167772160; prefixlen := 24 |}.

(** 10.1.0.0/30: one group with two host addresses. *)
Definition slash30 : IPv4Network :=
  {| network_address := 167837696; prefixlen := 30 |}.

(** A model past its cold start: fourth launch, one hundred known groups
    192.168.0.0/24 ... 192.168.99.0/24. *)
Definition warm_model : UCBManager.t :=
  {| decay_rate := 0.85; version := 5; total_runs := 100; launch_count := 4;
     subnets :=
       list_to_map
         (map (fun i => (Ip.str_v4 (3232235520 + N.of_nat i * 256)%N,
                         {| count := 1; total_reward := 0.5 |}))
              (seq 0 100)) |}.

(** A range as [ip_network] builds it: a prefix of at most 32 bits. *)
Definition well_formed (net : IPv4Network) : Prop := (prefixlen net <= 32)%N.

(** A group the cold start can draw from. *)
Definition usable (sn : IPv4Network) : Prop := (2 < num_addresses sn)%Z.

(** [a] is the text of a host address of [sn]: neither its first address nor
    its last. *)
Definition host_of (sn : IPv4Network) (a : string) : Prop :=
  exists k, (1 <= k <= num_addresses sn - 2)%Z
            /\ a = Ip.str_v4 (network_address sn + Z.to_N k).

(** The texts of the host addresses of a group. *)
Definition hosts (sn : IPv4Network) : list string :=
  map (fun k => Ip.str_v4 (network_address sn + N.of_nat k))
      (seq 1 (Z.to_nat (num_addresses sn - 2))).

(** How many entries of [l] are host addresses of [g]. *)
Definition hits (g : IPv4Network) (l : list string) : nat :=
  length (filter (fun a => a ∈ hosts g) l).

(** Some address occurs twice. *)
Fixpoint has_repeat (l : list string) : bool :=
  match l with
  | [] => false
  | x :: rest => existsb (String.eqb x) rest || has_repeat rest
  end.

(** ** Proof tools *)

(** Divisions by a literal become multiplications, which [lra] reads. *)
Ltac qconst :=
  unfold Qdiv in *;
  repeat match goal with
         | |- context [Qinv (Qmake ?a ?b)] =>
             let v := eval vm_compute in (Qinv (Qmake a b)) in
             change (Qinv (Qmake a b)) with v in *
         | H : context [Qinv (Qmake ?a ?b)] |- _ =>
             let v := eval vm_compute in (Qinv (Qmake a b)) in
             change (Qinv (Qmake a b)) with v in *
         end.

Ltac qcases :=
  repeat match goal with
         | |- context [Qlt_le_dec ?a ?b] => destruct (Qlt_le_dec a b)
         | H : context [Qlt_le_dec ?a ?b] |- _ => destruct (Qlt_le_dec a b)
         end.

(** * Further vocabulary: the rest of the program *)


(** The models a run can hold: the one [__init__] builds, and what the
    launch count, [update] and [save] make of it. *)
Inductive reachable (rate : Q) : UCBManager.t -> Prop :=
| reach_init : reachable rate (init rate)
| reach_launch u : reachable rate u -> reachable rate (count_launch u)
| reach_update u ip latency speed is_loss tcp_only :
    reachable rate u ->
    reachable rate (update ip latency speed is_loss tcp_only u)
| reach_save u : reachable rate u -> reachable rate (save u).


(** The models a run can hold when [update] is only called the way
    [Scanner] calls it: by [run] with throughput 0 and [tcp_only], by
    [smart_speed_test] with the throughput [_http] returned. *)
Inductive scanner_fed (rate : Q) : UCBManager.t -> Prop :=
| fed_init : scanner_fed rate (init rate)
| fed_launch u : scanner_fed rate u -> scanner_fed rate (count_launch u)
| fed_stage1 u ip latency is_loss :
    scanner_fed rate u -> scanner_fed rate (update ip latency 0 is_loss true u)
| fed_stage2 u ip latency o :
    scanner_fed rate u ->
    scanner_fed rate (update ip latency (_http o) false false u)
| fed_save u : scanner_fed rate u -> scanner_fed rate (save u).


(** The decimal text of an octet reads back as the octet and holds none of
    the separators. *)
Definition octet_text_ok (k : nat) : bool :=
  let s := pretty (N.of_nat k) in
  match Ip.parse_octet s with
  | Some v => (v =? N.of_nat k)%N
  | None => false
  end
  && negb (Ip.contains "." s) && negb (Ip.contains "/" s)
  && negb (Ip.contains ":" s).

(** A 32-bit address on a /24 boundary. *)
Definition on_boundary (n : N) : Prop := (n < 2 ^ 32)%N /\ (n mod 256 = 0)%N.


(** The groups share no host address. *)
Definition groups_apart (l : list IPv4Network) : Prop :=
  NoDup (mjoin (hosts <$> l)).


(** How many groups the cold start can draw from. *)
Definition usable_groups (l : list IPv4Network) : Z :=
  len (filter usable l).


(** The text of the IPv6 address number [n]. *)
Definition text_v6 (n : N) : string := join_colon (compress_hextets (hextets n)).

(** The address [base + k] of an IPv6 range, [k] from 1 to 65536. *)
Definition near_base (cidrs_v6 : list IPv6Network) (a : string) : Prop :=
  exists cidr k, cidr ∈ cidrs_v6 /\ (1 <= k <= 65536)%N
                 /\ a = text_v6 (network_address6 cidr + k).

(** The range leaves room for 65536 addresses above its base. *)
Definition roomy (cidr : IPv6Network) : Prop :=
  (network_address6 cidr + 65536 < 2 ^ 128)%N.

Module Tcp.

(** What one connection attempt did: it raised, or [connect_ex] returned
    [res] after [ms] milliseconds. *)
Inductive tcp_obs := TcpError | TcpDone (res : Z) (ms : Q).

Definition lost (ip : string) : IpResult :=
  {| ip := ip; latency := 0; speed := 0; loss := true |}.

(** The value [_tcp] returns. *)
Definition _tcp (ip : string) (o : tcp_obs) : IpResult :=
  match o with
  | TcpError => lost ip
  | TcpDone res ms =>
      if (res =? 0)%Z
      then {| ip := ip; latency := ms; speed := 0; loss := false |}
      else lost ip
  end.

(** [IpResult.__lt__] *)
Definition __lt__ (self other : IpResult) : bool :=
  if negb (Bool.eqb (loss self) (loss other)) then negb (loss self)
  else Qltb (latency self) (latency other).

(** [valid.sort()]: a stable sort by [__lt__].  An element goes behind the
    ones that are smaller than it and in front of the first that is not. *)
Fixpoint insert_sorted (x : IpResult) (l : list IpResult) : list IpResult :=
  match l with
  | [] => [x]
  | y :: rest => if __lt__ y x then y :: insert_sorted x rest else x :: l
  end.

Definition sort (l : list IpResult) : list IpResult := foldr insert_sorted [] l.

(** [for f in as_completed(futs)] (lines 371-378), over the results in the
    order the probes complete. *)
Fixpoint collect (done : list IpResult) (ucb : UCBManager.t)
    (valid : list IpResult) : list IpResult * UCBManager.t :=
  match done with
  | [] => (valid, ucb)
  | r :: rest =>
      let ucb := UCBManager.update (ip r) (latency r) 0 (loss r) true ucb in
      collect rest ucb (if loss r then valid else valid ++ [r])
  end.

(** The results of the probes in the order [order] in which they complete;
    [observe i] is what the probe of the i-th target did. *)
Definition completed (targets : list string) (observe : nat -> tcp_obs)
    (order : list nat) : list IpResult :=
  omap (fun i => (fun ip => _tcp ip (observe i)) <$> targets !! i) order.

(** [run]: [self.results] and the model afterwards. *)
Definition run (targets : list string) (observe : nat -> tcp_obs)
    (order : list nat) (ucb : UCBManager.t) : list IpResult * UCBManager.t :=
  match targets with
  | [] => ([], ucb)
  | _ =>
      let '(valid, ucb) := collect (completed targets observe order) ucb [] in
      (sort valid, ucb)
  end.

End Tcp.

(** The probes of all targets, in the order of the targets. *)
Definition probes (targets : list string) (observe : nat -> Tcp.tcp_obs)
    : list IpResult :=
  imap (fun i ip => Tcp._tcp ip (observe i)) targets.

(** Every probe completes once. *)
Definition fair (targets : list string) (order : list nat) : Prop :=
  order ≡ₚ seq 0 (length targets).

Definition alive (r : IpResult) : Prop := loss r = false.

Definition by_latency (a b : IpResult) : Prop := latency a <= latency b.

Module Spaceship.

(** What [float(row[...])] does with a cell: it gives a (finite) number;
    it raises [ValueError] or the column is not there ([KeyError]); or the
    row is short and the cell is [None], on which [float] raises
    [TypeError]. *)
Inductive cell := Num (q : Q) | Unreadable | Missing.

(** One row of the CSV file as [csv.DictReader] gives it; an [IP] cell
    that is not there counts as empty. *)
Record csv_row := { IP : string; Latency : cell; Speed : cell }.

(** [ip_info] *)
Record ip_info := { ip : string; latency : Q; speed : Q }.

(** The body of [for row in reader] (lines 50-62): the row gives an
    entry, or is skipped ([continue]), or raises past the inner [try]. *)
Inductive row_result := Keep (i : ip_info) | Skip | Abort.

Definition read_row (row : csv_row) : row_result :=
  if String.eqb (IP row) EmptyString then Skip
  else match Latency row with
       | Missing => Abort
       | Unreadable => Skip
       | Num l =>
           match Speed row with
           | Missing => Abort
           | Unreadable => Skip
           | Num s => Keep {| ip := IP row; latency := l; speed := s |}
           end
       end.

(** The loop over the rows; [None] when a row raises. *)
Fixpoint read_rows (rows : list csv_row) (ips : list ip_info)
    : option (list ip_info) :=
  match rows with
  | [] => Some ips
  | row :: rest =>
      match read_row row with
      | Keep i => read_rows rest (ips ++ [i])
      | Skip => read_rows rest ips
      | Abort => None
      end
  end.

(** [key(a) < key(b)] for [key = lambda x: (-x['speed'], x['latency'])]:
    tuples compare by their first components that differ. *)
Definition key_lt (a b : ip_info) : bool :=
  if Qeq_bool (- speed a) (- speed b) then Qltb (latency a) (latency b)
  else Qltb (- speed a) (- speed b).

(** [ips.sort(key=...)]: a stable sort, smaller keys first. *)
Fixpoint insert_by_key (x : ip_info) (l : list ip_info) : list ip_info :=
  match l with
  | [] => [x]
  | y :: rest => if key_lt y x then y :: insert_by_key x rest else x :: l
  end.

Definition sort_by_key (l : list ip_info) : list ip_info :=
  foldr insert_by_key [] l.

(** [get_best_ips] on a file that can be opened; the outer [except]
    turns an exception into the empty list. *)
Definition get_best_ips (rows : list csv_row) : list string :=
  match read_rows rows [] with
  | Some ips => ip <$> sort_by_key ips
  | None => []
  end.

(** A record of the zone as [get_records] returns it: [record.get('type')]
    and [record.get('name')], and the rest of the object. *)
Record dns_record := {
  rtype : option string; rname : option string; rest_of : string
}.

(** [new_record] *)
Record new_record := {
  ntype : string; nname : string; address : string; ttl : Z
}.

(** Step 5 of [main] (lines 141-161): the records to delete and to add. *)
Fixpoint build_plan (TTL : Z) (subdomains : list string) (target_ips : list string)
    (current_records : list dns_record) : list dns_record * list new_record :=
  match subdomains with
  | [] => ([], [])
  | sub :: more =>
      let old := filter (fun r => rtype r = Some "A"%string /\ rname r = Some sub)
                        current_records in
      let new := (fun a => {| ntype := "A"; nname := sub; address := a; ttl := TTL |})
                   <$> target_ips in
      let '(del, add) := build_plan TTL more target_ips current_records in
      (old ++ del, new ++ add)
  end.

(** [main] up to the calls of the API: [None] for [sys.exit(1)] and for
    the [return] of step 6, else the two lists handed to
    [update_records]. *)
Definition main (MAX_IP_COUNT TTL : Z) (SUBDOMAINS : list string)
    (rows : list csv_row) (current_records : list dns_record)
    : option (list dns_record * list new_record) :=
  let all_best_ips := get_best_ips rows in
  match all_best_ips with
  | [] => None
  | _ =>
      let count_to_use := Z.min (Z.of_nat (length all_best_ips)) MAX_IP_COUNT in
      let target_ips := Scanner.slice_to all_best_ips count_to_use in
      let '(del, add) := build_plan TTL SUBDOMAINS target_ips current_records in
      match del, add with
      | [], [] => None
      | _, _ => Some (del, add)
      end
  end.

End Spaceship.



(** * Properties *)

(** ** The embedding on sample values *)

Example network24_of_address :
  Ip.network24 "104.16.3.77" = Some "104.16.3.0"%string.
Proof. vm_compute. reflexivity. Qed.

Example network24_refuses_leading_zero : Ip.network24 "104.16.3.077" = None.
Proof. vm_compute. reflexivity. Qed.

Example subnet_of_ipv6_ignored : subnet_of "2606:4700::1" = None.
Proof. vm_compute. reflexivity. Qed.

Example update_ignores_ipv6 (u : UCBManager.t) :
  update "2606:4700::1" 20 0 false true u = u.
Proof. reflexivity. Qed.

Example str_v6_compresses :
  join_colon (compress_hextets (hextets 50543257672059871404715951523469721601))
  = "2606:4700::1"%string
  /\ join_colon (compress_hextets (hextets 50543257694033307102031451402929224705))
     = "2606:4700:4700::bc01"%string.
Proof. split; vm_compute; reflexivity. Qed.

Example subnets24_of_slash22 :
  Ip.str_v4 ∘ network_address <$> expand [slash22]
  = ["10.0.0.0"; "10.0.1.0"; "10.0.2.0"; "10.0.3.0"]%string.
Proof. vm_compute. reflexivity. Qed.

Example shuffle_counting :
  exists s', shuffle [1; 2; 3; 4; 5]%nat (seed_of counting)
             = Return [5; 4; 3; 2; 1]%nat s'.
Proof. eexists. vm_compute. reflexivity. Qed.

Example http_ten_megabytes_per_second : _http (HttpRead 10485760 1) == 10.
Proof. vm_compute. reflexivity. Qed.

(** ** Comparisons on floats *)

Lemma Qltb_true (a b : Q) : Qltb a b = true <-> a < b.
Proof. unfold Qltb. qcases; split; intros; try easy; lra. Qed.

Lemma Qltb_false (a b : Q) : Qltb a b = false <-> b <= a.
Proof. unfold Qltb. qcases; split; intros; try easy; lra. Qed.

Lemma Qgtb_true (a b : Q) : Qgtb a b = true <-> b < a.
Proof. apply Qltb_true. Qed.

Lemma Qgtb_false (a b : Q) : Qgtb a b = false <-> a <= b.
Proof. apply Qltb_false. Qed.

Lemma Qgeb_true (a b : Q) : Qgeb a b = true <-> b <= a.
Proof. unfold Qgeb. rewrite negb_true_iff. apply Qltb_false. Qed.

Lemma Qgeb_false (a b : Q) : Qgeb a b = false <-> a < b.
Proof. unfold Qgeb. rewrite negb_false_iff. apply Qltb_true. Qed.

(** ** C3: the reward *)

Lemma latency_clamp (latency : Q) :
  py_min (py_max (latency - 50) 0 / 150) 1 == clamp ((latency - 50) / 150) 0 1.
Proof. unfold py_min, py_max, clamp. qconst. qcases; lra. Qed.

Lemma speed_clamp (speed : Q) :
  0 <= speed -> py_min (speed / 10) 1 == clamp (speed / 10) 0 1.
Proof. intros H. unfold py_min, clamp. qconst. qcases; lra. Qed.

(** C3, as stated, fails: a throughput below zero is not clamped to 0 (the
    code bounds [speed / 10] from above only). *)
Lemma current_reward_not_clamped_below :
  ~ current_reward 50 (-10) false false == spec_reward 50 (-10) false false.
Proof. vm_compute. discriminate. Qed.

(** C3, amended: for a throughput that is not negative the reward is the
    specification's formula (0 when lost, else the latency score, plus 0.7
    times the clamped throughput share unless [tcp_only]); and the four
    sample values hold. *)
Theorem current_reward_spec :
  (forall latency speed is_loss tcp_only,
     0 <= speed ->
     current_reward latency speed is_loss tcp_only
       == spec_reward latency speed is_loss tcp_only)
  /\ (forall speed, current_reward 50 speed false true == 0.3)
  /\ (forall latency speed,
        200 <= latency -> current_reward latency speed false true == 0)
  /\ current_reward 50 10 false false == 1
  /\ (forall latency speed tcp_only,
        current_reward latency speed true tcp_only == 0).
Proof.
  split; [| split; [| split; [| split]]].
  - intros latency speed is_loss tcp_only Hs.
    unfold current_reward, spec_reward.
    destruct is_loss; [reflexivity |].
    pose proof (latency_clamp latency) as Hl.
    pose proof (speed_clamp speed Hs) as Hsp.
    destruct tcp_only; cbv zeta; lra.
  - intros speed. unfold current_reward, py_min, py_max.
    qconst. qcases; lra.
  - intros latency speed Hl. unfold current_reward, py_min, py_max.
    qconst. qcases; lra.
  - vm_compute. reflexivity.
  - intros latency speed tcp_only. reflexivity.
Qed.

Lemma current_reward_spec_witness :
  current_reward 120 4 false false == spec_reward 120 4 false false.
Proof.
  apply (proj1 current_reward_spec 120 4 false false). vm_compute. discriminate.
Defined.

(** ** C2 and C9: how [update] weighs a sample *)

Section Update.
Variables (ip : string) (latency speed : Q) (is_loss tcp_only : bool).
Variable u : UCBManager.t.

Lemma update_ignored :
  subnet_of ip = None -> update ip latency speed is_loss tcp_only u = u.
Proof. intros H. unfold update. rewrite H. reflexivity. Qed.

Lemma update_applied (net : string) :
  subnet_of ip = Some net ->
  let reward := current_reward latency speed is_loss tcp_only in
  let r := record_of u net in
  let w := impact_weight r reward in
  let u' := update ip latency speed is_loss tcp_only u in
  subnets u' !! net
    = Some {| count := count r + w; total_reward := total_reward r + reward * w |}
  /\ total_runs u' = total_runs u + w
  /\ (forall net', net' <> net -> subnets u' !! net' = subnets u !! net')
  /\ decay_rate u' = decay_rate u /\ launch_count u' = launch_count u.
Proof.
  intros H. unfold update. rewrite H. cbn.
  split; [apply lookup_insert_eq |].
  split; [reflexivity |].
  split; [| split; reflexivity].
  intros net' Hne. apply lookup_insert_ne. congruence.
Qed.

Lemma impact_weight_cases (r : record) (reward : Q) :
  (impact_weight r reward = 0.2
     /\ 2 < count r /\ 0.6 < total_reward r / count r /\ reward < 0.1)
  \/ (impact_weight r reward = 1
      /\ ~ (2 < count r /\ 0.6 < total_reward r / count r /\ reward < 0.1)).
Proof.
  unfold impact_weight.
  destruct (Qgtb (count r) 2) eqn:Hc.
  - destruct (Qgtb (total_reward r / count r) 0.6) eqn:Ha;
      destruct (Qltb reward 0.1) eqn:Hr; cbn.
    + left. apply Qgtb_true in Hc, Ha. apply Qltb_true in Hr. auto.
    + right. split; [reflexivity |]. apply Qltb_false in Hr. intros (_ & _ & ?). lra.
    + right. split; [reflexivity |]. apply Qgtb_false in Ha. intros (_ & ? & _). lra.
    + right. split; [reflexivity |]. apply Qgtb_false in Ha. intros (_ & ? & _). lra.
  - right. split; [reflexivity |]. apply Qgtb_false in Hc. intros (? & _). lra.
Qed.

End Update.





(** ** C4 and C9: [save] *)

Lemma save_lookup (u : UCBManager.t) (net : string) :
  subnets (save u) !! net =
    match subnets u !! net with
    | Some r =>
        if stale (decay (decay_rate u) r) then None
        else Some (decay (decay_rate u) r)
    | None => None
    end.
Proof.
  unfold save. cbn. rewrite map_lookup_filter, lookup_fmap.
  destruct (subnets u !! net) as [r |]; cbn; [| reflexivity].
  destruct (stale (decay (decay_rate u) r)); cbn.
  - rewrite option_guard_False by discriminate. reflexivity.
  - rewrite option_guard_True by reflexivity. reflexivity.
Qed.


Lemma stale_false_iff (r : record) :
  stale r = false <-> 0.5 <= count r \/ 0.2 <= avg_or_zero r.
Proof.
  unfold stale. rewrite andb_false_iff, !Qltb_false. reflexivity.
Qed.

(** A record that survives [save] has a positive count. *)
Lemma survivor_positive (r : record) : stale r = false -> 0 < count r.
Proof.
  intros [H | H]%stale_false_iff; [lra |].
  unfold avg_or_zero in H. destruct (Qlt_le_dec 0 (count r)); [assumption | lra].
Qed.








(** C9: [total_runs] moves with the counts.  [update] adds one weight, 1 or
    0.2, both to the count of the address's group and to [total_runs], and
    touches nothing else (nothing at all for an address it ignores);
    [save] multiplies [total_runs] and the count of every record it keeps by
    the same decay rate. *)
Theorem total_runs_in_lockstep :
  (forall ip latency speed is_loss tcp_only (u : UCBManager.t),
     let u' := update ip latency speed is_loss tcp_only u in
     match subnet_of ip with
     | None => u' = u
     | Some net =>
         exists w,
           (w = 1 \/ w = 0.2)
           /\ (exists r', subnets u' !! net = Some r'
                          /\ count r' = count (record_of u net) + w)
           /\ total_runs u' = total_runs u + w
           /\ (forall net', net' <> net -> subnets u' !! net' = subnets u !! net')
     end)
  /\ (forall u : UCBManager.t,
        total_runs (save u) = total_runs u * decay_rate u
        /\ (forall net r',
              subnets (save u) !! net = Some r' ->
              exists r, subnets u !! net = Some r
                        /\ count r' = count r * decay_rate u)).
Proof.
  split.
  - intros ip latency speed is_loss tcp_only u u'.
    destruct (subnet_of ip) as [net |] eqn:Hnet.
    + destruct (update_applied ip latency speed is_loss tcp_only u net Hnet)
        as (Hl & Ht & Ho & _).
      exists (impact_weight (record_of u net)
                (current_reward latency speed is_loss tcp_only)).
      split.
      * destruct (impact_weight_cases (record_of u net)
                    (current_reward latency speed is_loss tcp_only))
          as [(-> & _) | (-> & _)]; auto.
      * split; [eexists; split; [exact Hl | reflexivity] |].
        split; assumption.
    + apply update_ignored, Hnet.
  - intros u. split; [reflexivity |].
    intros net r' H. rewrite save_lookup in H.
    destruct (subnets u !! net) as [r |]; [| discriminate].
    destruct (stale (decay (decay_rate u) r)); [discriminate |].
    injection H as <-. exists r. split; reflexivity.
Qed.

(** ** C1: the score *)

Lemma Q2R_py_max_1 (x : Q) : Q2R (py_max x 1) = Rmax (Q2R x) 1.
Proof.
  unfold py_max. destruct (Qlt_le_dec x 1) as [H | H].
  - apply Qlt_Rlt in H. rewrite RMicromega.Q2R_1 in *.
    rewrite Rmax_right; lra.
  - apply Qle_Rle in H. rewrite RMicromega.Q2R_1 in *.
    rewrite Rmax_left; lra.
Qed.

Lemma get_score_unexplored (u : UCBManager.t) (g : string) :
  unexplored u g -> get_score u g = 9999%R.
Proof.
  unfold unexplored, get_score. destruct (subnets u !! g) as [r |]; [| reflexivity].
  intros H. apply Qltb_true in H. rewrite H. reflexivity.
Qed.

Lemma get_score_explored (u : UCBManager.t) (g : string) (r : record) :
  subnets u !! g = Some r -> 0.1 <= count r -> get_score u g = spec_ucb u r.
Proof.
  intros Hr Hc. unfold get_score, spec_ucb. rewrite Hr.
  apply Qltb_false in Hc. rewrite Hc. cbv zeta. rewrite Q2R_py_max_1. reflexivity.
Qed.








(** ** Rewards never exceed counts *)

Lemma current_reward_le_1 latency speed is_loss tcp_only :
  current_reward latency speed is_loss tcp_only <= 1.
Proof.
  unfold current_reward, py_min, py_max. destruct is_loss; [lra |].
  destruct tcp_only; qconst; qcases; lra.
Qed.

Lemma impact_weight_pos r reward : 0 < impact_weight r reward.
Proof.
  destruct (impact_weight_cases r reward) as [(-> & _) | (-> & _)]; lra.
Qed.

(** [update] and [save] keep every record's total reward at or below its
    count, the part of [plausible] that bounds the average by 1. *)
Lemma update_keeps_rewards_below_counts ip latency speed is_loss tcp_only
    (u : UCBManager.t) :
  (forall g r, subnets u !! g = Some r -> total_reward r <= count r) ->
  forall g r,
    subnets (update ip latency speed is_loss tcp_only u) !! g = Some r ->
    total_reward r <= count r.
Proof.
  intros Hinv g r. destruct (subnet_of ip) as [net |] eqn:Hnet.
  - destruct (update_applied ip latency speed is_loss tcp_only u net Hnet)
      as (Hl & _ & Ho & _).
    destruct (decide (g = net)) as [-> | Hne].
    + rewrite Hl. intros [= <-]. cbn.
      pose proof (current_reward_le_1 latency speed is_loss tcp_only) as H1.
      pose proof (impact_weight_pos (record_of u net)
                    (current_reward latency speed is_loss tcp_only)) as Hw.
      assert (H0 : total_reward (record_of u net) <= count (record_of u net)).
      { unfold record_of. destruct (subnets u !! net) as [r0 |] eqn:Hr0; cbn.
        - eapply Hinv, Hr0.
        - lra. }
      nra.
    + rewrite (Ho g Hne). apply Hinv.
  - rewrite (update_ignored _ _ _ _ _ _ Hnet). apply Hinv.
Qed.

Lemma save_keeps_rewards_below_counts (u : UCBManager.t) :
  0 <= decay_rate u ->
  (forall g r, subnets u !! g = Some r -> total_reward r <= count r) ->
  forall g r, subnets (save u) !! g = Some r -> total_reward r <= count r.
Proof.
  intros Hrate Hinv g r. rewrite save_lookup.
  destruct (subnets u !! g) as [r0 |] eqn:Hr0; [| discriminate].
  destruct (stale _); [discriminate |]. intros [= <-]. cbn.
  specialize (Hinv g r0 Hr0). nra.
Qed.
(** ** C7 and C10: the Stage-2 selection *)

Lemma filter_none {A} (P : A -> Prop) `{forall x, Decision (P x)} (l : list A) :
  Forall (fun x => ~ P x) l -> filter P l = [].
Proof.
  induction 1 as [| y l Hy _ IH]; [reflexivity |].
  rewrite filter_cons, decide_False by exact Hy. exact IH.
Qed.

Lemma filter_all {A} (P : A -> Prop) `{forall x, Decision (P x)} (l : list A) :
  Forall P l -> filter P l = l.
Proof.
  induction 1 as [| y l Hy _ IH]; [reflexivity |].
  rewrite filter_cons, decide_True by exact Hy. f_equal. exact IH.
Qed.

Lemma probe_final observe cands ucb final :
  fst (probe observe cands ucb final) = final ++ eligible observe cands.
Proof.
  revert ucb final. induction cands as [| [i r] cands IH]; intros ucb final.
  - cbn. rewrite app_nil_r. reflexivity.
  - cbn [probe]. rewrite IH. unfold eligible, probed. cbn [fmap list_fmap fst snd].
    rewrite filter_cons. cbn [snd speed with_speed].
    destruct (Qgtb (_http (observe i)) 0.1) eqn:Hs.
    + rewrite decide_True by reflexivity. rewrite <- app_assoc. reflexivity.
    + rewrite decide_False by discriminate. reflexivity.
Qed.

Lemma insert_by_speed_perm x l : insert_by_speed x l ≡ₚ x :: l.
Proof.
  induction l as [| y l IH]; cbn; [reflexivity |].
  destruct (Qlt_le_dec _ _); [| reflexivity].
  rewrite IH. apply perm_swap.
Qed.

Lemma sort_by_speed_perm l : sort_by_speed l ≡ₚ l.
Proof.
  induction l as [| x l IH]; cbn; [reflexivity |].
  rewrite insert_by_speed_perm. f_equiv. exact IH.
Qed.

Lemma insert_by_speed_sorted x l :
  StronglySorted faster_first l -> StronglySorted faster_first (insert_by_speed x l).
Proof.
  induction 1 as [| y l Hl IH Hy]; cbn.
  - repeat constructor.
  - destruct (Qlt_le_dec (speed (snd x)) (speed (snd y))) as [Hlt | Hle].
    + constructor; [exact IH |].
      rewrite insert_by_speed_perm. constructor; [| exact Hy].
      unfold faster_first. lra.
    + constructor; [constructor; assumption |].
      constructor; [exact Hle |].
      eapply Forall_impl; [exact Hy |]. unfold faster_first. intros z Hz. cbn in Hz. lra.
Qed.

Lemma sort_by_speed_sorted l : StronglySorted faster_first (sort_by_speed l).
Proof.
  induction l as [| x l IH]; cbn; [constructor |].
  apply insert_by_speed_sorted, IH.
Qed.

(** In a sorted list, the elements above a threshold are a prefix. *)
Lemma filter_sorted_prefix (target : Q) (l : list obj) :
  StronglySorted faster_first l ->
  filter (qualifies target) l = take (length (filter (qualifies target) l)) l
  /\ Forall (fun y => ~ qualifies target y) (drop (length (filter (qualifies target) l)) l).
Proof.
  induction 1 as [| x l Hl [IH1 IH2] Hx].
  - split; [reflexivity | constructor].
  - rewrite filter_cons. destruct (decide (qualifies target x)) as [Hq | Hq].
    + cbn. split; [f_equal; exact IH1 | exact IH2].
    + assert (Hnone : Forall (fun y => ~ qualifies target y) l).
      { eapply Forall_impl; [exact Hx |]. intros y Hxy Hy. apply Hq.
        unfold faster_first in *. cbn beta in *. apply Qgeb_true in Hy.
        apply Qgeb_true. lra. }
      rewrite (filter_none _ _ Hnone). cbn. split; [reflexivity |]. constructor; assumption.
Qed.

Lemma is_in_true x l : is_in x l = true <-> fst x ∈ fst <$> l.
Proof.
  unfold is_in. rewrite existsb_exists. rewrite list_elem_of_fmap. split.
  - intros (y & Hy & Heq). exists y. apply Nat.eqb_eq in Heq.
    split; [exact Heq | apply list_elem_of_In, Hy].
  - intros (y & Heq & Hy). exists y.
    split; [apply list_elem_of_In, Hy | apply Nat.eqb_eq, Heq].
Qed.

(** With distinct objects, what is not in a prefix is the rest. *)
Lemma not_in_prefix (a b : list obj) :
  NoDup (fst <$> (a ++ b)) ->
  filter (fun x => is_in x a = false) (a ++ b) = b.
Proof.
  rewrite fmap_app, NoDup_app. intros (_ & Hdisj & _).
  rewrite filter_app.
  rewrite filter_none, filter_all; [reflexivity | |].
  - apply Forall_forall. intros x Hx. apply not_true_is_false. intros Hin.
    apply is_in_true in Hin. apply (Hdisj _ Hin).
    apply list_elem_of_fmap. eauto.
  - apply Forall_forall. intros x Hx. rewrite not_false_iff_true.
    apply is_in_true. apply list_elem_of_fmap. eauto.
Qed.

(** The selection is a prefix of the sorted list: all the qualifiers, and
    at least five objects when there are that many. *)
Lemma select_take (target : Q) (final : list obj) :
  NoDup (fst <$> final) ->
  let sorted := sort_by_speed final in
  let k := length (filter (qualifies target) sorted) in
  select target final = take (Nat.max 5 k) sorted.
Proof.
  intros Hnd sorted k. unfold select. cbv zeta. fold sorted.
  destruct (filter_sorted_prefix target sorted (sort_by_speed_sorted final))
    as [Hpre _].
  fold k in Hpre. fold k. rewrite Hpre.
  destruct (k <? 5)%nat eqn:Hlt.
  - apply Nat.ltb_lt in Hlt.
    rewrite <- (take_drop k sorted) at 2.
    rewrite not_in_prefix.
    + rewrite take_take_drop. f_equal. lia.
    + rewrite take_drop. unfold sorted. rewrite sort_by_speed_perm. exact Hnd.
  - apply Nat.ltb_ge in Hlt. f_equal. lia.
Qed.

Lemma insert_by_speed_front x l :
  Forall (faster_first x) l -> insert_by_speed x l = x :: l.
Proof.
  destruct 1 as [| y l Hy _]; cbn; [reflexivity |].
  destruct (Qlt_le_dec _ _); [| reflexivity].
  unfold faster_first in Hy. lra.
Qed.

(** The sort is stable, so it commutes with a filter. *)
Lemma filter_insert_by_speed (P : obj -> Prop) `{forall x, Decision (P x)} x l :
  StronglySorted faster_first l ->
  filter P (insert_by_speed x l) =
    if decide (P x) then insert_by_speed x (filter P l) else filter P l.
Proof.
  induction 1 as [| y l Hl IH Hy]; cbn [insert_by_speed].
  - rewrite filter_cons, filter_nil. destruct (decide (P x)); reflexivity.
  - destruct (Qlt_le_dec (speed (snd x)) (speed (snd y))) as [Hlt | Hle].
    + rewrite !filter_cons, IH.
      destruct (decide (P x)), (decide (P y)); try reflexivity.
      cbn [insert_by_speed]. destruct (Qlt_le_dec _ _); [reflexivity | lra].
    + rewrite !filter_cons.
      destruct (decide (P x)); [| reflexivity].
      destruct (decide (P y)).
      * cbn [insert_by_speed]. destruct (Qlt_le_dec _ _); [lra | reflexivity].
      * rewrite insert_by_speed_front; [reflexivity |].
        apply list.Forall_forall. intros z [_ Hz]%list_elem_of_filter.
        rewrite list.Forall_forall in Hy. specialize (Hy z Hz).
        unfold faster_first in *. lra.
Qed.

Lemma filter_sort_by_speed (P : obj -> Prop) `{forall x, Decision (P x)} l :
  filter P (sort_by_speed l) = sort_by_speed (filter P l).
Proof.
  induction l as [| x l IH]; [reflexivity |].
  cbn [sort_by_speed foldr].
  rewrite filter_insert_by_speed by apply sort_by_speed_sorted.
  fold (sort_by_speed l). rewrite IH, filter_cons.
  destruct (decide (P x)); reflexivity.
Qed.

Lemma tags_imap (l : list IpResult) (j : nat) :
  fst <$> imap (fun i r => (j + i, r)%nat) l = seq j (length l).
Proof.
  revert j. induction l as [| r l IH]; intros j; [reflexivity |].
  cbn. rewrite Nat.add_0_r. f_equal.
  rewrite <- IH. f_equal. apply imap_ext. intros i x _. cbn. f_equal. lia.
Qed.

Lemma candidates_distinct cfg results : NoDup (fst <$> candidates cfg results).
Proof.
  assert (Hall : NoDup (fst <$> imap (fun i (r : IpResult) => (i, r)) results)).
  { rewrite (imap_ext _ (fun i r => (0 + i, r)%nat)) by reflexivity.
    rewrite tags_imap. apply NoDup_seq. }
  unfold candidates, slice_to.
  destruct (0 <=? _)%Z; rewrite fmap_take;
    (eapply sublist_NoDup; [exact Hall | apply sublist_take]).
Qed.

Lemma probed_tags observe cands : fst <$> probed observe cands = fst <$> cands.
Proof.
  unfold probed. rewrite <- list_fmap_compose. apply list_fmap_ext.
  intros i x _. reflexivity.
Qed.

Lemma eligible_distinct observe cfg results :
  NoDup (fst <$> eligible observe (candidates cfg results)).
Proof.
  eapply sublist_NoDup; [apply (candidates_distinct cfg results) |].
  rewrite <- (probed_tags observe (candidates cfg results)).
  apply fmap_sublist, sublist_filter.
Qed.

Lemma eligible_spec observe cands x :
  x ∈ eligible observe cands ->
  0.1 < speed (snd x) /\ speed (snd x) = _http (observe (fst x))
  /\ fst x ∈ fst <$> cands.
Proof.
  unfold eligible. intros [Hs Hx]%list_elem_of_filter.
  apply Qgtb_true in Hs. split; [exact Hs |].
  unfold probed in Hx. apply list_elem_of_fmap in Hx as (c & -> & Hc).
  split; [reflexivity |]. cbn. apply list_elem_of_fmap. eauto.
Qed.

Lemma smart_speed_test_select cfg observe results ucb sel ucb' :
  smart_speed_test cfg observe results ucb = Some (sel, ucb') ->
  sel = select (min_speed_target cfg) (eligible observe (candidates cfg results)).
Proof.
  unfold smart_speed_test. cbv zeta.
  pose proof (probe_final observe (candidates cfg results) ucb []) as Hp.
  destruct (probe observe (candidates cfg results) ucb []) as [final u1].
  cbn in Hp. subst final.
  destruct (candidates cfg results); [discriminate |].
  intros [= <- _]. reflexivity.
Qed.

Lemma select_spec_select (target : Q) (pool : list obj) :
  NoDup (fst <$> pool) -> select target pool ≡ₚ spec_select target pool.
Proof.
  intros Hnd. rewrite (select_take target pool Hnd). cbv zeta.
  unfold spec_select. cbv zeta.
  set (sorted := sort_by_speed pool).
  destruct (filter_sorted_prefix target sorted (sort_by_speed_sorted pool))
    as [Hpre Hrest].
  assert (Hperm : filter (qualifies target) pool ≡ₚ filter (qualifies target) sorted).
  { unfold sorted. rewrite sort_by_speed_perm. reflexivity. }
  set (k := length (filter (qualifies target) sorted)) in *.
  assert (Hk : length (filter (qualifies target) pool) = k).
  { unfold k. rewrite Hperm. reflexivity. }
  rewrite Hk.
  assert (Hothers : sort_by_speed (filter (fun x => ~ qualifies target x) pool)
                    = drop k sorted).
  { rewrite <- filter_sort_by_speed. fold sorted.
    rewrite <- (take_drop k sorted) at 1. rewrite filter_app.
    rewrite filter_none, filter_all; [reflexivity | exact Hrest |].
    rewrite <- Hpre. apply list.Forall_forall.
    intros x [Hx _]%list_elem_of_filter. tauto. }
  rewrite Hothers.
  destruct (k <? 5)%nat eqn:Hlt; rewrite Hperm, Hpre.
  - apply Nat.ltb_lt in Hlt. rewrite take_take_drop.
    replace (5 `max` k)%nat with (k + (5 - k))%nat by lia. reflexivity.
  - apply Nat.ltb_ge in Hlt.
    replace (5 `max` k)%nat with k by lia. reflexivity.
Qed.

(** What the prefix form of the selection gives. *)
Lemma select_properties (target : Q) (pool : list obj) :
  NoDup (fst <$> pool) ->
  let sel := select target pool in
  let k := length (filter (qualifies target) pool) in
  (forall x, x ∈ sel -> x ∈ pool)
  /\ (forall x, x ∈ pool -> target <= speed (snd x) -> x ∈ sel)
  /\ ((5 <= k)%nat -> forall x, x ∈ sel -> target <= speed (snd x))
  /\ ((k < 5)%nat -> length sel = Nat.min 5 (length pool))
  /\ (forall x y, x ∈ sel -> y ∈ pool -> y ∉ sel ->
                  speed (snd y) <= speed (snd x))
  /\ StronglySorted faster_first sel.
Proof.
  intros Hnd sel k. subst sel.
  rewrite (select_take target pool Hnd). cbv zeta.
  set (sorted := sort_by_speed pool).
  pose proof (sort_by_speed_sorted pool) as Hsorted. fold sorted in Hsorted.
  pose proof (sort_by_speed_perm pool) as Hperm. fold sorted in Hperm.
  destruct (filter_sorted_prefix target sorted Hsorted) as [Hpre _].
  assert (Hk : length (filter (qualifies target) sorted) = k).
  { unfold k. rewrite Hperm. reflexivity. }
  rewrite Hk in *. clearbody k.
  set (n := (5 `max` k)%nat).
  assert (Hsplit : take n sorted ++ drop n sorted = sorted) by apply take_drop.
  split; [| split; [| split; [| split; [| split]]]].
  - intros x Hx. rewrite <- Hperm. eapply subseteq_take, Hx.
  - intros x Hx Hq. rewrite <- Hperm in Hx.
    assert (Hin : x ∈ take k sorted).
    { rewrite <- Hpre. apply list_elem_of_filter. split; [| exact Hx].
      apply Qgeb_true, Hq. }
    replace k with (k `min` n)%nat in Hin by lia.
    rewrite <- take_take in Hin. eapply subseteq_take, Hin.
  - intros Hge x Hx. replace n with k in Hx by lia.
    rewrite <- Hpre in Hx. apply list_elem_of_filter in Hx as [Hq _].
    apply Qgeb_true, Hq.
  - intros Hlt. rewrite length_take, <- Hperm. unfold n. lia.
  - intros x y Hx Hy Hny. rewrite <- Hperm, <- Hsplit in Hy.
    apply elem_of_app in Hy as [Hy | Hy]; [contradiction |].
    rewrite <- Hsplit in Hsorted.
    apply (StronglySorted_app_1_elem_of _ _ _ _ _ Hsorted Hx Hy).
  - rewrite <- Hsplit in Hsorted. eapply StronglySorted_app_1_l, Hsorted.
Qed.



Lemma stage2_selection_pool cfg observe results ucb sel ucb' :
  smart_speed_test cfg observe results ucb = Some (sel, ucb') ->
  forall x, x ∈ sel -> x ∈ eligible observe (candidates cfg results).
Proof.
  intros H. apply smart_speed_test_select in H. subst sel.
  apply (select_properties _ _ (eligible_distinct observe cfg results)).
Qed.

(** C7, as stated, fails: a probed candidate whose throughput is at most
    0.1 MB/s is never selected, whatever the target and however few
    candidates there are.  Here the only candidate downloads at 0.05 MB/s. *)
Lemma slow_candidate_not_backfilled :
  let cfg := {| speed_test_range := 20; min_speed_target := 5 |} in
  let results := [ {| ip := "10.0.0.1"; latency := 20; speed := 0; loss := false |} ] in
  let observe := fun _ : nat => HttpRead 52428 1 in
  exists sel ucb',
    smart_speed_test cfg observe results (count_launch (init 0.85)) = Some (sel, ucb')
    /\ ~ sel ≡ₚ spec_select (min_speed_target cfg)
                            (probed observe (candidates cfg results)).
Proof.
  cbv zeta. eexists. eexists. split; [vm_compute; reflexivity |].
  intros Hperm. apply Permutation_length in Hperm. vm_compute in Hperm.
  discriminate.
Qed.

(** C7, amended: the result is the specification's selection made among the
    probed candidates whose throughput exceeds 0.1 MB/s.  It holds every
    such candidate that meets the target; with five or more of those it
    holds nothing else; with fewer it is filled up to five, or to the whole
    pool, with candidates at least as fast as any one left out; and it is
    listed fastest first. *)
Theorem stage2_selection cfg observe results ucb sel ucb' :
  smart_speed_test cfg observe results ucb = Some (sel, ucb') ->
  let pool := eligible observe (candidates cfg results) in
  let target := min_speed_target cfg in
  let k := length (filter (fun x : obj => Qgeb (speed (snd x)) target = true) pool) in
  sel ≡ₚ spec_select target pool
  /\ (forall x, x ∈ sel -> x ∈ pool)
  /\ (forall x, x ∈ pool -> target <= speed (snd x) -> x ∈ sel)
  /\ ((5 <= k)%nat -> forall x, x ∈ sel -> target <= speed (snd x))
  /\ ((k < 5)%nat -> length sel = Nat.min 5 (length pool))
  /\ (forall x y, x ∈ sel -> y ∈ pool -> y ∉ sel -> speed (snd y) <= speed (snd x))
  /\ StronglySorted faster_first sel.
Proof.
  intros H pool target k. apply smart_speed_test_select in H. subst sel.
  pose proof (eligible_distinct observe cfg results) as Hnd.
  split; [apply select_spec_select, Hnd |].
  apply (select_properties target pool Hnd).
Qed.

Lemma stage2_selection_witness :
  exists sel ucb',
    smart_speed_test sample_cfg sample_observe sample_results first_launch
      = Some (sel, ucb')
    /\ (fst <$> sel) = [0%nat; 2%nat]
    /\ StronglySorted faster_first sel.
Proof.
  eexists. eexists. split; [vm_compute; reflexivity |].
  split; [reflexivity |].
  refine (proj2 (proj2 (proj2 (proj2 (proj2 (proj2
    (stage2_selection sample_cfg sample_observe sample_results first_launch
       _ _ _))))))).
  vm_compute. reflexivity.
Defined.

(** C10: every selected result has a throughput above 0.1 MB/s; a candidate
    whose download gave 0.1 MB/s or less, a failed download included, is
    not selected. *)
Theorem stage2_needs_throughput cfg observe results ucb sel ucb' :
  smart_speed_test cfg observe results ucb = Some (sel, ucb') ->
  (forall x, x ∈ sel -> 0.1 < speed (snd x))
  /\ (forall i, _http (observe i) <= 0.1 -> i ∉ fst <$> sel)
  /\ (forall i, observe i = HttpError -> i ∉ fst <$> sel).
Proof.
  intros H.
  pose proof (stage2_selection_pool cfg observe results ucb sel ucb' H) as Hpool.
  assert (Hlow : forall i, _http (observe i) <= 0.1 -> i ∉ fst <$> sel).
  { intros i Hi Hin. apply list_elem_of_fmap in Hin as (x & -> & Hx).
    apply Hpool, eligible_spec in Hx as (Hs & Heq & _).
    rewrite Heq in Hs. lra. }
  split; [| split].
  - intros x Hx. apply Hpool, eligible_spec in Hx. tauto.
  - exact Hlow.
  - intros i Hi. apply Hlow. rewrite Hi. cbn. lra.
Qed.

Lemma stage2_needs_throughput_witness :
  exists sel ucb',
    smart_speed_test sample_cfg sample_observe sample_results first_launch
      = Some (sel, ucb')
    /\ 1%nat ∉ fst <$> sel.
Proof.
  eexists. eexists. split; [vm_compute; reflexivity |].
  refine (proj2 (proj2
    (stage2_needs_throughput sample_cfg sample_observe sample_results first_launch
       _ _ _)) 1%nat _).
  - vm_compute. reflexivity.
  - reflexivity.
Defined.
(** ** C8: the cold-start loop *)

(** A sweep over groups of one or two addresses draws nothing. *)
Lemma cold_sweep_idle max_total_count all_subnets targets s :
  Forall (fun sn => (num_addresses sn <= 2)%Z) all_subnets ->
  cold_sweep max_total_count all_subnets targets s = Return targets s.
Proof.
  induction 1 as [| sn rest Hsn _ IH]; cbn [cold_sweep]; [reflexivity |].
  destruct (max_total_count <=? len targets)%Z; [reflexivity |].
  replace (2 <? num_addresses sn)%Z with false by (symmetry; apply Z.ltb_ge, Hsn).
  exact IH.
Qed.

(** With such groups only, and a target not yet met, the guard of line 251
    never fires once there is a group: the loop goes round for ever. *)
Lemma cold_loop_stuck fuel max_total_count all_subnets targets s :
  Forall (fun sn => (num_addresses sn <= 2)%Z) all_subnets ->
  (len targets < max_total_count)%Z ->
  (len targets < len all_subnets * 250)%Z ->
  cold_loop fuel max_total_count all_subnets targets s = OutOfFuel.
Proof.
  intros Hsmall Hlt Hguard.
  induction fuel as [| fuel IH]; cbn [cold_loop];
    replace (max_total_count <=? len targets)%Z with false
      by (symmetry; apply Z.leb_gt, Hlt).
  - reflexivity.
  - unfold bind. rewrite (cold_sweep_idle _ _ _ _ Hsmall).
    replace (max_total_count <=? len targets)%Z with false
      by (symmetry; apply Z.leb_gt, Hlt).
    replace (len all_subnets * 250 <=? len targets)%Z with false
      by (symmetry; apply Z.leb_gt, Hguard).
    rewrite andb_false_r. exact IH.
Qed.

Lemma swap_perm {A} (x : list A) (i j : nat) : swap x i j ≡ₚ x.
Proof.
  unfold swap.
  destruct (x !! i) as [a |] eqn:Ha; [| reflexivity].
  destruct (x !! j) as [b |] eqn:Hb; [| reflexivity].
  apply Permutation_insert_swap; assumption.
Qed.

Lemma shuffle_from_perm {A} (i : nat) (x : list A) (s : Random.state) :
  exists x' s', shuffle_from i x s = Return x' s' /\ x' ≡ₚ x.
Proof.
  revert x s. induction i as [| i IH]; intros x s; cbn [shuffle_from].
  - exists x, s. split; reflexivity.
  - unfold bind, randbelow, bind, next_raw, ret. cbv beta iota.
    match goal with |- context [shuffle_from i ?y ?t] =>
      destruct (IH y t) as (x' & s' & Heq & Hperm) end.
    exists x', s'. split; [exact Heq |].
    rewrite Hperm. apply swap_perm.
Qed.

Lemma shuffle_perm {A} (x : list A) (s : Random.state) :
  exists x' s', shuffle x s = Return x' s' /\ x' ≡ₚ x.
Proof. apply shuffle_from_perm. Qed.

Lemma random_host_returns (sn : IPv4Network) (s : Random.state) :
  usable sn ->
  exists a s', random_host sn s = Return a s' /\ host_of sn a.
Proof.
  unfold usable. intros Hu.
  unfold random_host, randint, bind.
  replace (num_addresses sn - 2 <? 1)%Z with false by (symmetry; apply Z.ltb_ge; lia).
  unfold randbelow, bind, next_raw, ret. cbv beta iota.
  set (raw := draws s (cursor s)).
  set (n := Z.to_N (num_addresses sn - 2 - 1 + 1)).
  assert (Hn : Z.of_N n = (num_addresses sn - 2)%Z) by (unfold n; lia).
  pose proof (N.mod_lt raw n ltac:(lia)) as Hmod.
  set (m := (raw mod n)%N) in *.
  set (k := (1 + Z.of_N m)%Z).
  assert (Hk : (1 <= k <= num_addresses sn - 2)%Z) by (unfold k; lia).
  unfold getitem.
  replace (0 <=? k)%Z with true by (symmetry; apply Z.leb_le; lia).
  replace (k <? num_addresses sn)%Z with true by (symmetry; apply Z.ltb_lt; lia).
  unfold ret. eexists. eexists. split; [reflexivity |].
  exists k. split; [exact Hk | reflexivity].
Qed.

(** One sweep returns; it appends host addresses of the groups, never
    passes the target, and adds at least one address when a group is usable
    and the target is not met. *)
Lemma cold_sweep_spec max_total_count all_subnets targets s :
  exists added s',
    cold_sweep max_total_count all_subnets targets s = Return (targets ++ added) s'
    /\ Forall (fun a => exists sn, sn ∈ all_subnets /\ host_of sn a) added
    /\ (len (targets ++ added) <= Z.max (len targets) max_total_count)%Z
    /\ (Exists usable all_subnets -> (len targets < max_total_count)%Z ->
        (len targets < len (targets ++ added))%Z).
Proof.
  revert targets s.
  induction all_subnets as [| sn rest IH]; intros targets s; cbn [cold_sweep].
  - exists [], s. rewrite app_nil_r. repeat split; auto; try lia.
    intros H. inversion H.
  - destruct (max_total_count <=? len targets)%Z eqn:Hmax.
    + apply Z.leb_le in Hmax. exists [], s. rewrite app_nil_r.
      repeat split; auto; lia.
    + apply Z.leb_gt in Hmax.
      destruct (2 <? num_addresses sn)%Z eqn:Hu.
      * apply Z.ltb_lt in Hu.
        destruct (random_host_returns sn s Hu) as (a & s1 & Ha & Hhost).
        unfold bind. rewrite Ha.
        destruct (IH (targets ++ [a]) s1) as (added & s' & Heq & Hall & Hle & _).
        exists (a :: added), s'.
        rewrite <- app_assoc in Heq, Hle. cbn in Heq, Hle.
        split; [exact Heq |]. split; [| split].
        -- constructor.
           ++ exists sn. split; [left | exact Hhost].
           ++ eapply Forall_impl; [exact Hall |].
              intros b (sn' & Hin & Hb). exists sn'. split; [right; exact Hin | exact Hb].
        -- unfold len in *. rewrite !length_app in *. cbn [length] in *. lia.
        -- intros _ _. unfold len. rewrite length_app. cbn. lia.
      * apply Z.ltb_ge in Hu.
        destruct (IH targets s) as (added & s' & Heq & Hall & Hle & Hprog).
        exists added, s'. split; [exact Heq |]. split; [| split].
        -- eapply Forall_impl; [exact Hall |].
           intros b (sn' & Hin & Hb). exists sn'. split; [right; exact Hin | exact Hb].
        -- exact Hle.
        -- intros Hex Hlt. apply Hprog; [| exact Hlt].
           apply Exists_cons in Hex as [Hsn | Hrest]; [| exact Hrest].
           unfold usable in Hsn. lia.
Qed.

(** With a usable group the loop ends within [max_total_count] turns.  It
    returns host addresses of the groups, no more than the target, and
    exactly the target unless the groups are too few for the guard of
    line 251 to stay silent. *)
Lemma cold_loop_returns fuel max_total_count all_subnets :
  Exists usable all_subnets ->
  forall targets s,
    (max_total_count - len targets <= Z.of_nat fuel)%Z ->
    exists added s',
      cold_loop fuel max_total_count all_subnets targets s
        = Return (targets ++ added) s'
      /\ Forall (fun a => exists sn, sn ∈ all_subnets /\ host_of sn a) added
      /\ (len (targets ++ added) <= Z.max (len targets) max_total_count)%Z
      /\ ((max_total_count <= len all_subnets * 254)%Z ->
          (max_total_count <= len (targets ++ added))%Z).
Proof.
  intros Hex. induction fuel as [| fuel IH]; intros targets s Hfuel;
    cbn [cold_loop];
    destruct (max_total_count <=? len targets)%Z eqn:Hmax;
    try (apply Z.leb_le in Hmax; exists [], s; rewrite app_nil_r;
         repeat split; auto; lia).
  - apply Z.leb_gt in Hmax. lia.
  - apply Z.leb_gt in Hmax.
    destruct (cold_sweep_spec max_total_count all_subnets targets s)
      as (added1 & s1 & Hsweep & Hall1 & Hle1 & Hprog).
    specialize (Hprog Hex Hmax).
    unfold bind. rewrite Hsweep.
    destruct (max_total_count <=? len (targets ++ added1))%Z eqn:Hmax1.
    + apply Z.leb_le in Hmax1. exists added1, s1. repeat split; auto.
    + destruct ((len all_subnets * 254 <? max_total_count)%Z
                && (len all_subnets * 250 <=? len (targets ++ added1))%Z) eqn:Hguard.
      * apply andb_true_iff in Hguard as [Hg _]. apply Z.ltb_lt in Hg.
        exists added1, s1. repeat split; auto. lia.
      * destruct (IH (targets ++ added1) s1) as (added2 & s2 & Heq & Hall2 & Hle2 & Hfull).
        { lia. }
        exists (added1 ++ added2), s2. rewrite app_assoc.
        split; [exact Heq |]. split; [| split].
        -- apply Forall_app. split; assumption.
        -- lia.
        -- exact Hfull.
Qed.

(** The host addresses of a group lie in the range the group comes from. *)
Lemma host_in_range (cidrs_v4 : list IPv4Network) (sn : IPv4Network) (a : string) :
  Forall well_formed cidrs_v4 ->
  sn ∈ expand cidrs_v4 -> host_of sn a ->
  exists net n, net ∈ cidrs_v4 /\ a = Ip.str_v4 n /\ Net.contains net n = true.
Proof.
  intros Hwf Hsn (k & Hk & ->).
  induction Hwf as [| net rest Hnet _ IH]; cbn [expand] in Hsn.
  - inversion Hsn.
  - assert (Hhere : (exists i, (i < 2 ^ (24 - prefixlen net))%N
                               /\ (prefixlen net < 24)%N
                               /\ network_address sn = (network_address net + i * 256)%N
                               /\ prefixlen sn = 24%N)
                    \/ sn = net \/ sn ∈ expand rest).
    { destruct (prefixlen net <? 24)%N eqn:Hp.
      - apply N.ltb_lt in Hp. apply elem_of_app in Hsn as [Hsn | Hsn]; [| auto].
        left. unfold subnets24 in Hsn.
        apply list_elem_of_In, in_map_iff in Hsn as (i & <- & Hi).
        apply in_seq in Hi. exists (N.of_nat i). cbn. repeat split; try assumption.
        lia.
      - apply elem_of_cons in Hsn as [-> | Hsn]; auto. }
    destruct Hhere as [(i & Hi & Hp & Hbase & Hlen) | [-> | Hrest]].
    + exists net, (network_address sn + Z.to_N k)%N.
      split; [left |]. split; [reflexivity |].
      unfold Net.contains, num_addresses in *. rewrite Hlen in Hk.
      change (2 ^ (32 - Z.of_N 24))%Z with 256%Z in Hk.
      unfold well_formed in Hnet.
      assert (Hpow : (2 ^ (32 - Z.of_N (prefixlen net))
                      = Z.of_N (2 ^ (24 - prefixlen net)) * 256)%Z).
      { rewrite N2Z.inj_pow, N2Z.inj_sub by lia.
        replace (32 - Z.of_N (prefixlen net))%Z
          with (Z.of_N 24 - Z.of_N (prefixlen net) + 8)%Z by lia.
        rewrite Z.pow_add_r by lia. reflexivity. }
      rewrite Hpow, Hbase.
      apply andb_true_iff. split; [apply N.leb_le | apply Z.ltb_lt]; nia.
    + exists net, (network_address net + Z.to_N k)%N.
      split; [left |]. split; [reflexivity |].
      unfold Net.contains. apply andb_true_iff.
      split; [apply N.leb_le | apply Z.ltb_lt]; lia.
    + destruct (IH Hrest) as (net' & n & Hin & Heq & Hc).
      exists net', n. split; [right; exact Hin |]. split; assumption.
Qed.

(** The cold start with a usable group: [generate] returns within
    [max_total_count] turns of the loop, whatever the draws.  It returns
    addresses of the supplied ranges, never more than the target, and
    exactly the target when there are at least target/254 groups. *)
Lemma cold_start_returns fuel cidrs_v4 max_total_count ucb s :
  is_cold_start ucb = true ->
  Forall well_formed cidrs_v4 ->
  Exists usable (expand cidrs_v4) ->
  (max_total_count <= Z.of_nat fuel)%Z ->
  exists targets s',
    generate fuel cidrs_v4 [] max_total_count ucb s = Return targets s'
    /\ Forall (fun a => exists net n,
                 net ∈ cidrs_v4 /\ a = Ip.str_v4 n /\ Net.contains net n = true)
              targets
    /\ (len targets <= Z.max 0 max_total_count)%Z
    /\ ((0 <= max_total_count)%Z ->
        (max_total_count <= len (expand cidrs_v4) * 254)%Z ->
        len targets = max_total_count).
Proof.
  intros Hcold Hwf Hex Hfuel. unfold generate. rewrite Hcold.
  unfold cold.
  destruct (shuffle_perm (expand cidrs_v4) s) as (subs & s1 & Hsh & Hperm).
  assert (Hex' : Exists usable subs) by (rewrite Hperm; exact Hex).
  destruct (cold_loop_returns fuel max_total_count subs Hex' [] s1)
    as (added & s2 & Hloop & Hall & Hle & Hfull).
  { unfold len. cbn. lia. }
  cbn [app] in Hloop, Hle, Hfull.
  destruct (shuffle_perm added s2) as (targets & s3 & Hsh2 & Hperm2).
  exists targets, s3.
  split.
  { unfold bind at 1. unfold bind at 1. unfold bind at 1.
    rewrite Hsh. cbv beta iota. rewrite Hloop. cbv beta iota.
    unfold ret. exact Hsh2. }
  assert (Hlen : len targets = len added) by (unfold len; rewrite Hperm2; reflexivity).
  assert (Hsubs : len subs = len (expand cidrs_v4)) by (unfold len; rewrite Hperm; reflexivity).
  rewrite Hlen. split; [| split].
  - rewrite Hperm2. eapply Forall_impl; [exact Hall |].
    intros a (sn & Hin & Hhost). rewrite Hperm in Hin.
    eapply host_in_range; eassumption.
  - unfold len in *. cbn in Hle. lia.
  - intros H0 Hmany. rewrite <- Hsubs in Hmany.
    specialize (Hfull Hmany). unfold len in *. cbn in Hle. lia.
Qed.

(** C8 fails on the code: on a cold start over ranges that only give groups
    of one or two addresses (and at least one group), [generate] does not
    return, whatever the target (at least 1), the random draws and the
    fuel. *)
Theorem cold_start_spins fuel cidrs_v4 cidrs_v6 max_total_count ucb s :
  is_cold_start ucb = true ->
  expand cidrs_v4 <> [] ->
  Forall (fun sn => (num_addresses sn <= 2)%Z) (expand cidrs_v4) ->
  (1 <= max_total_count)%Z ->
  generate fuel cidrs_v4 cidrs_v6 max_total_count ucb s = OutOfFuel.
Proof.
  intros Hcold Hne Hsmall Hmax. unfold generate. rewrite Hcold. unfold cold.
  destruct (shuffle_perm (expand cidrs_v4) s) as (subs & s1 & Hsh & Hperm).
  unfold bind at 1. unfold bind at 1. unfold bind at 1.
  rewrite Hsh. cbv beta iota.
  rewrite cold_loop_stuck; [reflexivity | | |].
  - rewrite Hperm. exact Hsmall.
  - unfold len. cbn [length]. lia.
  - assert (Hlen : length subs = length (expand cidrs_v4)) by (rewrite Hperm; reflexivity).
    unfold len. rewrite Hlen. cbn [length].
    destruct (expand cidrs_v4); [congruence | cbn [length]; lia].
Qed.

Lemma cold_start_spins_witness :
  generate 1000 [one_address] [] 10000 first_launch (seed_of counting)
  = OutOfFuel.
Proof.
  apply cold_start_spins.
  - reflexivity.
  - discriminate.
  - repeat constructor. vm_compute. discriminate.
  - lia.
Defined.

(** ** C6: the cold start does not keep addresses apart *)

Lemma host_of_hosts (sn : IPv4Network) (a : string) : host_of sn a -> a ∈ hosts sn.
Proof.
  intros (k & Hk & ->). unfold hosts. apply list_elem_of_In, in_map_iff.
  exists (Z.to_nat k). split; [f_equal; f_equal; lia |].
  apply in_seq. lia.
Qed.

Lemma hits_app g l1 l2 : hits g (l1 ++ l2) = (hits g l1 + hits g l2)%nat.
Proof. unfold hits. rewrite filter_app, length_app. reflexivity. Qed.

Lemma hits_Exists g l : Exists (host_of g) l -> (1 <= hits g l)%nat.
Proof.
  unfold hits. induction 1 as [a l Ha | a l _ IH]; rewrite filter_cons.
  - rewrite decide_True by (apply host_of_hosts, Ha). cbn. lia.
  - destruct (decide _); cbn; lia.
Qed.

(** Pigeonhole: a list without repeats hits a group no more often than the
    group has hosts. *)
Lemma hits_NoDup g l : NoDup l -> (hits g l <= length (hosts g))%nat.
Proof.
  intros Hnd. unfold hits. apply submseteq_length, NoDup_submseteq.
  - eapply sublist_NoDup; [exact Hnd | apply sublist_filter].
  - intros a [Ha _]%list_elem_of_filter. exact Ha.
Qed.

Lemma length_hosts g : length (hosts g) = Z.to_nat (num_addresses g - 2).
Proof. unfold hosts. rewrite length_map, length_seq. reflexivity. Qed.

(** A sweep with room for every group draws from each usable group. *)
Lemma cold_sweep_full max_total_count all_subnets g :
  forall targets s result s',
    cold_sweep max_total_count all_subnets targets s = Return result s' ->
    exists added,
      result = targets ++ added
      /\ (length added <= length all_subnets)%nat
      /\ (g ∈ all_subnets -> usable g ->
          (len targets + len all_subnets <= max_total_count)%Z ->
          Exists (host_of g) added).
Proof.
  induction all_subnets as [| sn rest IH]; intros targets s result s';
    cbn [cold_sweep]; unfold ret.
  - intros [= <- <-]. exists []. rewrite app_nil_r.
    repeat split; auto. intros H. inversion H.
  - destruct (max_total_count <=? len targets)%Z eqn:Hmax.
    + apply Z.leb_le in Hmax. intros [= <- <-]. exists []. rewrite app_nil_r.
      split; [reflexivity |]. split; [cbn; lia |].
      unfold len in *. cbn [length]. lia.
    + apply Z.leb_gt in Hmax.
      destruct (2 <? num_addresses sn)%Z eqn:Hu.
      * apply Z.ltb_lt in Hu.
        destruct (random_host_returns sn s Hu) as (a & s1 & Ha & Hhost).
        unfold bind. rewrite Ha. intros Hrest.
        destruct (IH _ _ _ _ Hrest) as (added & -> & Hlen & Hhit).
        exists (a :: added). rewrite <- app_assoc. split; [reflexivity |].
        split; [cbn; lia |].
        intros Hg Hug Hroom.
        apply elem_of_cons in Hg as [-> | Hg]; [left; exact Hhost |].
        right. apply Hhit; [exact Hg | exact Hug |].
        unfold len in *. rewrite length_app. cbn [length] in *. lia.
      * apply Z.ltb_ge in Hu. intros Hrest.
        destruct (IH _ _ _ _ Hrest) as (added & -> & Hlen & Hhit).
        exists added. split; [reflexivity |]. split; [cbn [length]; lia |].
        intros Hg Hug Hroom.
        apply elem_of_cons in Hg as [-> | Hg]; [unfold usable in Hug; lia |].
        apply Hhit; [exact Hg | exact Hug |]. unfold len in *. cbn [length] in *. lia.
Qed.

(** A target that leaves room for [n] sweeps makes the loop hit every usable
    group at least [n] times. *)
Lemma cold_loop_hits fuel max_total_count all_subnets g :
  g ∈ all_subnets -> usable g ->
  (max_total_count <= len all_subnets * 254)%Z ->
  forall (n : nat) targets s result s',
    cold_loop fuel max_total_count all_subnets targets s = Return result s' ->
    (len targets + Z.of_nat n * len all_subnets <= max_total_count)%Z ->
    exists added, result = targets ++ added /\ (n <= hits g added)%nat.
Proof.
  intros Hg Hug Hguard.
  assert (Hne : (1 <= len all_subnets)%Z).
  { destruct all_subnets; [inversion Hg | unfold len; cbn; lia]. }
  induction fuel as [| fuel IH]; intros n targets s result s';
    cbn [cold_loop]; unfold ret;
    destruct (max_total_count <=? len targets)%Z eqn:Hmax;
    try (apply Z.leb_le in Hmax; intros [= <- <-] Hroom; exists [];
         rewrite app_nil_r; split; [reflexivity | cbn; nia]).
  - discriminate.
  - apply Z.leb_gt in Hmax. unfold bind.
    destruct (cold_sweep max_total_count all_subnets targets s)
      as [targets1 s1 | |] eqn:Hsweep; try discriminate.
    destruct (cold_sweep_full _ _ g _ _ _ _ Hsweep) as (added1 & -> & Hlen1 & Hhit1).
    assert (Hfirst : (1 <= n)%nat -> 
                     (len targets + Z.of_nat n * len all_subnets <= max_total_count)%Z ->
                     (1 <= hits g added1)%nat).
    { intros Hn Hroom. apply hits_Exists, Hhit1; [exact Hg | exact Hug | nia]. }
    assert (Hlen1' : (len (targets ++ added1) <= len targets + len all_subnets)%Z).
    { unfold len. rewrite length_app. lia. }
    destruct (max_total_count <=? len (targets ++ added1))%Z eqn:Hmax1.
    + apply Z.leb_le in Hmax1. intros [= <- <-] Hroom. exists added1.
      split; [reflexivity |].
      destruct n as [| n]; [lia |].
      specialize (Hfirst ltac:(lia) Hroom). nia.
    + destruct ((len all_subnets * 254 <? max_total_count)%Z
                && (len all_subnets * 250 <=? len (targets ++ added1))%Z) eqn:Hg2.
      * apply andb_true_iff in Hg2 as [Hg2 _]. apply Z.ltb_lt in Hg2. lia.
      * intros Hloop Hroom.
        destruct (IH (Nat.pred n) _ _ _ _ Hloop) as (added2 & -> & Hhit2).
        { destruct n as [| n]; cbn [Nat.pred]; [apply Z.leb_gt in Hmax1; lia | nia]. }
        exists (added1 ++ added2). rewrite app_assoc. split; [reflexivity |].
        rewrite hits_app.
        destruct n as [| n]; [lia |].
        specialize (Hfirst ltac:(lia) Hroom). cbn [Nat.pred] in Hhit2. lia.
Qed.

(** For every seed: when the target leaves room for more sweeps than a
    usable group has hosts, the cold start returns some address twice. *)
Lemma cold_start_must_repeat fuel cidrs_v4 max_total_count ucb s targets s' g :
  is_cold_start ucb = true ->
  g ∈ expand cidrs_v4 -> usable g ->
  ((num_addresses g - 1) * len (expand cidrs_v4) <= max_total_count)%Z ->
  (max_total_count <= len (expand cidrs_v4) * 254)%Z ->
  generate fuel cidrs_v4 [] max_total_count ucb s = Return targets s' ->
  ~ NoDup targets.
Proof.
  intros Hcold Hg Hug Hroom Hguard. unfold generate. rewrite Hcold. unfold cold.
  destruct (shuffle_perm (expand cidrs_v4) s) as (subs & s1 & Hsh & Hperm).
  unfold bind at 1. unfold bind at 1. unfold bind at 1.
  rewrite Hsh. cbv beta iota.
  destruct (cold_loop fuel max_total_count subs [] s1) as [result s2 | |] eqn:Hloop;
    try discriminate.
  unfold ret. intros Hfinal.
  destruct (shuffle_perm result s2) as (targets' & s3 & Hsh2 & Hperm2).
  rewrite Hsh2 in Hfinal. injection Hfinal as <- <-.
  assert (Hlen : len subs = len (expand cidrs_v4))
    by (unfold len; rewrite Hperm; reflexivity).
  destruct (cold_loop_hits fuel max_total_count subs g) with
    (n := Z.to_nat (num_addresses g - 1)) (targets := @nil string)
    (s := s1) (result := result) (s' := s2) as (added & -> & Hhits).
  - rewrite Hperm. exact Hg.
  - exact Hug.
  - rewrite Hlen. exact Hguard.
  - exact Hloop.
  - rewrite Hlen. unfold usable in Hug. unfold len at 1. cbn [length]. lia.
  - intros Hnd. rewrite Hperm2 in Hnd. cbn [app] in Hnd.
    pose proof (hits_NoDup g added Hnd) as Hle.
    rewrite length_hosts in Hle. unfold usable in Hug. lia.
Qed.

(** C6 fails on the code, for every seed: a first launch over 10.0.0.0/22
    and 10.1.0.0/30 (1018 host addresses) with target 1000 returns exactly
    1000 addresses of these ranges, and some address more than once. *)
Theorem cold_start_repeats_addresses (fuel : nat) (s : Random.state) :
  (1000 <= fuel)%nat ->
  exists targets s',
    generate fuel [slash22; slash30] [] 1000 first_launch s = Return targets s'
    /\ length targets = 1000%nat
    /\ Forall (fun a => exists net n,
                 net ∈ [slash22; slash30] /\ a = Ip.str_v4 n
                 /\ Net.contains net n = true) targets
    /\ ~ NoDup targets.
Proof.
  intros Hfuel.
  destruct (cold_start_returns fuel [slash22; slash30] 1000 first_launch s)
    as (targets & s' & Hgen & Hin & _ & Hlen).
  - reflexivity.
  - repeat constructor; vm_compute; discriminate.
  - apply Exists_exists. exists slash30. split; [| reflexivity].
    vm_compute. repeat constructor.
  - lia.
  - exists targets, s'. split; [exact Hgen |].
    split; [| split; [exact Hin |]].
    + specialize (Hlen ltac:(lia) ltac:(vm_compute; discriminate)).
      unfold len in Hlen. lia.
    + apply (cold_start_must_repeat fuel [slash22; slash30] 1000 first_launch
               s targets s' slash30); try reflexivity; try exact Hgen.
      * vm_compute. repeat constructor.
      * vm_compute. discriminate.
      * vm_compute. discriminate.
Qed.

Lemma cold_start_repeats_addresses_witness :
  exists targets s',
    generate 1000 [slash22; slash30] [] 1000 first_launch (seed_of counting)
      = Return targets s'
    /\ ~ NoDup targets.
Proof.
  destruct (cold_start_repeats_addresses 1000 (seed_of counting))
    as (targets & s' & Hgen & _ & _ & Hdup); [lia |].
  exists targets, s'. split; assumption.
Defined.

Lemma has_repeat_not_NoDup (l : list string) : has_repeat l = true -> ~ NoDup l.
Proof.
  induction l as [| x l IH]; cbn; [discriminate |].
  intros [H | H]%orb_true_iff Hnd; apply NoDup_cons in Hnd as [Hx Hl].
  - apply existsb_exists in H as (y & Hy & Heq). apply String.eqb_eq in Heq.
    subst y. apply Hx, list_elem_of_In, Hy.
  - exact (IH H Hl).
Qed.

(** The same happens without a small group: over 10.0.0.0/22 alone, with
    the raw draws 0, 1, 2, ..., the 1000 addresses are not distinct. *)
Lemma cold_start_repeats_on_slash22 :
  exists targets s',
    generate 250 [slash22] [] 1000 first_launch (seed_of counting) = Return targets s'
    /\ length targets = 1000%nat
    /\ ~ NoDup targets.
Proof.
  eexists. eexists. split; [vm_compute; reflexivity |].
  split; [vm_compute; reflexivity |].
  apply has_repeat_not_NoDup. vm_compute. reflexivity.
Qed.

(** ** C5: the warm path *)

(** The quota of a rank follows the tiers; in the bottom half one draw of
    [random()] decides. *)
Lemma quota_tiers (rank total_subnets : nat) (s : Random.state) :
  let r := Z.of_nat rank in
  let t := Z.of_nat total_subnets in
  ((r * 20 < t)%Z -> quota rank total_subnets s = Return 5%Z s)
  /\ ((t <= r * 20)%Z -> (r * 5 < t)%Z -> quota rank total_subnets s = Return 3%Z s)
  /\ ((t <= r * 5)%Z -> (r * 2 < t)%Z -> quota rank total_subnets s = Return 1%Z s)
  /\ ((t <= r * 2)%Z ->
      exists x s', random s = Return x s'
                   /\ quota rank total_subnets s
                      = Return (if Qltb x 0.01 then 1 else 0)%Z s').
Proof.
  intros r t. unfold quota. fold r t.
  assert (H5 : Qltb (inject_Z r) (inject_Z t * 0.05) = true <-> (r * 20 < t)%Z).
  { rewrite Qltb_true. unfold Qlt. cbn. lia. }
  assert (H20 : Qltb (inject_Z r) (inject_Z t * 0.20) = true <-> (r * 5 < t)%Z).
  { rewrite Qltb_true. unfold Qlt. cbn. lia. }
  assert (H50 : Qltb (inject_Z r) (inject_Z t * 0.50) = true <-> (r * 2 < t)%Z).
  { rewrite Qltb_true. unfold Qlt. cbn. lia. }
  destruct (Qltb (inject_Z r) (inject_Z t * 0.05)) eqn:E5;
    destruct (Qltb (inject_Z r) (inject_Z t * 0.20)) eqn:E20;
    destruct (Qltb (inject_Z r) (inject_Z t * 0.50)) eqn:E50;
    (split; [intros; try reflexivity; lia |]);
    (split; [intros; try reflexivity; lia |]);
    (split; [intros; try reflexivity; lia |]);
    intros Hb; try lia.
  unfold bind, random, bind, next_raw, ret. cbv beta iota.
  eexists. eexists. split; [reflexivity |].
  destruct (Qltb _ 0.01); reflexivity.
Qed.

Lemma quota_le_5 rank total_subnets s q s' :
  quota rank total_subnets s = Return q s' -> (q <= 5)%Z.
Proof.
  unfold quota.
  repeat (destruct (Qltb _ _); [unfold ret; intros [= <- _]; lia |]).
  unfold bind, random, bind, next_raw, ret. cbv beta iota.
  destruct (Qltb _ _); intros [= <- _]; lia.
Qed.

Lemma draw_slot_count tries sn picked targets gc s a' s' :
  draw_slot tries sn (picked, targets, gc) s = Return a' s' ->
  exists picked' added,
    a' = (picked', targets ++ added, (gc + len added)%Z)
    /\ (length added <= 1)%nat.
Proof.
  revert s. induction tries as [| tries IH]; intros s; cbn [draw_slot].
  - unfold ret. intros [= <- _]. exists picked, []. rewrite app_nil_r.
    split; [f_equal; unfold len; cbn; lia | cbn; lia].
  - unfold bind. destruct (random_host sn s) as [rip s1 | |]; try discriminate.
    destruct (decide (rip ∈ picked)); [apply IH |].
    unfold ret. intros [= <- _]. exists ({[rip]} ∪ picked), [rip].
    split; [reflexivity | cbn; lia].
Qed.

Lemma draw_slots_count real_count sn picked targets gc s a' s' :
  draw_slots real_count sn (picked, targets, gc) s = Return a' s' ->
  exists picked' added,
    a' = (picked', targets ++ added, (gc + len added)%Z)
    /\ (length added <= real_count)%nat.
Proof.
  revert picked targets gc s.
  induction real_count as [| n IH]; intros picked targets gc s; cbn [draw_slots].
  - unfold ret. intros [= <- _]. exists picked, []. rewrite app_nil_r.
    split; [f_equal; unfold len; cbn; lia | cbn; lia].
  - unfold bind.
    destruct (draw_slot 5 sn (picked, targets, gc) s) as [a1 s1 | |] eqn:H1;
      try discriminate.
    apply draw_slot_count in H1 as (picked1 & added1 & -> & Hlen1).
    intros H2. apply IH in H2 as (picked2 & added2 & -> & Hlen2).
    exists picked2, (added1 ++ added2). rewrite app_assoc.
    split; [f_equal; unfold len; rewrite length_app; lia |].
    rewrite length_app. lia.
Qed.

(** The warm loop checks the target between groups only: what it returns
    may pass the target, by four addresses at most. *)
Lemma warm_loop_bound max_total_count total_subnets scored_subnets :
  forall rank targets generated_count s result s',
    warm_loop max_total_count total_subnets rank scored_subnets
              targets generated_count s = Return result s' ->
    len targets = generated_count ->
    (len result <= Z.max generated_count (max_total_count + 4))%Z.
Proof.
  induction scored_subnets as [| [score sn] rest IH];
    intros rank targets gc s result s'; cbn [warm_loop].
  - unfold ret. intros [= <- _] Hlen. lia.
  - destruct (max_total_count <=? gc)%Z eqn:Hmax.
    + unfold ret. intros [= <- _] Hlen. lia.
    + apply Z.leb_gt in Hmax. unfold bind at 1.
      destruct (quota rank total_subnets s) as [q s1 | |] eqn:Hq; try discriminate.
      apply quota_le_5 in Hq.
      destruct (0 <? q)%Z eqn:Hpos.
      * unfold bind.
        match goal with |- context [draw_slots ?n sn ?a s1] =>
          destruct (draw_slots n sn a s1) as [a1 s2 | |] eqn:Hd; try discriminate;
          assert (Hn : (n <= 5)%nat) by (destruct (2 <? num_addresses sn)%Z; lia)
        end.
        apply draw_slots_count in Hd as (picked' & added & -> & Hadd).
        intros Hrest Hlen. eapply IH in Hrest.
        -- unfold len in *. lia.
        -- unfold len in *. rewrite length_app. lia.
      * intros Hrest Hlen. eapply IH in Hrest; [| exact Hlen]. lia.
Qed.

Lemma warm_bound max_total_count all_subnets ucb s result s' :
  warm max_total_count all_subnets ucb s = Return result s' ->
  (len result <= Z.max 0 (max_total_count + 4))%Z.
Proof. intros H. apply warm_loop_bound in H; [exact H | reflexivity]. Qed.


(** C5 fails on the code: the quotas follow the tiers (see [quota_tiers]),
    but the target is only checked between groups.  In warm mode over
    10.0.0.0/24 with target 3 the single group is in the top tier, and five
    addresses come out: raw draws 0 to 4 pick the hosts .1 to .5, draws 5 to
    8 shuffle them. *)
Theorem warm_path_overshoots :
  is_cold_start warm_model = false
  /\ quota 0 1 (seed_of counting) = Return 5%Z (seed_of counting)
  /\ exists s',
       generate 0 [slash24] [] 3 warm_model (seed_of counting)
       = Return ["10.0.0.4"; "10.0.0.5"; "10.0.0.2"; "10.0.0.3"; "10.0.0.1"]%string s'.
Proof.
  split; [vm_compute; reflexivity |].
  split; [vm_compute; reflexivity |].
  eexists. vm_compute. reflexivity.
Qed.

(** * Further properties *)

Lemma update_keeps_counts_positive ip latency speed is_loss tcp_only
    (u : UCBManager.t) :
  (forall g r, subnets u !! g = Some r -> 0 < count r) ->
  forall g r,
    subnets (update ip latency speed is_loss tcp_only u) !! g = Some r ->
    0 < count r.
Proof.
  intros Hinv g r. destruct (subnet_of ip) as [net |] eqn:Hnet.
  - destruct (update_applied ip latency speed is_loss tcp_only u net Hnet)
      as (Hl & _ & Ho & _).
    destruct (decide (g = net)) as [-> | Hne].
    + rewrite Hl. intros [= <-]. cbn.
      pose proof (impact_weight_pos (record_of u net)
                    (current_reward latency speed is_loss tcp_only)) as Hw.
      assert (H0 : 0 <= count (record_of u net)).
      { unfold record_of. destruct (subnets u !! net) as [r0 |] eqn:Hr0; cbn.
        - apply Qlt_le_weak. eapply Hinv, Hr0.
        - lra. }
      lra.
    + rewrite (Ho g Hne). apply Hinv.
  - rewrite (update_ignored _ _ _ _ _ _ Hnet). apply Hinv.
Qed.

Lemma save_keeps_survivors_sound (u : UCBManager.t) :
  (forall g r, subnets u !! g = Some r -> 0 < count r /\ total_reward r <= count r) ->
  forall g r, subnets (save u) !! g = Some r ->
              0 < count r /\ total_reward r <= count r.
Proof.
  intros Hinv g r. rewrite save_lookup.
  destruct (subnets u !! g) as [r0 |] eqn:Hr0; [| discriminate].
  destruct (stale _) eqn:Hs; [discriminate |]. intros [= <-].
  apply survivor_positive in Hs. split; [exact Hs |].
  destruct (Hinv g r0 Hr0) as [Hpos Hle]. cbn in *.
  assert (0 < decay_rate u) by nra. nra.
Qed.

Lemma reachable_counts (rate : Q) (u : UCBManager.t) :
  reachable rate u ->
  forall g r, subnets u !! g = Some r -> 0 < count r /\ total_reward r <= count r.
Proof.
  induction 1 as [| u _ IH | u ip latency speed is_loss tcp_only _ IH | u _ IH].
  - intros g r H. cbn in H. rewrite lookup_empty in H. discriminate.
  - exact IH.
  - intros g r H. split.
    + eapply update_keeps_counts_positive; [| exact H]. intros; eapply IH; eauto.
    + eapply update_keeps_rewards_below_counts; [| exact H]. intros; eapply IH; eauto.
  - apply save_keeps_survivors_sound, IH.
Qed.

(** X1: in every model a run can hold, whatever the decay rate, each
    record has a positive count and a total reward no larger than its
    count: the average reward is defined and at most 1. *)
Theorem reachable_records_sound (rate : Q) (u : UCBManager.t) :
  reachable rate u ->
  forall g r, subnets u !! g = Some r ->
              0 < count r /\ total_reward r <= count r
              /\ total_reward r / count r <= 1.
Proof.
  intros Hreach g r H.
  destruct (reachable_counts rate u Hreach g r H) as [Hpos Hle].
  split; [exact Hpos |]. split; [exact Hle |].
  apply Qle_shift_div_r; lra.
Qed.

Lemma reachable_records_sound_witness :
  exists r,
    subnets (update "10.0.0.7" 20 0 false true first_launch) !! "10.0.0.0"%string
      = Some r
    /\ 0 < count r /\ total_reward r <= count r.
Proof.
  eexists. split; [vm_compute; reflexivity |].
  destruct (reachable_records_sound 0.85
              (update "10.0.0.7" 20 0 false true first_launch)) with
    (g := "10.0.0.0"%string)
    (r := {| count := 0 + 1; total_reward := 0 + 0.3 * (1 - 0 / 150) * 1 |})
    as (Hp & Hl & _).
  - apply reach_update, reach_launch, reach_init.
  - vm_compute. reflexivity.
  - split; [vm_compute; reflexivity | vm_compute; discriminate].
Defined.

(** X2: one recorded outcome takes a group off the sentinel.  After
    [update] on an address of group [net], in a model whose counts are not
    negative, the group holds at least 0.2 samples and [get_score] gives
    its upper-confidence bound. *)
Theorem probed_group_is_scored ip latency speed is_loss tcp_only
    (u : UCBManager.t) (net : string) :
  subnet_of ip = Some net ->
  (forall r, subnets u !! net = Some r -> 0 <= count r) ->
  let u' := update ip latency speed is_loss tcp_only u in
  exists r',
    subnets u' !! net = Some r'
    /\ 0.2 <= count r'
    /\ ~ unexplored u' net
    /\ get_score u' net = spec_ucb u' r'.
Proof.
  intros Hnet Hpos u'.
  destruct (update_applied ip latency speed is_loss tcp_only u net Hnet)
    as (Hl & _).
  fold u' in Hl. eexists. split; [exact Hl |].
  assert (Hc : 0.2 <= count (record_of u net)
                      + impact_weight (record_of u net)
                          (current_reward latency speed is_loss tcp_only)).
  { assert (H0 : 0 <= count (record_of u net)).
    { unfold record_of. destruct (subnets u !! net) as [r0 |] eqn:Hr0; cbn.
      - apply Hpos. reflexivity.
      - lra. }
    destruct (impact_weight_cases (record_of u net)
                (current_reward latency speed is_loss tcp_only))
      as [(-> & _) | (-> & _)]; lra. }
  split; [exact Hc |]. split.
  - unfold unexplored. rewrite Hl. cbn. lra.
  - apply get_score_explored; [exact Hl |]. cbn. lra.
Qed.

Lemma probed_group_is_scored_witness :
  exists r',
    subnets (update "10.0.0.7" 20 0 false true first_launch) !! "10.0.0.0"%string
      = Some r'
    /\ 0.2 <= count r'.
Proof.
  destruct (probed_group_is_scored "10.0.0.7" 20 0 false true first_launch "10.0.0.0")
    as (r' & Hl & Hc & _).
  - vm_compute. reflexivity.
  - intros r Hr. vm_compute in Hr. discriminate.
  - exists r'. split; assumption.
Defined.

(** X3: [update] and [save] leave the launch count alone; [update] keeps
    every known group and adds at most one, [save] adds none.  So [update]
    never turns a warm model cold and [save] never turns a cold one warm. *)
Theorem cold_start_transitions (u : UCBManager.t) :
  (forall ip latency speed is_loss tcp_only,
     let u' := update ip latency speed is_loss tcp_only u in
     launch_count u' = launch_count u
     /\ (size (subnets u) <= size (subnets u') <= S (size (subnets u)))%nat
     /\ (is_cold_start u' = true -> is_cold_start u = true))
  /\ launch_count (save u) = launch_count u
  /\ (size (subnets (save u)) <= size (subnets u))%nat
  /\ (is_cold_start u = true -> is_cold_start (save u) = true).
Proof.
  assert (Hsave : (size (subnets (save u)) <= size (subnets u))%nat).
  { unfold save. cbn [subnets].
    etransitivity; [apply map_subseteq_size, map_filter_subseteq |].
    rewrite map_size_fmap. reflexivity. }
  split; [| split; [reflexivity | split; [exact Hsave |]]].
  - intros ip latency speed is_loss tcp_only u'.
    assert (Hboth : launch_count u' = launch_count u
                    /\ (size (subnets u) <= size (subnets u') <= S (size (subnets u)))%nat).
    { subst u'. unfold update. destruct (subnet_of ip) as [net |]; [| split; [reflexivity | lia]].
      cbn [launch_count subnets]. split; [reflexivity |].
      rewrite map_size_insert. destruct (subnets u !! net); cbn; lia. }
    destruct Hboth as [Hl Hs]. split; [exact Hl |]. split; [exact Hs |].
    unfold is_cold_start. rewrite Hl.
    rewrite !orb_true_iff, !Nat.ltb_lt. intros [H | H]; [left; exact H | right; lia].
  - unfold is_cold_start. cbn [launch_count].
    rewrite !orb_true_iff, !Nat.ltb_lt. intros [H | H]; [left; exact H | right; lia].
Qed.

(** ** Rewards and counts over a run *)

Lemma _http_nonneg (o : http_obs) : 0 <= _http o.
Proof.
  destruct o as [| tot dur]; cbn; [lra |].
  destruct (Qgtb dur 0) eqn:Hd; [| lra].
  apply Qgtb_true in Hd.
  assert (Htot : 0 <= inject_Z (Z.of_N tot)).
  { change 0 with (inject_Z 0). rewrite <- Zle_Qle. lia. }
  apply Qle_shift_div_l; [exact Hd |]. qconst. lra.
Qed.

Lemma current_reward_nonneg latency speed is_loss tcp_only :
  0 <= speed -> 0 <= current_reward latency speed is_loss tcp_only.
Proof.
  intros Hs. unfold current_reward, py_min, py_max. destruct is_loss; [lra |].
  destruct tcp_only; qconst; qcases; lra.
Qed.

(** X4: every reward the scanner feeds to the model lies between 0 and 1:
    the throughput [_http] returns is never negative, so the lower clamp
    the reward formula leaves out is never missed. *)
Theorem scanner_rewards_in_unit_interval :
  (forall o, 0 <= _http o)
  /\ (forall latency is_loss,
        0 <= current_reward latency 0 is_loss true <= 1)
  /\ (forall latency o,
        0 <= current_reward latency (_http o) false false <= 1).
Proof.
  split; [exact _http_nonneg |]. split.
  - intros. split; [apply current_reward_nonneg; lra | apply current_reward_le_1].
  - intros. split; [apply current_reward_nonneg, _http_nonneg | apply current_reward_le_1].
Qed.

Lemma scanner_fed_reachable rate u : scanner_fed rate u -> reachable rate u.
Proof. induction 1; [constructor | constructor | constructor | constructor | constructor]; assumption. Qed.

Lemma update_keeps_rewards_nonneg ip latency speed is_loss tcp_only
    (u : UCBManager.t) :
  0 <= speed ->
  (forall g r, subnets u !! g = Some r -> 0 <= total_reward r) ->
  forall g r,
    subnets (update ip latency speed is_loss tcp_only u) !! g = Some r ->
    0 <= total_reward r.
Proof.
  intros Hs Hinv g r. destruct (subnet_of ip) as [net |] eqn:Hnet.
  - destruct (update_applied ip latency speed is_loss tcp_only u net Hnet)
      as (Hl & _ & Ho & _).
    destruct (decide (g = net)) as [-> | Hne].
    + rewrite Hl. intros [= <-]. cbn.
      pose proof (impact_weight_pos (record_of u net)
                    (current_reward latency speed is_loss tcp_only)) as Hw.
      pose proof (current_reward_nonneg latency speed is_loss tcp_only Hs) as Hr.
      assert (H0 : 0 <= total_reward (record_of u net)).
      { unfold record_of. destruct (subnets u !! net) as [r0 |] eqn:Hr0; cbn.
        - eapply Hinv, Hr0.
        - lra. }
      nra.
    + rewrite (Ho g Hne). apply Hinv.
  - rewrite (update_ignored _ _ _ _ _ _ Hnet). apply Hinv.
Qed.

Lemma save_rate_positive rate (u : UCBManager.t) g r :
  reachable rate u -> subnets (save u) !! g = Some r ->
  0 < decay_rate u
  /\ exists r0, subnets u !! g = Some r0 /\ r = decay (decay_rate u) r0.
Proof.
  intros Hreach. rewrite save_lookup.
  destruct (subnets u !! g) as [r0 |] eqn:Hr0; [| discriminate].
  destruct (stale _) eqn:Hs; [discriminate |]. intros [= <-].
  apply survivor_positive in Hs.
  destruct (reachable_counts rate u Hreach g r0 Hr0) as [Hpos _]. cbn in Hs.
  split; [nra |]. exists r0. auto.
Qed.

Lemma scanner_fed_rewards_nonneg rate u :
  scanner_fed rate u ->
  forall g r, subnets u !! g = Some r -> 0 <= total_reward r.
Proof.
  induction 1 as [| u _ IH | u ip latency is_loss _ IH | u ip latency o _ IH
                  | u Hfed IH]; intros g r H.
  - cbn in H. rewrite lookup_empty in H. discriminate.
  - eapply IH, H.
  - eapply update_keeps_rewards_nonneg; [| exact IH | exact H]. lra.
  - eapply update_keeps_rewards_nonneg; [| exact IH | exact H]. apply _http_nonneg.
  - apply scanner_fed_reachable in Hfed.
    destruct (save_rate_positive rate u g r Hfed H) as (Hrate & r0 & Hr0 & ->).
    apply IH in Hr0. cbn. nra.
Qed.

(** X5: over any sequence of launches, scans and saves that starts from a
    fresh model, every group's average reward lies between 0 and 1. *)
Theorem scanner_fed_average_in_unit_interval (rate : Q) (u : UCBManager.t) :
  scanner_fed rate u ->
  forall g r, subnets u !! g = Some r ->
              0 < count r /\ 0 <= total_reward r / count r <= 1.
Proof.
  intros Hfed g r H.
  pose proof (scanner_fed_rewards_nonneg rate u Hfed g r H) as H0.
  destruct (reachable_counts rate u (scanner_fed_reachable rate u Hfed) g r H)
    as [Hpos Hle].
  split; [exact Hpos |]. split.
  - apply Qle_shift_div_l; lra.
  - apply Qle_shift_div_r; lra.
Qed.

Lemma scanner_fed_average_in_unit_interval_witness :
  exists r,
    subnets (save (update "10.0.0.7" 20 (_http (HttpRead 10485760 2)) false false
                     first_launch)) !! "10.0.0.0"%string = Some r
    /\ 0 <= total_reward r / count r <= 1.
Proof.
  eexists. split; [vm_compute; reflexivity |].
  refine (proj2 (scanner_fed_average_in_unit_interval 0.85
                   (save (update "10.0.0.7" 20 (_http (HttpRead 10485760 2))
                            false false first_launch))
                   _ "10.0.0.0"%string _ _)).
  - apply fed_save, (fed_stage2 0.85 _ "10.0.0.7" 20 (HttpRead 10485760 2)),
      fed_launch, fed_init.
  - vm_compute. reflexivity.
Defined.

Lemma reachable_rate rate u : reachable rate u -> decay_rate u = rate.
Proof.
  induction 1 as [| u _ IH | u ip latency speed is_loss tcp_only _ IH | u _ IH];
    [reflexivity | exact IH | | exact IH].
  unfold update. destruct (subnet_of ip); exact IH.
Qed.

(** X6: with a decay rate that is not negative, in every model a run can
    hold no group has counted more samples than [total_runs]. *)
Theorem counts_below_total_runs (rate : Q) (u : UCBManager.t) :
  0 <= rate -> reachable rate u ->
  0 <= total_runs u
  /\ forall g r, subnets u !! g = Some r -> count r <= total_runs u.
Proof.
  intros Hrate.
  induction 1 as [| u _ IH | u ip latency speed is_loss tcp_only Hreach IH
                  | u Hreach IH].
  - split; [cbn; lra |]. intros g r H. cbn in H. rewrite lookup_empty in H.
    discriminate.
  - exact IH.
  - destruct IH as [Ht IH]. destruct (subnet_of ip) as [net |] eqn:Hnet.
    + destruct (update_applied ip latency speed is_loss tcp_only u net Hnet)
        as (Hl & Hruns & Ho & _).
      pose proof (impact_weight_pos (record_of u net)
                    (current_reward latency speed is_loss tcp_only)) as Hw.
      rewrite Hruns. split; [lra |]. intros g r.
      destruct (decide (g = net)) as [-> | Hne].
      * rewrite Hl. intros [= <-]. cbn.
        assert (H0 : count (record_of u net) <= total_runs u).
        { unfold record_of. destruct (subnets u !! net) as [r0 |] eqn:Hr0; cbn.
          - eapply IH, Hr0.
          - exact Ht. }
        lra.
      * rewrite (Ho g Hne). intros H. apply IH in H. lra.
    + rewrite (update_ignored _ _ _ _ _ _ Hnet). split; assumption.
  - destruct IH as [Ht IH]. rewrite <- (reachable_rate rate u Hreach) in Hrate.
    split; [cbn; nra |]. intros g r H.
    destruct (save_rate_positive rate u g r Hreach H) as (_ & r0 & Hr0 & ->).
    apply IH in Hr0. cbn. nra.
Qed.

Lemma counts_below_total_runs_witness :
  exists r,
    subnets (update "10.0.0.7" 20 0 false true first_launch) !! "10.0.0.0"%string
      = Some r
    /\ count r <= total_runs (update "10.0.0.7" 20 0 false true first_launch).
Proof.
  eexists. split; [vm_compute; reflexivity |].
  refine (proj2 (counts_below_total_runs 0.85
                   (update "10.0.0.7" 20 0 false true first_launch) _ _)
                "10.0.0.0"%string _ _).
  - vm_compute. discriminate.
  - apply reach_update, reach_launch, reach_init.
  - vm_compute. reflexivity.
Defined.


(** ** The exploration bonus *)

Lemma bonus_antitone (n c1 c2 : R) :
  (1 <= n)%R -> (0 < c1 <= c2)%R ->
  (0 <= sqrt (2 * ln n / c2) <= sqrt (2 * ln n / c1))%R.
Proof.
  intros Hn [Hpos Hle].
  assert (Hln : (0 <= ln n)%R).
  { rewrite <- ln_1. destruct Hn as [Hn | <-]; [| lra].
    apply Rlt_le, ln_increasing; lra. }
  split; [apply sqrt_pos |].
  apply sqrt_le_1_alt. unfold Rdiv.
  apply Rmult_le_compat_l; [lra |].
  apply Rinv_le_contravar; assumption.
Qed.

(** X7: the score of an explored group is its average reward plus a bonus
    that is never negative, and of two explored groups with the same
    average the one with fewer samples scores at least as high. *)
Theorem fewer_samples_score_higher (u : UCBManager.t) (g1 g2 : string)
    (r1 r2 : record) :
  subnets u !! g1 = Some r1 -> subnets u !! g2 = Some r2 ->
  0.1 <= count r1 -> count r1 <= count r2 ->
  total_reward r1 / count r1 == total_reward r2 / count r2 ->
  (Q2R (total_reward r2 / count r2) <= get_score u g2 <= get_score u g1)%R.
Proof.
  intros H1 H2 Hc1 Hle Havg.
  rewrite (get_score_explored u g1 r1 H1 Hc1).
  rewrite (get_score_explored u g2 r2 H2) by lra.
  unfold spec_ucb. rewrite (Qeq_eqR _ _ Havg).
  assert (Hc1R : (0 < Q2R (count r1))%R).
  { replace 0%R with (Q2R 0) by apply RMicromega.Q2R_0. apply Qlt_Rlt. lra. }
  assert (HleR : (Q2R (count r1) <= Q2R (count r2))%R) by (apply Qle_Rle, Hle).
  pose proof (bonus_antitone (Rmax (Q2R (total_runs u)) 1) _ _
                (Rmax_r _ 1) (conj Hc1R HleR)) as [Hpos Hmono].
  lra.
Qed.

Lemma fewer_samples_score_higher_witness :
  let u := update "10.0.1.9" 20 0 false true
             (update "10.0.1.8" 20 0 false true
                (update "10.0.0.7" 20 0 false true first_launch)) in
  (get_score u "10.0.1.0" <= get_score u "10.0.0.0")%R.
Proof.
  cbv zeta.
  refine (proj2 (fewer_samples_score_higher _ "10.0.0.0" "10.0.1.0"
                   {| count := 0 + 1; total_reward := 0 + 0.3 * (1 - 0 / 150) * 1 |}
                   {| count := 0 + 1 + 1;
                      total_reward := 0 + 0.3 * (1 - 0 / 150) * 1
                                      + 0.3 * (1 - 0 / 150) * 1 |}
                   _ _ _ _ _)).
  - vm_compute. reflexivity.
  - vm_compute. reflexivity.
  - vm_compute. discriminate.
  - vm_compute. discriminate.
  - vm_compute. reflexivity.
Defined.

(** ** Address texts *)

Lemma octet_texts_ok : forallb octet_text_ok (seq 0 256) = true.
Proof. vm_compute. reflexivity. Qed.

Lemma pretty_octet (k : N) :
  (k < 256)%N ->
  Ip.parse_octet (pretty k) = Some k
  /\ Ip.contains "." (pretty k) = false
  /\ Ip.contains "/" (pretty k) = false
  /\ Ip.contains ":" (pretty k) = false.
Proof.
  intros Hk. pose proof octet_texts_ok as H.
  rewrite forallb_forall in H. specialize (H (N.to_nat k)).
  assert (Hin : In (N.to_nat k) (seq 0 256)) by (apply in_seq; lia).
  apply H in Hin. unfold octet_text_ok in Hin. rewrite N2Nat.id in Hin.
  rewrite !andb_true_iff, !negb_true_iff in Hin.
  destruct Hin as [[[Hp H1] H2] H3].
  destruct (Ip.parse_octet (pretty k)) as [v |]; [| discriminate].
  apply N.eqb_eq in Hp. subst v. auto.
Qed.

Lemma contains_app (c : ascii) (a b : string) :
  Ip.contains c (a +:+ b) = Ip.contains c a || Ip.contains c b.
Proof.
  induction a as [| d a IH]; [reflexivity |].
  change (String d a +:+ b) with (String d (a +:+ b)).
  cbn [Ip.contains]. rewrite IH. apply orb_assoc.
Qed.

Lemma split_without (sep : ascii) (a : string) :
  Ip.contains sep a = false -> Ip.split sep a = [a].
Proof.
  induction a as [| d a IH]; [reflexivity |].
  cbn [Ip.contains Ip.split].
  intros H. apply orb_false_iff in H as [Hd Ha].
  rewrite Ascii.eqb_sym, Hd. rewrite (IH Ha). reflexivity.
Qed.

Lemma split_at (sep : ascii) (a b : string) :
  Ip.contains sep a = false ->
  Ip.split sep (a +:+ String sep b) = a :: Ip.split sep b.
Proof.
  induction a as [| d a IH].
  - intros _. change (EmptyString +:+ String sep b) with (String sep b).
    cbn [Ip.split]. rewrite Ascii.eqb_refl. reflexivity.
  - intros H. cbn [Ip.contains] in H. apply orb_false_iff in H as [Hd Ha].
    change (String d a +:+ String sep b) with (String d (a +:+ String sep b)).
    cbn [Ip.split]. rewrite Ascii.eqb_sym, Hd. rewrite (IH Ha). reflexivity.
Qed.

Lemma octets_of (n : N) :
  (n < 2 ^ 32)%N ->
  (n / 16777216 mod 256 < 256 /\ n / 65536 mod 256 < 256
   /\ n / 256 mod 256 < 256 /\ n mod 256 < 256
   /\ ((n / 16777216 mod 256 * 256 + n / 65536 mod 256) * 256
       + n / 256 mod 256) * 256 + n mod 256 = n)%N.
Proof.
  intros Hn. change (2 ^ 32)%N with 4294967296%N in Hn.
  zify. Z.to_euclidean_division_equations. lia.
Qed.

Lemma str_v4_no (c : ascii) (n : N) :
  (n < 2 ^ 32)%N -> c = "/"%char \/ c = ":"%char ->
  Ip.contains c (Ip.str_v4 n) = false.
Proof.
  intros Hn Hc. destruct (octets_of n Hn) as (H1 & H2 & H3 & H4 & _).
  apply pretty_octet in H1 as (_ & _ & H1s & H1c).
  apply pretty_octet in H2 as (_ & _ & H2s & H2c).
  apply pretty_octet in H3 as (_ & _ & H3s & H3c).
  apply pretty_octet in H4 as (_ & _ & H4s & H4c).
  unfold Ip.str_v4. rewrite !contains_app.
  destruct Hc as [-> | ->].
  - rewrite H1s, H2s, H3s, H4s. reflexivity.
  - rewrite H1c, H2c, H3c, H4c. reflexivity.
Qed.

(** X8: the dotted text of a 32-bit address reads back as the address:
    [IPv4Address(str(IPv4Address(n)))] is [n]. *)
Theorem parse_v4_str_v4 (n : N) :
  (n < 2 ^ 32)%N -> Ip.parse_v4 (Ip.str_v4 n) = Some n.
Proof.
  intros Hn. destruct (octets_of n Hn) as (H1 & H2 & H3 & H4 & Hsum).
  apply pretty_octet in H1 as (P1 & D1 & _).
  apply pretty_octet in H2 as (P2 & D2 & _).
  apply pretty_octet in H3 as (P3 & D3 & _).
  apply pretty_octet in H4 as (P4 & D4 & _).
  unfold Ip.parse_v4, Ip.str_v4.
  repeat match goal with
         | |- context [String.app "." ?x] =>
             change (String.app "." x) with (String "." x)
         end.
  rewrite (split_at "." _ _ D1).
  rewrite (split_at "." _ _ D2).
  rewrite (split_at "." _ _ D3).
  rewrite (split_without "." _ D4).
  rewrite P1, P2, P3, P4. f_equal. exact Hsum.
Qed.

Lemma parse_v4_str_v4_witness : Ip.parse_v4 (Ip.str_v4 3232235777) = Some 3232235777%N.
Proof. apply parse_v4_str_v4. reflexivity. Defined.

Lemma str_v4_inj (m n : N) :
  (m < 2 ^ 32)%N -> (n < 2 ^ 32)%N -> Ip.str_v4 m = Ip.str_v4 n -> m = n.
Proof.
  intros Hm Hn Heq. apply parse_v4_str_v4 in Hm, Hn.
  rewrite Heq, Hn in Hm. congruence.
Qed.

Lemma subnet_of_str_v4 (n : N) :
  (n < 2 ^ 32)%N -> subnet_of (Ip.str_v4 n) = Some (Ip.str_v4 (n / 256 * 256)).
Proof.
  intros Hn. unfold subnet_of, Ip.network24.
  rewrite !str_v4_no by auto. rewrite parse_v4_str_v4 by exact Hn. reflexivity.
Qed.

Lemma parse_octet_bound (s : string) (v : N) :
  Ip.parse_octet s = Some v -> (v < 256)%N.
Proof.
  unfold Ip.parse_octet. destruct s as [| c rest]; [discriminate |].
  destruct (negb _); [discriminate |].
  destruct (_ <? _)%nat; [discriminate |].
  destruct (_ && _); [discriminate |].
  destruct (255 <? _)%N eqn:Hv; [discriminate |].
  intros [= <-]. apply N.ltb_ge in Hv.
  change 256%N with (N.succ 255). apply N.lt_succ_r. exact Hv.
Qed.

Lemma parse_v4_bound (s : string) (n : N) :
  Ip.parse_v4 s = Some n -> (n < 2 ^ 32)%N.
Proof.
  unfold Ip.parse_v4.
  destruct (Ip.split "." s) as [| a [| b [| c [| d [| ? ?]]]]]; try discriminate.
  destruct (Ip.parse_octet a) as [va |] eqn:Ha; [| discriminate].
  destruct (Ip.parse_octet b) as [vb |] eqn:Hb; [| discriminate].
  destruct (Ip.parse_octet c) as [vc |] eqn:Hc; [| discriminate].
  destruct (Ip.parse_octet d) as [vd |] eqn:Hd; [| discriminate].
  apply parse_octet_bound in Ha, Hb, Hc, Hd.
  intros [= <-]. change (2 ^ 32)%N with 4294967296%N. lia.
Qed.

(** The keys [update] writes are /24 boundaries. *)
Lemma subnet_of_boundary (ip net : string) :
  subnet_of ip = Some net -> exists b, on_boundary b /\ net = Ip.str_v4 b.
Proof.
  unfold subnet_of, Ip.network24.
  destruct (Ip.contains ":" ip); [discriminate |].
  destruct (Ip.contains "/" ip); [discriminate |].
  destruct (Ip.parse_v4 ip) as [n |] eqn:Hp; [| discriminate].
  intros [= <-]. apply parse_v4_bound in Hp.
  exists (n / 256 * 256)%N. split; [| reflexivity].
  unfold on_boundary. change (2 ^ 32)%N with 4294967296%N in *.
  split; zify; Z.to_euclidean_division_equations; lia.
Qed.

Lemma reachable_keys (rate : Q) (u : UCBManager.t) :
  reachable rate u ->
  forall g r, subnets u !! g = Some r -> exists b, on_boundary b /\ g = Ip.str_v4 b.
Proof.
  induction 1 as [| u _ IH | u ip latency speed is_loss tcp_only _ IH | u _ IH];
    intros g r H.
  - cbn in H. rewrite lookup_empty in H. discriminate.
  - eapply IH, H.
  - unfold update in H. destruct (subnet_of ip) as [net |] eqn:Hnet; [| eapply IH, H].
    cbn [subnets] in H. destruct (decide (g = net)) as [-> | Hne].
    + eapply subnet_of_boundary, Hnet.
    + rewrite lookup_insert_ne in H by congruence. eapply IH, H.
  - rewrite save_lookup in H.
    destruct (subnets u !! g) as [r0 |] eqn:Hr0; [| discriminate].
    eapply IH, Hr0.
Qed.

(** X9: a host address of a group that starts on a /24 boundary (every
    group split off a wider range, and every /24 range) is recorded under
    the text of the group's first address, the key by which [generate]
    asks for the group's score: [update] on it writes that record. *)
Theorem host_recorded_under_group_key (sn : IPv4Network) (a : string) :
  on_boundary (network_address sn) -> (24 <= prefixlen sn <= 32)%N ->
  host_of sn a ->
  let key := Ip.str_v4 (network_address sn) in
  subnet_of a = Some key
  /\ forall latency speed is_loss tcp_only (u : UCBManager.t),
       let w := impact_weight (record_of u key)
                  (current_reward latency speed is_loss tcp_only) in
       exists r',
         subnets (update a latency speed is_loss tcp_only u) !! key = Some r'
         /\ count r' = count (record_of u key) + w.
Proof.
  intros [Hlt Hmod] Hp (k & Hk & ->) key.
  assert (Hnum : (num_addresses sn <= 256)%Z).
  { unfold num_addresses. change 256%Z with (2 ^ 8)%Z.
    apply Z.pow_le_mono_r; lia. }
  assert (Hkey : subnet_of (Ip.str_v4 (network_address sn + Z.to_N k)) = Some key).
  { change (2 ^ 32)%N with 4294967296%N in Hlt.
    rewrite subnet_of_str_v4.
    - unfold key. do 2 f_equal. zify. Z.to_euclidean_division_equations. lia.
    - change (2 ^ 32)%N with 4294967296%N.
      zify. Z.to_euclidean_division_equations. lia. }
  split; [exact Hkey |].
  intros latency speed is_loss tcp_only u w.
  destruct (update_applied _ latency speed is_loss tcp_only u key Hkey) as (Hl & _).
  eexists. split; [exact Hl | reflexivity].
Qed.

Lemma host_recorded_under_group_key_witness :
  subnet_of "10.0.0.7" = Some "10.0.0.0"%string.
Proof.
  refine (proj1 (host_recorded_under_group_key slash24 "10.0.0.7" _ _ _)).
  - split; reflexivity.
  - cbn. lia.
  - exists 7%Z. split; [vm_compute; split; discriminate | reflexivity].
Defined.

(** X10: a group whose first address is not on a /24 boundary (a range
    narrower than /24 that starts inside one, such as 10.0.0.128/25) never
    gets a record under its own key: in every model a run can hold its
    score is the sentinel 9999. *)
Theorem off_boundary_group_stays_unexplored (rate : Q) (u : UCBManager.t)
    (sn : IPv4Network) :
  reachable rate u ->
  (network_address sn < 2 ^ 32)%N -> (network_address sn mod 256 <> 0)%N ->
  subnets u !! Ip.str_v4 (network_address sn) = None
  /\ get_score u (Ip.str_v4 (network_address sn)) = 9999%R.
Proof.
  intros Hreach Hlt Hmod.
  assert (Hnone : subnets u !! Ip.str_v4 (network_address sn) = None).
  { destruct (subnets u !! Ip.str_v4 (network_address sn)) as [r |] eqn:Hr;
      [| reflexivity].
    exfalso. destruct (reachable_keys rate u Hreach _ r Hr) as (b & [Hb Hb0] & Heq).
    apply str_v4_inj in Heq; [| exact Hlt | exact Hb]. congruence. }
  split; [exact Hnone |].
  apply get_score_unexplored. unfold unexplored. rewrite Hnone. exact I.
Qed.

Lemma off_boundary_group_stays_unexplored_witness :
  get_score (update "10.0.0.129" 20 0 false true first_launch) "10.0.0.128" = 9999%R.
Proof.
  refine (proj2 (off_boundary_group_stays_unexplored 0.85
                   (update "10.0.0.129" 20 0 false true first_launch)
                   {| network_address := 167772288; prefixlen := 25 |} _ _ _)).
  - apply reach_update, reach_launch, reach_init.
  - reflexivity.
  - vm_compute. discriminate.
Defined.

(** ** More on the generator *)

Lemma random_host_inv (sn : IPv4Network) (s : Random.state) a s' :
  random_host sn s = Return a s' -> usable sn /\ host_of sn a.
Proof.
  intros H. destruct (Z.lt_ge_cases 2 (num_addresses sn)) as [Hu | Hu].
  - split; [exact Hu |].
    destruct (random_host_returns sn s Hu) as (a0 & s0 & Heq & Hhost).
    rewrite Heq in H. injection H as <- _. exact Hhost.
  - exfalso. unfold random_host, randint, bind in H.
    replace (num_addresses sn - 2 <? 1)%Z with true in H
      by (symmetry; apply Z.ltb_lt; lia).
    discriminate.
Qed.

Lemma random_host_raises (sn : IPv4Network) (s : Random.state) :
  (num_addresses sn <= 2)%Z -> random_host sn s = Raise ValueError.
Proof.
  intros Hu. unfold random_host, randint, bind.
  replace (num_addresses sn - 2 <? 1)%Z with true
    by (symmetry; apply Z.ltb_lt; lia).
  reflexivity.
Qed.

Lemma insert_by_score_perm x l : insert_by_score x l ≡ₚ x :: l.
Proof.
  induction l as [| y l IH]; cbn; [reflexivity |].
  destruct (Rle_dec _ _); [reflexivity |].
  rewrite IH. apply perm_swap.
Qed.

Lemma sort_by_score_perm l : sort_by_score l ≡ₚ l.
Proof.
  induction l as [| x l IH]; cbn; [reflexivity |].
  rewrite insert_by_score_perm. f_equiv. exact IH.
Qed.

(** The groups [warm] ranks are the groups it was given, in some order. *)
Lemma warm_ranks_perm (all_subnets : list IPv4Network) (ucb : UCBManager.t) :
  snd <$> sort_by_score
            (map (fun sn => (get_score ucb (Ip.str_v4 (network_address sn)), sn))
                 all_subnets)
  ≡ₚ all_subnets.
Proof.
  rewrite sort_by_score_perm.
  induction all_subnets as [| sn l IH]; cbn; [reflexivity |].
  f_equiv. exact IH.
Qed.

Lemma ipv6_loop_length limit cidrs_v6 targets s result s' :
  ipv6_loop limit cidrs_v6 targets s = Return result s' ->
  length result = (length targets + limit)%nat.
Proof.
  revert targets s. induction limit as [| n IH]; intros targets s; cbn [ipv6_loop].
  - unfold ret. intros [= <- _]. lia.
  - unfold bind.
    destruct (choice cidrs_v6 s) as [cidr s1 | |]; try discriminate.
    destruct (randint 1 (2 ^ 16) s1) as [k s2 | |]; try discriminate.
    destruct (str_v6 _ s2) as [a s3 | |]; try discriminate.
    intros H. apply IH in H. rewrite length_app in H. cbn in H. lia.
Qed.

(** [generate] is the IPv4 part, then the IPv6 step, then a shuffle. *)
Lemma generate_returns_inv fuel cidrs_v4 cidrs_v6 max_total_count ucb s targets s' :
  generate fuel cidrs_v4 cidrs_v6 max_total_count ucb s = Return targets s' ->
  exists v4 s1 all s2,
    (if is_cold_start ucb
     then cold fuel max_total_count (expand cidrs_v4)
     else warm max_total_count (expand cidrs_v4) ucb) s = Return v4 s1
    /\ match cidrs_v6 with
       | [] => all = v4 /\ s2 = s1
       | _ => ipv6_loop (Z.to_nat (Z.quot max_total_count 10)) cidrs_v6 v4 s1
              = Return all s2
       end
    /\ targets ≡ₚ all.
Proof.
  unfold generate. cbv zeta.
  set (c4 := if is_cold_start ucb then _ else _).
  unfold bind at 1.
  destruct (c4 s) as [v4 s1 | |] eqn:H4; try discriminate.
  unfold bind at 1.
  destruct cidrs_v6 as [| c6 rest6].
  - unfold ret at 1. intros Hsh.
    destruct (shuffle_perm v4 s1) as (t & s3 & Heq & Hperm).
    rewrite Heq in Hsh. injection Hsh as <- <-.
    exists v4, s1, v4, s1. repeat split; auto.
  - destruct (ipv6_loop _ (c6 :: rest6) v4 s1) as [all s2 | |] eqn:H6;
      try discriminate.
    intros Hsh.
    destruct (shuffle_perm all s2) as (t & s3 & Heq & Hperm).
    rewrite Heq in Hsh. injection Hsh as <- <-.
    exists v4, s1, all, s2. repeat split; auto.
Qed.

(** X11: in warm mode [generate] returns at most four addresses more than
    the target for IPv4, plus the tenth of the target it adds for IPv6. *)
Theorem warm_generate_bound fuel cidrs_v4 cidrs_v6 max_total_count ucb s targets s' :
  is_cold_start ucb = false ->
  generate fuel cidrs_v4 cidrs_v6 max_total_count ucb s = Return targets s' ->
  (len targets <= Z.max 0 (max_total_count + 4)
                  + Z.max 0 (Z.quot max_total_count 10))%Z.
Proof.
  intros Hwarm Hgen.
  apply generate_returns_inv in Hgen as (v4 & s1 & all & s2 & H4 & H6 & Hperm).
  rewrite Hwarm in H4. apply warm_bound in H4.
  unfold len in *. rewrite Hperm.
  destruct cidrs_v6.
  - destruct H6 as [-> _]. lia.
  - apply ipv6_loop_length in H6. rewrite H6. lia.
Qed.

Lemma warm_generate_bound_witness :
  is_cold_start warm_model = false
  /\ (len ["10.0.0.4"; "10.0.0.5"; "10.0.0.2"; "10.0.0.3"; "10.0.0.1"]%string
      <= Z.max 0 (3 + 4) + Z.max 0 (Z.quot 3 10))%Z.
Proof.
  split; [reflexivity |].
  refine (warm_generate_bound 0 [slash24] [] 3 warm_model (seed_of counting)
            _ (Build_state counting 9) _ _).
  - reflexivity.
  - vm_compute. reflexivity.
Defined.


Lemma draw_slot_inv tries sn picked targets gc s a' s' :
  draw_slot tries sn (picked, targets, gc) s = Return a' s' ->
  a'.1.1 = picked /\ a'.1.2 = targets
  \/ exists rip, host_of sn rip /\ (rip ∉ picked)
                 /\ a'.1.1 = {[rip]} ∪ picked /\ a'.1.2 = targets ++ [rip].
Proof.
  revert s. induction tries as [| n IH]; intros s; cbn [draw_slot].
  - unfold ret. intros [= <- _]. left. split; reflexivity.
  - unfold bind. destruct (random_host sn s) as [rip s1 | |] eqn:Hr; try discriminate.
    apply random_host_inv in Hr as [_ Hhost].
    destruct (decide (rip ∈ picked)) as [Hin | Hout].
    + apply IH.
    + unfold ret. intros [= <- _]. right. exists rip. cbn. auto.
Qed.

(** What one group adds: host addresses of the group, each once. *)
Lemma draw_slots_inv real_count sn :
  forall picked targets gc new s a' s',
    NoDup new -> Forall (host_of sn) new -> (forall a, a ∈ new -> a ∈ picked) ->
    draw_slots real_count sn (picked, targets ++ new, gc) s = Return a' s' ->
    exists new', a'.1.2 = targets ++ new' /\ NoDup new' /\ Forall (host_of sn) new'.
Proof.
  induction real_count as [| n IH]; intros picked targets gc new s a' s' Hnd Hall Hsub;
    cbn [draw_slots].
  - unfold ret. intros [= <- _]. exists new. cbn. auto.
  - unfold bind.
    destruct (draw_slot 5 sn (picked, targets ++ new, gc) s)
      as [[[picked1 targets1] gc1] s1 | |] eqn:Hslot; try discriminate.
    apply draw_slot_inv in Hslot as [[Hp Ht] | (rip & Hhost & Hout & Hp & Ht)];
      cbn in Hp, Ht; subst picked1 targets1.
    + apply IH; assumption.
    + rewrite <- app_assoc. apply IH.
      * apply NoDup_app. split; [exact Hnd |]. split; [| apply NoDup_singleton].
        intros a Ha Ha'. apply list_elem_of_singleton in Ha'. subst a. auto.
      * apply Forall_app. split; [exact Hall |]. constructor; [exact Hhost | constructor].
      * intros a Ha. apply elem_of_app in Ha as [Ha | Ha].
        -- apply elem_of_union_r. auto.
        -- apply list_elem_of_singleton in Ha. subst a.
           apply elem_of_union_l, elem_of_singleton. reflexivity.
Qed.

Lemma hits_none g l : Forall (fun a => a ∉ hosts g) l -> hits g l = 0%nat.
Proof. intros H. unfold hits. rewrite filter_none by exact H. reflexivity. Qed.

Lemma hits_le_length g l : (hits g l <= length l)%nat.
Proof. unfold hits. apply length_filter. Qed.

(** What the warm loop adds: host addresses of the groups; when the groups
    share no host address, each address once and at most five per
    group. *)
Lemma warm_loop_inv max_total_count total_subnets scored_subnets :
  forall rank targets gc s result s',
    warm_loop max_total_count total_subnets rank scored_subnets targets gc s
      = Return result s' ->
    exists added,
      result = targets ++ added
      /\ Forall (fun a => exists sn, sn ∈ (snd <$> scored_subnets) /\ host_of sn a) added
      /\ (groups_apart (snd <$> scored_subnets) ->
          NoDup added
          /\ forall g, g ∈ (snd <$> scored_subnets) -> (hits g added <= 5)%nat).
Proof.
  induction scored_subnets as [| [score sn] rest IH];
    intros rank targets gc s result s'; cbn [warm_loop].
  - unfold ret. intros [= <- _]. exists []. rewrite app_nil_r.
    split; [reflexivity |]. split; [constructor |].
    intros _. split; [constructor |]. intros g Hg. inversion Hg.
  - destruct (max_total_count <=? gc)%Z.
    { unfold ret. intros [= <- _]. exists []. rewrite app_nil_r.
      split; [reflexivity |]. split; [constructor |].
      intros _. split; [constructor |]. intros g Hg. cbn. lia. }
    unfold bind at 1.
    destruct (quota rank total_subnets s) as [count s1 | |] eqn:Hq; try discriminate.
    apply quota_le_5 in Hq.
    assert (Hlift : forall t g s2 new,
              NoDup new -> Forall (host_of sn) new -> (length new <= 5)%nat ->
              warm_loop max_total_count total_subnets (S rank) rest (t ++ new) g s2
                = Return result s' ->
              exists added,
                result = t ++ added
                /\ Forall (fun a => exists sn0, sn0 ∈ (snd <$> (score, sn) :: rest)
                                                /\ host_of sn0 a) added
                /\ (groups_apart (snd <$> (score, sn) :: rest) ->
                    NoDup added
                    /\ forall g0, g0 ∈ (snd <$> (score, sn) :: rest) ->
                                  (hits g0 added <= 5)%nat)).
    { intros t g s2 new Hnd Hall Hfive Hrest.
      apply IH in Hrest as (added & -> & Hin & Hapart).
      exists (new ++ added). rewrite app_assoc. split; [reflexivity |].
      split.
      - apply Forall_app. split.
        + eapply Forall_impl; [exact Hall |]. intros a Ha. exists sn.
          split; [left | exact Ha].
        + eapply Forall_impl; [exact Hin |]. intros a (sn0 & Hsn0 & Ha).
          exists sn0. split; [right; exact Hsn0 | exact Ha].
      - unfold groups_apart. cbn [fmap list_fmap snd mjoin list_join].
        intros Hap. apply NoDup_app in Hap as (_ & Hdis & Hrestap).
        destruct (Hapart Hrestap) as [Hnd' Hhits].
        rewrite Forall_forall in Hall, Hin.
        assert (Hrest_in : forall a, a ∈ added -> a ∈ mjoin (hosts <$> rest.*2)).
        { intros a Ha. destruct (Hin a Ha) as (sn0 & Hsn0 & Hhost).
          apply list_elem_of_join. exists (hosts sn0).
          split; [apply host_of_hosts, Hhost |].
          apply list_elem_of_fmap. exists sn0. auto. }
        split.
        + apply NoDup_app. split; [exact Hnd |]. split; [| exact Hnd'].
          intros a Ha Ha'. apply (Hdis a); [apply host_of_hosts, Hall, Ha |].
          apply Hrest_in, Ha'.
        + intros g0 Hg0. rewrite hits_app.
          destruct (decide (Exists (fun a => a ∈ hosts g0) new)) as [Hex | Hno].
          * (* the group has a host address among the new ones: it has none
               among the later ones *)
            rewrite (hits_none g0 added).
            -- pose proof (hits_le_length g0 new). lia.
            -- apply Forall_forall. intros a Ha Hg.
               apply Exists_exists in Hex as (b & Hb & Hbg).
               apply elem_of_cons in Hg0 as [-> | Hg0].
               ++ apply (Hdis a Hg). apply Hrest_in, Ha.
               ++ apply (Hdis b); [apply host_of_hosts, Hall, Hb |].
                  apply list_elem_of_join. exists (hosts g0).
                  split; [exact Hbg |]. apply list_elem_of_fmap. exists g0. auto.
          * rewrite (hits_none g0 new).
            -- apply elem_of_cons in Hg0 as [-> | Hg0]; [| apply Hhits, Hg0].
               rewrite hits_none; [lia |].
               apply Forall_forall. intros a Ha Hg.
               apply (Hdis a Hg). apply Hrest_in, Ha.
            -- apply Forall_forall. intros a Ha Hg. apply Hno.
               apply Exists_exists. exists a. auto. }
    destruct (0 <? count)%Z.
    + unfold bind at 1.
      destruct (draw_slots _ sn (∅, targets, gc) s1)
        as [[[picked1 targets1] gc1] s2 | |] eqn:Hslots; try discriminate.
      pose proof Hslots as Hcount.
      apply draw_slots_count in Hcount as (picked' & added1 & Heq & Hlen).
      injection Heq as _ -> _.
      rewrite <- (app_nil_r targets) in Hslots.
      apply draw_slots_inv in Hslots as (new & Ht & Hnd & Hall);
        [| constructor | constructor | intros a Ha; inversion Ha].
      cbn in Ht. rewrite app_nil_r in Ht. apply app_inv_head in Ht. subst added1.
      apply Hlift; try assumption.
      etransitivity; [exact Hlen |].
      destruct (2 <? num_addresses sn)%Z; lia.
    + rewrite <- (app_nil_r targets) at 1. apply Hlift; [constructor | constructor | cbn; lia].
Qed.

Lemma groups_apart_perm l1 l2 : l1 ≡ₚ l2 -> groups_apart l1 -> groups_apart l2.
Proof. unfold groups_apart. intros ->. auto. Qed.

(** X12: in warm mode, without IPv6 ranges, every address [generate] returns
    is a host address of one of the supplied ranges; when the groups the
    ranges expand to share no host address, no address comes twice. *)
Theorem warm_targets_sound fuel cidrs_v4 max_total_count ucb s targets s' :
  is_cold_start ucb = false ->
  Forall well_formed cidrs_v4 ->
  generate fuel cidrs_v4 [] max_total_count ucb s = Return targets s' ->
  Forall (fun a => exists net n,
            net ∈ cidrs_v4 /\ a = Ip.str_v4 n /\ Net.contains net n = true)
         targets
  /\ (groups_apart (expand cidrs_v4) -> NoDup targets).
Proof.
  intros Hwarm Hwf Hgen.
  apply generate_returns_inv in Hgen as (v4 & s1 & all & s2 & H4 & [-> ->] & Hperm).
  rewrite Hwarm in H4. unfold warm in H4.
  apply warm_loop_inv in H4 as (added & -> & Hin & Hapart).
  cbn [app] in Hperm. rewrite Hperm. split.
  - eapply Forall_impl; [exact Hin |]. intros a (sn & Hsn & Hhost).
    rewrite warm_ranks_perm in Hsn. eapply host_in_range; eassumption.
  - intros Hap. apply Hapart.
    eapply groups_apart_perm; [| exact Hap]. symmetry. apply warm_ranks_perm.
Qed.

Lemma warm_targets_sound_witness :
  exists targets,
    (exists s', generate 0 [slash30] [] 3 warm_model (seed_of counting)
                = Return targets s')
    /\ NoDup targets.
Proof.
  eexists. split; [eexists; vm_compute; reflexivity |].
  refine (proj2 (warm_targets_sound 0 [slash30] 3 warm_model (seed_of counting)
                   _ _ _ _ _) _).
  - reflexivity.
  - repeat constructor. unfold well_formed. cbn. lia.
  - vm_compute. reflexivity.
  - unfold groups_apart. refine (bool_decide_unpack _ _). vm_compute. reflexivity.
Defined.

(** X13: in warm mode, when the groups share no host address, no group
    gets more than five addresses, whatever its rank and the draws. *)
Theorem warm_budget_per_group fuel cidrs_v4 max_total_count ucb s targets s' :
  is_cold_start ucb = false ->
  groups_apart (expand cidrs_v4) ->
  generate fuel cidrs_v4 [] max_total_count ucb s = Return targets s' ->
  forall g, g ∈ expand cidrs_v4 -> (hits g targets <= 5)%nat.
Proof.
  intros Hwarm Hap Hgen g Hg.
  apply generate_returns_inv in Hgen as (v4 & s1 & all & s2 & H4 & [-> ->] & Hperm).
  rewrite Hwarm in H4. unfold warm in H4.
  apply warm_loop_inv in H4 as (added & -> & _ & Hapart).
  cbn [app] in Hperm. unfold hits. rewrite Hperm.
  destruct Hapart as [_ Hhits].
  - eapply groups_apart_perm; [| exact Hap]. symmetry. apply warm_ranks_perm.
  - apply Hhits. rewrite warm_ranks_perm. exact Hg.
Qed.

Lemma warm_budget_per_group_witness :
  (hits slash24 ["10.0.0.4"; "10.0.0.5"; "10.0.0.2"; "10.0.0.3"; "10.0.0.1"]
   <= 5)%nat.
Proof.
  refine (warm_budget_per_group 0 [slash24] 3 warm_model (seed_of counting)
            _ (Build_state counting 9) _ _ _ slash24 _).
  - reflexivity.
  - unfold groups_apart. refine (bool_decide_unpack _ _). vm_compute. reflexivity.
  - vm_compute. reflexivity.
  - left.
Defined.

(** ** More on the cold start *)

(** X14: a cold start over well-formed ranges with at least one usable
    group returns within [max_total_count] turns of its loop, whatever the
    draws: addresses of the supplied ranges, never more than the target,
    and exactly the target when there are at least target/254 groups. *)
Theorem cold_start_delivers fuel cidrs_v4 max_total_count ucb s :
  is_cold_start ucb = true ->
  Forall well_formed cidrs_v4 ->
  Exists usable (expand cidrs_v4) ->
  (max_total_count <= Z.of_nat fuel)%Z ->
  exists targets s',
    generate fuel cidrs_v4 [] max_total_count ucb s = Return targets s'
    /\ Forall (fun a => exists net n,
                 net ∈ cidrs_v4 /\ a = Ip.str_v4 n /\ Net.contains net n = true)
              targets
    /\ (len targets <= Z.max 0 max_total_count)%Z
    /\ ((0 <= max_total_count)%Z ->
        (max_total_count <= len (expand cidrs_v4) * 254)%Z ->
        len targets = max_total_count).
Proof. apply cold_start_returns. Qed.

Lemma cold_start_delivers_witness :
  exists targets s',
    generate 7 [slash22] [] 7 first_launch (seed_of counting) = Return targets s'
    /\ len targets = 7%Z.
Proof.
  destruct (cold_start_delivers 7 [slash22] 7 first_launch (seed_of counting))
    as (targets & s' & Hgen & _ & _ & Hfull).
  - reflexivity.
  - repeat constructor. unfold well_formed. cbn. lia.
  - apply Exists_exists. exists slash24. split; [left |]; vm_compute; reflexivity.
  - lia.
  - exists targets, s'. split; [exact Hgen |]. apply Hfull; [lia |].
    vm_compute. discriminate.
Defined.

(** One sweep takes one address from each usable group until the target is
    met. *)
Lemma cold_sweep_once max_total_count all_subnets :
  forall targets s,
    (len targets <= max_total_count)%Z ->
    exists added s',
      cold_sweep max_total_count all_subnets targets s = Return (targets ++ added) s'
      /\ Forall (fun a => exists sn, sn ∈ all_subnets /\ host_of sn a) added
      /\ len (targets ++ added)
         = Z.min max_total_count (len targets + usable_groups all_subnets)
      /\ (groups_apart all_subnets -> NoDup added).
Proof.
  induction all_subnets as [| sn rest IH]; intros targets s Hle; cbn [cold_sweep].
  - exists [], s. rewrite app_nil_r. unfold usable_groups, len. cbn.
    split; [reflexivity |]. split; [constructor |]. split; [unfold len in Hle; lia |].
    intros _. constructor.
  - assert (Hfilter : usable_groups (sn :: rest)
                      = ((if (2 <? num_addresses sn)%Z then 1 else 0)
                         + usable_groups rest)%Z).
    { unfold usable_groups, len. rewrite filter_cons.
      destruct (decide (usable sn)) as [Hu | Hu]; unfold usable in Hu.
      - replace (2 <? num_addresses sn)%Z with true by (symmetry; apply Z.ltb_lt, Hu).
        cbn [length]. lia.
      - replace (2 <? num_addresses sn)%Z with false by (symmetry; apply Z.ltb_ge; lia).
        lia. }
    assert (Hnn : (0 <= usable_groups rest)%Z) by (unfold usable_groups, len; lia).
    destruct (max_total_count <=? len targets)%Z eqn:Hmax.
    + apply Z.leb_le in Hmax. exists [], s. rewrite app_nil_r.
      split; [reflexivity |]. split; [constructor |].
      split; [destruct (2 <? num_addresses sn)%Z; lia |]. intros _. constructor.
    + apply Z.leb_gt in Hmax. rewrite Hfilter.
      destruct (2 <? num_addresses sn)%Z eqn:Hu.
      * apply Z.ltb_lt in Hu.
        destruct (random_host_returns sn s Hu) as (a & s1 & Ha & Hhost).
        unfold bind. rewrite Ha.
        destruct (IH (targets ++ [a]) s1) as (added & s' & Heq & Hall & Hlen & Hnd).
        { unfold len in *. rewrite length_app. cbn [length]. lia. }
        exists (a :: added), s'.
        rewrite <- app_assoc in Heq, Hlen. cbn [app] in Heq, Hlen.
        split; [exact Heq |]. split; [| split].
        -- constructor.
           ++ exists sn. split; [left | exact Hhost].
           ++ eapply Forall_impl; [exact Hall |].
              intros b (sn' & Hin & Hb). exists sn'. split; [right; exact Hin | exact Hb].
        -- rewrite Hlen. unfold len. rewrite length_app. cbn [length]. lia.
        -- unfold groups_apart. cbn [fmap list_fmap mjoin list_join].
           intros Hap. apply NoDup_app in Hap as (_ & Hdis & Hrest).
           constructor; [| apply Hnd, Hrest].
           intros Hin. rewrite Forall_forall in Hall.
           destruct (Hall a Hin) as (sn' & Hsn' & Hhost').
           apply (Hdis a); [apply host_of_hosts, Hhost |].
           apply list_elem_of_join. exists (hosts sn').
           split; [apply host_of_hosts, Hhost' |].
           apply list_elem_of_fmap. exists sn'. auto.
      * destruct (IH targets s Hle) as (added & s' & Heq & Hall & Hlen & Hnd).
        exists added, s'. split; [exact Heq |]. split; [| split].
        -- eapply Forall_impl; [exact Hall |].
           intros b (sn' & Hin & Hb). exists sn'. split; [right; exact Hin | exact Hb].
        -- rewrite Hlen. lia.
        -- unfold groups_apart. cbn [fmap list_fmap mjoin list_join].
           intros Hap. apply NoDup_app in Hap as (_ & _ & Hrest). apply Hnd, Hrest.
Qed.

(** X15: a cold start whose target is at most the number of usable groups
    is done after one sweep: it returns exactly the target, one address
    from each of as many groups, so without repeats when the groups share
    no host address. *)
Theorem cold_start_one_sweep fuel cidrs_v4 max_total_count ucb s :
  is_cold_start ucb = true ->
  (0 <= max_total_count <= usable_groups (expand cidrs_v4))%Z ->
  (1 <= fuel)%nat ->
  exists targets s',
    generate fuel cidrs_v4 [] max_total_count ucb s = Return targets s'
    /\ len targets = max_total_count
    /\ (groups_apart (expand cidrs_v4) -> NoDup targets).
Proof.
  intros Hcold [H0 Hmax] Hfuel. unfold generate. rewrite Hcold. unfold cold.
  destruct (shuffle_perm (expand cidrs_v4) s) as (subs & s1 & Hsh & Hperm).
  assert (Hus : usable_groups subs = usable_groups (expand cidrs_v4)).
  { unfold usable_groups, len. rewrite Hperm. reflexivity. }
  destruct fuel as [| fuel']; [lia |].
  unfold bind at 1. unfold bind at 1. unfold bind at 1. rewrite Hsh.
  cbv beta iota. cbn [cold_loop]. change (len (@nil string)) with 0%Z.
  destruct (max_total_count <=? 0)%Z eqn:Hz.
  - apply Z.leb_le in Hz. unfold ret.
    destruct (shuffle_perm (@nil string) s1) as (targets & s3 & Hsh2 & Hperm2).
    exists targets, s3. split; [exact Hsh2 |].
    apply Permutation_nil_r in Hperm2. subst targets.
    split; [unfold len; cbn; lia | intros _; constructor].
  - apply Z.leb_gt in Hz.
    destruct (cold_sweep_once max_total_count subs [] s1)
      as (added & s2 & Hsweep & _ & Hlen & Hnd).
    { unfold len. cbn. lia. }
    cbn [app] in Hsweep, Hlen. rewrite Hus in Hlen.
    change (len (@nil string)) with 0%Z in Hlen.
    assert (Hadded : len added = max_total_count) by lia.
    destruct (shuffle_perm added s2) as (targets & s3 & Hsh2 & Hperm2).
    exists targets, s3. split; [| split].
    + unfold bind. rewrite Hsweep.
      replace (max_total_count <=? len added)%Z with true
        by (symmetry; apply Z.leb_le; lia).
      unfold ret. exact Hsh2.
    + unfold len in *. rewrite Hperm2. exact Hadded.
    + intros Hap. rewrite Hperm2. apply Hnd.
      eapply groups_apart_perm; [| exact Hap]. symmetry. exact Hperm.
Qed.

Lemma cold_start_one_sweep_witness :
  exists targets s',
    generate 1 [slash22] [] 4 first_launch (seed_of counting) = Return targets s'
    /\ len targets = 4%Z.
Proof.
  destruct (cold_start_one_sweep 1 [slash22] 4 first_launch (seed_of counting))
    as (targets & s' & Hgen & Hlen & _).
  - reflexivity.
  - vm_compute. split; discriminate.
  - lia.
  - exists targets, s'. split; assumption.
Defined.

(** ** The warm path on small groups, and the IPv6 step *)

(** X16: in warm mode with a positive target, ranges that only give groups
    of one or two addresses make [generate] raise [ValueError]: the top
    rank always has a quota, and [randint] is called on an empty range. *)
Theorem warm_raises_on_small_groups fuel cidrs_v4 cidrs_v6 max_total_count ucb s :
  is_cold_start ucb = false ->
  expand cidrs_v4 <> [] ->
  Forall (fun sn => (num_addresses sn <= 2)%Z) (expand cidrs_v4) ->
  (0 < max_total_count)%Z ->
  generate fuel cidrs_v4 cidrs_v6 max_total_count ucb s = Raise ValueError.
Proof.
  intros Hwarm Hne Hsmall Hmax. unfold generate. rewrite Hwarm. cbv zeta.
  assert (Hw : warm max_total_count (expand cidrs_v4) ucb s = Raise ValueError).
  { unfold warm.
    pose proof (warm_ranks_perm (expand cidrs_v4) ucb) as Hperm.
    set (scored := sort_by_score _) in *.
    destruct scored as [| [score sn] rest] eqn:Hsc.
    - cbn in Hperm. apply Permutation_nil_l in Hperm. congruence.
    - assert (Hsn : (num_addresses sn <= 2)%Z).
      { rewrite Forall_forall in Hsmall. apply Hsmall. rewrite <- Hperm. left. }
      cbn [warm_loop length].
      replace (max_total_count <=? 0)%Z with false by (symmetry; apply Z.leb_gt, Hmax).
      destruct (quota_tiers 0 (S (length rest)) s) as [Htop _].
      unfold bind at 1. rewrite Htop by lia. cbv beta iota.
      change (0 <? 5)%Z with true. cbv iota.
      replace (2 <? num_addresses sn)%Z with false by (symmetry; apply Z.ltb_ge, Hsn).
      change (Z.to_nat 1) with 1%nat. cbn [draw_slots draw_slot]. unfold bind.
      rewrite (random_host_raises sn s Hsn). reflexivity. }
  unfold bind at 1. rewrite Hw. reflexivity.
Qed.

Lemma warm_raises_on_small_groups_witness :
  generate 0 [one_address] [] 3 warm_model (seed_of counting) = Raise ValueError.
Proof.
  apply warm_raises_on_small_groups.
  - reflexivity.
  - discriminate.
  - repeat constructor. vm_compute. discriminate.
  - lia.
Defined.

Lemma choice_returns {A} (l : list A) (s : Random.state) :
  l <> [] -> exists a s', choice l s = Return a s' /\ a ∈ l.
Proof.
  intros Hne. destruct l as [| x l]; [congruence |].
  unfold choice, bind, randbelow, bind, next_raw, ret. cbv beta iota.
  set (j := N.to_nat _).
  assert (Hj : (j < length (x :: l))%nat).
  { subst j. set (n := N.of_nat (length (x :: l))).
    assert (n <> 0%N) by (subst n; cbn [length]; lia).
    pose proof (N.mod_lt (draws s (cursor s)) n ltac:(assumption)).
    subst n. lia. }
  destruct (lookup_lt_is_Some_2 _ _ Hj) as [a Ha]. rewrite Ha.
  eexists _, _. split; [reflexivity |]. eapply list_elem_of_lookup_2, Ha.
Qed.

Lemma ipv6_loop_returns cidrs_v6 limit :
  cidrs_v6 <> [] -> Forall roomy cidrs_v6 ->
  forall targets s,
    exists added s',
      ipv6_loop limit cidrs_v6 targets s = Return (targets ++ added) s'
      /\ length added = limit /\ Forall (near_base cidrs_v6) added.
Proof.
  intros Hne Hroom. induction limit as [| n IH]; intros targets s; cbn [ipv6_loop].
  - exists [], s. rewrite app_nil_r. repeat split; constructor.
  - destruct (choice_returns cidrs_v6 s Hne) as (cidr & s1 & Hch & Hin).
    unfold bind at 1. rewrite Hch. cbv beta iota zeta.
    unfold bind at 1. unfold randint.
    change (2 ^ 16 <? 1)%Z with false. cbv iota.
    unfold bind at 1, randbelow, bind, next_raw, ret. cbv beta iota.
    set (m := (draws s1 (cursor s1) mod Z.to_N (2 ^ 16 - 1 + 1))%N).
    assert (Hm : (m < 65536)%N).
    { subst m. change (Z.to_N (2 ^ 16 - 1 + 1)) with 65536%N.
      apply N.mod_lt. discriminate. }
    rewrite Forall_forall in Hroom. pose proof (Hroom cidr Hin) as Hr.
    unfold roomy in Hr.
    assert (Hk : Z.to_N (1 + Z.of_N m) = (1 + m)%N) by lia.
    rewrite Hk. unfold str_v6.
    replace (network_address6 cidr + (1 + m) <? 2 ^ 128)%N with true
      by (symmetry; apply N.ltb_lt; lia).
    unfold ret. cbv beta iota.
    match goal with
    | |- context [ipv6_loop n cidrs_v6 (targets ++ [?a]) ?s2] =>
        destruct (IH (targets ++ [a]) s2) as (added & s' & Heq & Hlen & Hall);
        exists (a :: added), s'
    end.
    rewrite <- app_assoc in Heq. cbn [app] in Heq.
    split; [exact Heq |]. split; [cbn; lia |].
    constructor; [| exact Hall].
    exists cidr, (1 + m)%N. split; [exact Hin |]. split; [lia | reflexivity].
Qed.

(** X17: without IPv4 ranges [generate] needs one turn of the cold loop at
    most and returns the IPv6 part alone: nothing when there are no IPv6
    ranges either, else [int(max_total_count * 0.1)] addresses, each the
    base of a supplied range plus 1 to 65536, whatever the prefix length
    of the range. *)
Theorem generate_without_ipv4 fuel cidrs_v6 max_total_count ucb s :
  (1 <= fuel)%nat -> Forall roomy cidrs_v6 ->
  exists targets s',
    generate fuel [] cidrs_v6 max_total_count ucb s = Return targets s'
    /\ Forall (near_base cidrs_v6) targets
    /\ length targets
       = match cidrs_v6 with
         | [] => 0%nat
         | _ => Z.to_nat (Z.quot max_total_count 10)
         end.
Proof.
  intros Hfuel Hroom. unfold generate. cbn [expand]. cbv zeta.
  assert (H4 : exists s1,
            (if is_cold_start ucb then cold fuel max_total_count []
             else warm max_total_count [] ucb) s = Return [] s1).
  { destruct (is_cold_start ucb).
    - exists s. unfold cold, shuffle. cbn [length Nat.sub shuffle_from].
      unfold bind, ret. destruct fuel as [| fuel']; [lia |]. cbn [cold_loop].
      change (len (@nil string)) with 0%Z.
      destruct (max_total_count <=? 0)%Z eqn:Hz; [reflexivity |].
      unfold bind. cbn [cold_sweep]. unfold ret.
      change (len (@nil string)) with 0%Z.
      change (len (@nil IPv4Network)) with 0%Z. rewrite Hz.
      apply Z.leb_gt in Hz. change (0 * 254)%Z with 0%Z.
      replace (0 <? max_total_count)%Z with true by (symmetry; apply Z.ltb_lt, Hz).
      reflexivity.
    - exists s. reflexivity. }
  destruct H4 as [s1 H4]. unfold bind at 1. rewrite H4. cbv beta iota.
  destruct cidrs_v6 as [| c6 rest6].
  - unfold bind, ret. exists [], s1. split; [reflexivity |]. split; constructor.
  - destruct (ipv6_loop_returns (c6 :: rest6)
                (Z.to_nat (Z.quot max_total_count 10)) ltac:(discriminate) Hroom [] s1)
      as (added & s2 & Hloop & Hlen & Hall).
    cbn [app] in Hloop.
    destruct (shuffle_perm added s2) as (targets & s3 & Hsh & Hperm).
    exists targets, s3. split; [| split].
    + unfold bind. rewrite Hloop. exact Hsh.
    + rewrite Hperm. exact Hall.
    + rewrite Hperm. exact Hlen.
Qed.

Lemma generate_without_ipv4_witness :
  exists targets s',
    generate 1 [] [ {| network_address6 := 50543257672059871404715951523469721600;
                       prefixlen6 := 32 |} ] 25 first_launch (seed_of counting)
    = Return targets s'
    /\ length targets = 2%nat.
Proof.
  destruct (generate_without_ipv4 1
              [ {| network_address6 := 50543257672059871404715951523469721600;
                   prefixlen6 := 32 |} ] 25 first_launch (seed_of counting))
    as (targets & s' & Hgen & _ & Hlen).
  - lia.
  - repeat constructor.
  - exists targets, s'. split; [exact Hgen | exact Hlen].
Defined.

(** X18: splitting into /24 groups loses no address and adds none: an
    address lies in a well-formed range exactly when it lies in one of the
    groups [generate] expands the range to. *)
Theorem expand_covers (net : IPv4Network) (n : N) :
  well_formed net ->
  (Net.contains net n = true
   <-> exists sn, sn ∈ expand [net] /\ Net.contains sn n = true).
Proof.
  intros Hwf. unfold well_formed in Hwf. cbn [expand]. rewrite app_nil_r.
  destruct (prefixlen net <? 24)%N eqn:Hp.
  - apply N.ltb_lt in Hp.
    assert (Hpow : (2 ^ (32 - Z.of_N (prefixlen net))
                    = Z.of_N (2 ^ (24 - prefixlen net)) * 256)%Z).
    { rewrite N2Z.inj_pow, N2Z.inj_sub by lia.
      replace (32 - Z.of_N (prefixlen net))%Z
        with (Z.of_N 24 - Z.of_N (prefixlen net) + 8)%Z by lia.
      rewrite Z.pow_add_r by lia. reflexivity. }
    set (groups := (2 ^ (24 - prefixlen net))%N) in *.
    split.
    + intros Hc. unfold Net.contains, num_addresses in Hc. rewrite Hpow in Hc.
      apply andb_true_iff in Hc as [Hlo Hhi].
      apply N.leb_le in Hlo. apply Z.ltb_lt in Hhi.
      set (i := ((n - network_address net) / 256)%N).
      assert (Hi : (i < groups)%N).
      { subst i. apply N.Div0.div_lt_upper_bound. lia. }
      exists {| network_address := network_address net + N.of_nat (N.to_nat i) * 256;
                prefixlen := 24 |}.
      split.
      * unfold subnets24. apply list_elem_of_In, in_map_iff.
        exists (N.to_nat i). split; [reflexivity |]. apply in_seq. fold groups. lia.
      * unfold Net.contains, num_addresses. cbn [network_address prefixlen].
        change (2 ^ (32 - Z.of_N 24))%Z with 256%Z. rewrite N2Nat.id.
        pose proof (N.Div0.mul_div_le (n - network_address net) 256) as Hd.
        pose proof (N.Div0.mod_eq (n - network_address net) 256) as Hmod'.
        pose proof (N.mod_lt (n - network_address net) 256 ltac:(discriminate)) as Hlt.
        fold i in Hd, Hmod'.
        apply andb_true_iff. split; [apply N.leb_le | apply Z.ltb_lt]; lia.
    + intros (sn & Hsn & Hc). unfold subnets24 in Hsn.
      apply list_elem_of_In, in_map_iff in Hsn as (i & <- & Hi).
      apply in_seq in Hi. fold groups in Hi.
      unfold Net.contains, num_addresses in *. cbn [network_address prefixlen] in Hc.
      change (2 ^ (32 - Z.of_N 24))%Z with 256%Z in Hc. rewrite Hpow.
      apply andb_true_iff in Hc as [Hlo Hhi].
      apply N.leb_le in Hlo. apply Z.ltb_lt in Hhi.
      apply andb_true_iff. split; [apply N.leb_le | apply Z.ltb_lt]; nia.
  - split.
    + intros Hc. exists net. split; [left | exact Hc].
    + intros (sn & Hsn & Hc). apply list_elem_of_singleton in Hsn. subst sn. exact Hc.
Qed.

Lemma expand_covers_witness :
  exists sn, sn ∈ expand [slash22] /\ Net.contains sn 167772930 = true.
Proof.
  apply (proj1 (expand_covers slash22 167772930 ltac:(unfold well_formed; cbn; lia))).
  reflexivity.
Defined.


(** ** Stage 1 ([Scanner.run]) *)

Import Tcp.

(** *** Proofs *)

Lemma omap_ext_in {A B} (f g : A -> option B) (l : list A) :
  (forall x, x ∈ l -> f x = g x) -> omap f l = omap g l.
Proof.
  induction l as [| x l IH]; intros H; [reflexivity |].
  cbn. rewrite (H x) by left. rewrite IH; [reflexivity |].
  intros y Hy. apply H. right. exact Hy.
Qed.

Lemma completed_in_order_from {B} (f : nat -> string -> B) (l : list string) (k : nat) :
  omap (fun i => f i <$> l !! (i - k)%nat) (seq k (length l))
  = imap (fun j => f (k + j)%nat) l.
Proof.
  revert k. induction l as [| x l IH]; intros k; [reflexivity |].
  cbn [length seq omap list_omap]. rewrite Nat.sub_diag. cbn [lookup list_lookup fmap option_fmap option_map].
  rewrite imap_cons, Nat.add_0_r. f_equal.
  rewrite <- (imap_ext (fun j => f (S k + j)%nat)) by (intros; cbn; f_equal; lia).
  rewrite <- IH. apply omap_ext_in. intros i Hi.
  apply list_elem_of_In, in_seq in Hi.
  replace (i - k)%nat with (S (i - S k)) by lia. reflexivity.
Qed.

Lemma completed_fair targets observe order :
  fair targets order -> completed targets observe order ≡ₚ probes targets observe.
Proof.
  unfold fair, completed, probes. intros ->.
  pose proof (completed_in_order_from (fun i ip => _tcp ip (observe i)) targets 0) as H.
  cbn [Nat.add] in H. rewrite <- H.
  erewrite omap_ext_in; [reflexivity |].
  intros i _. cbn. rewrite Nat.sub_0_r. reflexivity.
Qed.

Lemma collect_valid done ucb valid :
  fst (collect done ucb valid) = valid ++ filter alive done.
Proof.
  revert ucb valid. induction done as [| r done IH]; intros ucb valid; cbn [collect].
  - rewrite app_nil_r. reflexivity.
  - rewrite IH, filter_cons. destruct (decide (alive r)) as [Ha | Ha].
    + unfold alive in Ha. rewrite Ha, <- app_assoc. reflexivity.
    + unfold alive in Ha. apply not_false_is_true in Ha. rewrite Ha. reflexivity.
Qed.

Lemma insert_sorted_perm x l : insert_sorted x l ≡ₚ x :: l.
Proof.
  induction l as [| y l IH]; cbn; [reflexivity |].
  destruct (__lt__ y x); [| reflexivity].
  rewrite IH. apply perm_swap.
Qed.

Lemma sort_perm l : sort l ≡ₚ l.
Proof.
  induction l as [| x l IH]; cbn; [reflexivity |].
  rewrite insert_sorted_perm. f_equiv. exact IH.
Qed.

Lemma lt_alive (a b : IpResult) :
  alive a -> alive b ->
  (__lt__ a b = true <-> latency a < latency b).
Proof.
  unfold alive, __lt__. intros -> ->. cbn. apply Qltb_true.
Qed.

Lemma insert_sorted_sorted x l :
  alive x -> Forall alive l ->
  StronglySorted by_latency l -> StronglySorted by_latency (insert_sorted x l).
Proof.
  intros Hx Hall. induction 1 as [| y l Hl IH Hy]; cbn.
  - repeat constructor.
  - apply Forall_cons in Hall as [Hay Hall].
    pose proof (lt_alive y x Hay Hx) as Hlt.
    destruct (__lt__ y x).
    + assert (latency y < latency x) by (apply Hlt; reflexivity).
      constructor; [apply IH, Hall |].
      rewrite insert_sorted_perm. constructor; [| exact Hy].
      unfold by_latency. lra.
    + assert (Hle : latency x <= latency y).
      { destruct (Qlt_le_dec (latency y) (latency x)) as [Hc | Hc]; [| exact Hc].
        apply Hlt in Hc. discriminate. }
      constructor; [constructor; assumption |].
      constructor; [exact Hle |].
      eapply Forall_impl; [exact Hy |]. unfold by_latency. intros z Hz.
      cbn in Hz. lra.
Qed.

Lemma sort_sorted l : Forall alive l -> StronglySorted by_latency (sort l).
Proof.
  induction 1 as [| x l Hx Hl IH]; cbn; [constructor |].
  apply insert_sorted_sorted; [exact Hx | | exact IH].
  rewrite sort_perm. exact Hl.
Qed.

Lemma run_results targets observe order (ucb : UCBManager.t) :
  length order = length targets ->
  fst (run targets observe order ucb)
  = sort (filter alive (completed targets observe order)).
Proof.
  intros Hlen. unfold run. destruct targets as [| t0 rest].
  - destruct order; [reflexivity | discriminate].
  - pose proof (collect_valid (completed (t0 :: rest) observe order) ucb []) as H.
    destruct (collect _ ucb []) as [valid u']. cbn [fst] in *. rewrite H.
    reflexivity.
Qed.

(** X19: Stage 1 keeps exactly the probes that connected, each once, and
    lists them by ascending latency, in whatever order the probes
    complete. *)
Theorem stage1_results targets observe order (ucb : UCBManager.t) :
  fair targets order ->
  let results := fst (run targets observe order ucb) in
  results ≡ₚ filter alive (probes targets observe)
  /\ Forall alive results
  /\ StronglySorted by_latency results.
Proof.
  intros Hfair results.
  assert (Hres : results = sort (filter alive (completed targets observe order))).
  { apply run_results. rewrite Hfair. apply length_seq. }
  assert (Hperm : results ≡ₚ filter alive (probes targets observe)).
  { rewrite Hres, sort_perm. apply filter_Permutation, completed_fair, Hfair. }
  assert (Hall : Forall alive (filter alive (completed targets observe order))).
  { apply Forall_forall. intros r Hr. apply list_elem_of_filter in Hr as [Hr _].
    exact Hr. }
  split; [exact Hperm |]. split.
  - rewrite Hres, sort_perm. exact Hall.
  - rewrite Hres. apply sort_sorted, Hall.
Qed.

Lemma stage1_results_witness :
  let targets := ["10.0.0.1"; "10.0.0.2"; "10.0.0.3"]%string in
  let observe := fun i => match i with
                          | O => TcpDone 0 80 | 1%nat => TcpDone 111 3
                          | _ => TcpDone 0 25 end in
  fst (run targets observe [2; 0; 1]%nat first_launch)
  = [ {| ip := "10.0.0.3"; latency := 25; speed := 0; loss := false |};
      {| ip := "10.0.0.1"; latency := 80; speed := 0; loss := false |} ]
  /\ StronglySorted by_latency
       (fst (run targets observe [2; 0; 1]%nat first_launch)).
Proof.
  cbv zeta. split; [vm_compute; reflexivity |].
  refine (proj2 (proj2 (stage1_results _ _ [2; 0; 1]%nat first_launch _))).
  unfold fair. cbn. 
  change [2; 0; 1]%nat with ([2]%nat ++ [0; 1]%nat).
  rewrite Permutation_app_comm. reflexivity.
Defined.


Lemma collect_model done :
  forall ucb valid,
    let u' := snd (collect done ucb valid) in
    launch_count u' = launch_count ucb
    /\ total_runs ucb <= total_runs u'
    /\ total_runs u' <= total_runs ucb + inject_Z (Z.of_nat (length done))
    /\ (Forall (fun r => Ip.contains ":" (ip r) = true) done -> u' = ucb).
Proof.
  induction done as [| r done IH]; intros ucb valid; cbn [collect].
  - cbn [snd length]. change (inject_Z (Z.of_nat 0)) with 0.
    split; [reflexivity |]. split; [lra |]. split; [lra | reflexivity].
  - cbv zeta.
    set (u1 := update (ip r) (latency r) 0 (loss r) true ucb).
    destruct (IH u1 (if loss r then valid else valid ++ [r])) as (Hl & Hlo & Hhi & Hsame).
    assert (H1 : launch_count u1 = launch_count ucb
                 /\ total_runs ucb <= total_runs u1 <= total_runs ucb + 1).
    { subst u1. destruct (subnet_of (ip r)) as [net |] eqn:Hnet.
      - destruct (update_applied (ip r) (latency r) 0 (loss r) true ucb net Hnet)
          as (_ & Hruns & _ & _ & Hlaunch).
        split; [exact Hlaunch |]. rewrite Hruns.
        destruct (impact_weight_cases (record_of ucb net)
                    (current_reward (latency r) 0 (loss r) true))
          as [(-> & _) | (-> & _)]; lra.
      - rewrite (update_ignored _ _ _ _ _ _ Hnet). split; [reflexivity | lra]. }
    destruct H1 as (Hl1 & Hlo1 & Hhi1).
    split; [congruence |]. split; [lra |]. split.
    + cbn [length]. rewrite Nat2Z.inj_succ. unfold Z.succ. rewrite inject_Z_plus.
      change (inject_Z 1) with 1. lra.
    + intros Hall. apply Forall_cons in Hall as [Hr Hall].
      rewrite (Hsame Hall). subst u1. apply update_ignored.
      unfold subnet_of. rewrite Hr. reflexivity.
Qed.

Lemma length_completed targets observe order :
  fair targets order ->
  length (completed targets observe order) = length targets.
Proof.
  intros H. rewrite (completed_fair targets observe order H).
  unfold probes. apply length_imap.
Qed.

(** X20: Stage 1 leaves the launch count alone and raises [total_runs] by
    at most one per target; targets with a colon in them (IPv6 addresses)
    leave the model as it was. *)
Theorem stage1_model targets observe order (ucb : UCBManager.t) :
  fair targets order ->
  let u' := snd (run targets observe order ucb) in
  launch_count u' = launch_count ucb
  /\ total_runs ucb <= total_runs u' <= total_runs ucb + inject_Z (len targets)
  /\ (Forall (fun a => Ip.contains ":" a = true) targets -> u' = ucb).
Proof.
  intros Hfair u'. subst u'. unfold run. destruct targets as [| t0 rest].
  - cbn [snd]. unfold len. cbn [length]. change (inject_Z (Z.of_nat 0)) with 0.
    split; [reflexivity |]. split; [lra | reflexivity].
  - pose proof (collect_model (completed (t0 :: rest) observe order) ucb []) as H.
    pose proof (length_completed (t0 :: rest) observe order Hfair) as Hlen.
    destruct (collect _ ucb []) as [valid u'] eqn:Hc. cbn [snd] in *.
    cbv zeta in H. destruct H as (Hl & Hlo & Hhi & Hsame).
    rewrite Hlen in Hhi. unfold len.
    split; [exact Hl |]. split; [split; assumption |].
    intros Hall. apply Hsame.
    apply Forall_forall. intros r Hr.
    rewrite (completed_fair _ observe order Hfair) in Hr.
    unfold probes in Hr. apply list_elem_of_lookup in Hr as (i & Hi).
    rewrite list_lookup_imap in Hi.
    destruct ((t0 :: rest) !! i) as [a |] eqn:Ha; [| discriminate].
    cbn in Hi. injection Hi as <-.
    rewrite Forall_forall in Hall.
    assert (Hin : Ip.contains ":" a = true).
    { apply Hall. eapply list_elem_of_lookup_2, Ha. }
    unfold _tcp, lost. destruct (observe i) as [| res ms]; [exact Hin |].
    destruct (res =? 0)%Z; exact Hin.
Qed.

Lemma stage1_model_witness :
  snd (run ["2606:4700::1"; "2606:4700::2"]%string (fun _ => TcpDone 0 30)
           [1; 0]%nat first_launch) = first_launch.
Proof.
  refine (proj2 (proj2 (stage1_model ["2606:4700::1"; "2606:4700::2"]%string
                          (fun _ => TcpDone 0 30) [1; 0]%nat first_launch _)) _).
  - unfold fair. cbn. apply perm_swap.
  - repeat constructor.
Defined.

Lemma join_colon_has_colon (h1 h2 : string) (rest : list string) :
  Ip.contains ":" (join_colon (h1 :: h2 :: rest)) = true.
Proof.
  cbn [join_colon]. rewrite contains_app.
  change (":" +:+ ?x) with (String ":" x). cbn [Ip.contains].
  rewrite Ascii.eqb_refl. apply orb_true_r.
Qed.

Lemma length_hextets n : length (hextets n) = 8%nat.
Proof. reflexivity. Qed.

Lemma compress_hextets_two (hs : list string) :
  (2 <= length hs)%nat -> (2 <= length (compress_hextets hs))%nat.
Proof.
  intros Hlen. unfold compress_hextets.
  destruct (best_run hs 0 None 0 (0%nat, 0%nat)) as [st n].
  destruct (1 <? n)%nat; [| exact Hlen].
  set (hs1 := if (st + n =? length hs)%nat then hs ++ [EmptyString] else hs).
  assert (H1 : (2 <= length hs1)%nat).
  { subst hs1. destruct (_ =? _)%nat; [rewrite length_app |]; lia. }
  destruct (st =? 0)%nat eqn:Hst.
  - cbn [length]. rewrite length_app. cbn [length app]. lia.
  - apply Nat.eqb_neq in Hst. rewrite length_app, length_take. cbn [length app]. lia.
Qed.

(** X21: the text of every IPv6 address holds a colon, so [update] ignores
    the addresses [generate] makes for the IPv6 ranges: the model never
    learns from them. *)
Theorem ipv6_addresses_are_ignored (n : N) (s s' : Random.state) (a : string) :
  str_v6 n s = Return a s' ->
  Ip.contains ":" a = true
  /\ forall latency speed is_loss tcp_only (u : UCBManager.t),
       update a latency speed is_loss tcp_only u = u.
Proof.
  unfold str_v6. destruct (n <? 2 ^ 128)%N; [| discriminate].
  unfold ret. intros [= <- _].
  assert (Hc : Ip.contains ":" (join_colon (compress_hextets (hextets n))) = true).
  { pose proof (compress_hextets_two (hextets n)) as H.
    rewrite length_hextets in H. specialize (H ltac:(lia)).
    destruct (compress_hextets (hextets n)) as [| h1 [| h2 rest]];
      cbn [length] in H; try lia.
    apply join_colon_has_colon. }
  split; [exact Hc |]. intros. apply update_ignored.
  unfold subnet_of. rewrite Hc. reflexivity.
Qed.

Lemma ipv6_addresses_are_ignored_witness :
  update "2606:4700::1" 20 0 false true first_launch = first_launch.
Proof.
  refine (proj2 (ipv6_addresses_are_ignored
                   50543257672059871404715951523469721601
                   (seed_of counting) (seed_of counting) "2606:4700::1" _)
                20 0 false true first_launch).
  vm_compute. reflexivity.
Defined.


(** ** Stage 2 at the edges *)

Lemma length_candidates cfg (results : list IpResult) :
  length (candidates cfg results)
  = if (0 <=? speed_test_range cfg)%Z
    then Nat.min (Z.to_nat (speed_test_range cfg)) (length results)
    else Z.to_nat (len results + speed_test_range cfg).
Proof.
  unfold candidates, slice_to, len.
  destruct (0 <=? speed_test_range cfg)%Z eqn:Hk.
  - rewrite length_take, length_imap. reflexivity.
  - apply Z.leb_gt in Hk. rewrite length_take, !length_imap. lia.
Qed.

Lemma smart_speed_test_none cfg observe results (ucb : UCBManager.t) :
  smart_speed_test cfg observe results ucb = None
  <-> length (candidates cfg results) = 0%nat.
Proof.
  unfold smart_speed_test.
  destruct (candidates cfg results) as [| c cands]; [split; reflexivity |].
  destruct (probe observe (c :: cands) ucb []) as [final u'].
  split; discriminate.
Qed.

(** X22: Stage 2 is skipped, and with it the only call of [save], exactly
    when Stage 1 left no result, when [speed_test_range] is 0, or when it
    is negative and drops every result: a negative range [-k] tests all
    but the [k] slowest results. *)
Theorem stage2_skipped_iff cfg observe results (ucb : UCBManager.t) :
  (smart_speed_test cfg observe results ucb = None
   <-> results = [] \/ speed_test_range cfg = 0%Z
       \/ (speed_test_range cfg < 0 /\ len results <= - speed_test_range cfg)%Z)
  /\ ((speed_test_range cfg < 0)%Z ->
      fst <$> candidates cfg results
      = seq 0 (Z.to_nat (len results + speed_test_range cfg))).
Proof.
  split.
  - rewrite smart_speed_test_none, length_candidates. unfold len.
    destruct (0 <=? speed_test_range cfg)%Z eqn:Hk.
    + apply Z.leb_le in Hk. destruct results as [| r results].
      * cbn. rewrite Nat.min_0_r. split; auto.
      * cbn [length]. split.
        -- intros H. right. left. lia.
        -- intros [H | [H | H]]; [discriminate | lia | lia].
    + apply Z.leb_gt in Hk. split.
      * intros H. right. right. lia.
      * intros [-> | [H | H]]; cbn; lia.
  - intros Hk. unfold candidates, slice_to, len.
    replace (0 <=? speed_test_range cfg)%Z with false by (symmetry; apply Z.leb_gt; lia).
    rewrite length_imap. rewrite fmap_take.
    assert (Hfst : forall (l : list IpResult) k,
              fst <$> imap (fun i (r : IpResult) => ((k + i)%nat, r)) l
              = seq k (length l)).
    { induction l as [| r l IH]; intros k; [reflexivity |].
      rewrite imap_cons. cbn [fmap list_fmap fst length seq]. rewrite Nat.add_0_r.
      f_equal. rewrite <- IH. f_equal. apply imap_ext. intros; cbn. f_equal. lia. }
    pose proof (Hfst results 0%nat) as H0. cbn [Nat.add] in H0.
    rewrite H0, take_seq. f_equal. lia.
Qed.

Lemma completed_all_lost targets observe order :
  (forall i a, targets !! i = Some a -> loss (_tcp a (observe i)) = true) ->
  filter alive (completed targets observe order) = [].
Proof.
  intros Hlost. apply filter_none. apply Forall_forall. intros r Hr.
  unfold completed in Hr. apply list_elem_of_omap in Hr as (i & _ & Hi).
  destruct (targets !! i) as [a |] eqn:Ha; [| discriminate].
  cbn in Hi. injection Hi as <-. unfold alive. rewrite (Hlost i a Ha). discriminate.
Qed.

(** X23: when no target answers the TCP probe, Stage 1 has no result and
    Stage 2 is skipped, whatever the configuration: the model, with the
    losses Stage 1 recorded and the counted launch, is not saved. *)
Theorem no_survivor_no_save cfg targets tcp order http (ucb : UCBManager.t) :
  length order = length targets ->
  (forall i a, targets !! i = Some a -> loss (_tcp a (tcp i)) = true) ->
  fst (run targets tcp order ucb) = []
  /\ smart_speed_test cfg http (fst (run targets tcp order ucb))
                      (snd (run targets tcp order ucb)) = None.
Proof.
  intros Hlen Hlost.
  assert (Hres : fst (run targets tcp order ucb) = []).
  { rewrite run_results by exact Hlen. rewrite completed_all_lost by exact Hlost.
    reflexivity. }
  split; [exact Hres |]. rewrite Hres.
  apply smart_speed_test_none. unfold candidates, slice_to. cbn.
  destruct (0 <=? speed_test_range cfg)%Z; rewrite take_nil; reflexivity.
Qed.

Lemma no_survivor_no_save_witness :
  smart_speed_test sample_cfg (fun _ => HttpError)
    (fst (run ["10.0.0.1"; "10.0.0.2"]%string (fun _ => TcpError) [0; 1]%nat first_launch))
    (snd (run ["10.0.0.1"; "10.0.0.2"]%string (fun _ => TcpError) [0; 1]%nat first_launch))
  = None.
Proof.
  refine (proj2 (no_survivor_no_save sample_cfg ["10.0.0.1"; "10.0.0.2"]%string
                   (fun _ => TcpError) [0; 1]%nat (fun _ => HttpError)
                   first_launch _ _)).
  - reflexivity.
  - intros i a _. reflexivity.
Defined.


(** ** The DNS updater ([update/spaceship/update.py]) *)

Import Spaceship.

(** *** Proofs *)











Lemma build_plan_spec TTL subdomains target_ips current_records :
  let plan := build_plan TTL subdomains target_ips current_records in
  (forall r, r ∈ fst plan
             <-> r ∈ current_records /\ rtype r = Some "A"%string
                 /\ exists sub, sub ∈ subdomains /\ rname r = Some sub)
  /\ snd plan
     = mjoin ((fun sub =>
                 (fun a => {| ntype := "A"; nname := sub; address := a; ttl := TTL |})
                   <$> target_ips) <$> subdomains).
Proof.
  induction subdomains as [| sub more IH]; cbn [build_plan].
  - cbn. split; [| reflexivity]. intros r. split.
    + intros H. inversion H.
    + intros (_ & _ & sub & H & _). inversion H.
  - destruct (build_plan TTL more target_ips current_records) as [del add].
    cbv zeta in IH |- *. cbn [fst snd] in IH |- *. destruct IH as [IHd IHa].
    split.
    + intros r. rewrite elem_of_app, list_elem_of_filter, IHd. split.
      * intros [((Ht & Hn) & Hin) | (Hin & Ht & sub' & Hsub & Hn)].
        -- split; [exact Hin |]. split; [exact Ht |]. exists sub. split; [left | exact Hn].
        -- split; [exact Hin |]. split; [exact Ht |]. exists sub'.
           split; [right; exact Hsub | exact Hn].
      * intros (Hin & Ht & sub' & Hsub & Hn).
        apply elem_of_cons in Hsub as [-> | Hsub]; [left; auto |].
        right. split; [exact Hin |]. split; [exact Ht |]. exists sub'. auto.
    + rewrite IHa. reflexivity.
Qed.

(** X25: the update plan.  [main] stops without a plan when the CSV gives
    no address.  Otherwise, for a limit of at least 1 and at least one
    subdomain, the plan deletes exactly the zone's A records named by one
    of the subdomains, no record of another type or name, and adds for
    each subdomain, in turn, one A record per address for the best
    addresses up to the limit. *)
Theorem main_plan (MAX_IP_COUNT TTL : Z) (SUBDOMAINS : list string)
    (rows : list csv_row) (current_records : list dns_record) :
  (1 <= MAX_IP_COUNT)%Z -> SUBDOMAINS <> [] ->
  let best := take (Z.to_nat MAX_IP_COUNT) (get_best_ips rows) in
  match main MAX_IP_COUNT TTL SUBDOMAINS rows current_records with
  | None => get_best_ips rows = []
  | Some (del, add) =>
      (forall r, r ∈ del
                 <-> r ∈ current_records /\ rtype r = Some "A"%string
                     /\ exists sub, sub ∈ SUBDOMAINS /\ rname r = Some sub)
      /\ add = mjoin ((fun sub =>
                         (fun a => {| ntype := "A"; nname := sub;
                                      address := a; ttl := TTL |}) <$> best)
                        <$> SUBDOMAINS)
      /\ length add = (length SUBDOMAINS * length best)%nat
      /\ best <> []
  end.
Proof.
  intros Hmax Hsubs best. unfold main.
  destruct (get_best_ips rows) as [| a0 ips] eqn:Hbest; [reflexivity |].
  cbv zeta.
  set (target_ips := Scanner.slice_to (a0 :: ips) _).
  assert (Htargets : target_ips = best).
  { subst target_ips best. unfold Scanner.slice_to.
    replace (0 <=? _)%Z with true by (symmetry; apply Z.leb_le; lia).
    destruct (Z.min_spec (Z.of_nat (length (a0 :: ips))) MAX_IP_COUNT)
      as [[Hlt ->] | [Hge ->]]; [| reflexivity].
    rewrite Nat2Z.id, firstn_all. symmetry. apply take_ge. lia. }
  assert (Hne : best <> []).
  { subst best. destruct (Z.to_nat MAX_IP_COUNT) eqn:Hn; [lia | discriminate]. }
  pose proof (build_plan_spec TTL SUBDOMAINS target_ips current_records) as Hspec.
  destruct (build_plan TTL SUBDOMAINS target_ips current_records) as [del add].
  cbv zeta in Hspec. cbn [fst snd] in Hspec. destruct Hspec as [Hdel Hadd].
  rewrite Htargets in Hadd.
  assert (Hlen : length add = (length SUBDOMAINS * length best)%nat).
  { rewrite Hadd. clear. induction SUBDOMAINS as [| sub more IH]; [reflexivity |].
    rewrite fmap_cons. cbn [mjoin list_join length].
    rewrite length_app, length_fmap. cbn [Nat.mul]. f_equal. exact IH. }
  assert (Hadd_ne : add <> []).
  { intros ->. cbn in Hlen. destruct SUBDOMAINS; [congruence |].
    destruct best; [congruence |]. cbn in Hlen. lia. }
  destruct del as [| d del']; destruct add as [| n add']; try congruence; auto.
Qed.

Lemma main_plan_witness :
  exists del add,
    main 5 300 ["@"; "www"]%string
         [ {| IP := "10.0.0.1"; Latency := Num 20; Speed := Num 7 |} ]
         [ {| rtype := Some "A"%string; rname := Some "www"%string;
              rest_of := "1.2.3.4" |};
           {| rtype := Some "TXT"%string; rname := Some "www"%string;
              rest_of := "v=spf1" |} ]
    = Some (del, add)
    /\ length add = 2%nat.
Proof.
  pose proof (main_plan 5 300 ["@"; "www"]%string
                [ {| IP := "10.0.0.1"; Latency := Num 20; Speed := Num 7 |} ]
                [ {| rtype := Some "A"%string; rname := Some "www"%string;
                     rest_of := "1.2.3.4" |};
                  {| rtype := Some "TXT"%string; rname := Some "www"%string;
                     rest_of := "v=spf1" |} ]
                ltac:(lia) ltac:(discriminate)) as H.
  cbv zeta in H.
  destruct (main _ _ _ _ _) as [[del add] |] eqn:Hm.
  - exists del, add. split; [reflexivity |].
    destruct H as (_ & _ & Hlen & _). rewrite Hlen. vm_compute. reflexivity.
  - vm_compute in H. discriminate.
Defined.
